(** * Ghost kart replay: a shallow embedding of [karts/ghost_kart.cpp]

    The ghost kart replays a recorded run.  Every tick it asks its
    [GhostController] for the current replay index and the fraction of the
    way to the next recorded frame, and derives the pose and the graphical
    effects of the kart from the two bracketing frames.

    Numbers.  The C++ [float] channels are read as real numbers: rounding,
    infinities and NaN are outside this development.  [unsigned int] indices
    are binary naturals, and the one place where the code adds to an index
    ([idx + 1]) carries its 32-bit wrap-around.

    Collaborators.  The classes the ghost kart talks to (scene node, kart
    model, kart graphics, the [Moveable] base) live in other files.  A call
    into one of them is recorded, with its arguments, in a call log kept in
    the kart state; fields of the base classes that the ghost kart writes
    itself ([m_transform], [m_xyz_front], the visibility of the scene node)
    are ordinary fields. *)

From Stdlib Require Import Reals Lra Lia List NArith ZArith Bool.
From Stdlib Require String Ascii DecimalString.
Import ListNotations.

Local Open Scope R_scope.

(** ** Outcomes of a member function

    A member function either returns normally, or stops at one of the
    faults the C++ source can run into. *)

Inductive Fault : Type :=
| AssertionFailed   (* an [assert(...)] whose condition is false *)
| OutOfBounds       (* [operator[]] of a [std::vector] past its size *)
| NullDereference.  (* a member call through a null [dynamic_cast] result *)

Inductive Outcome (A : Type) : Type :=
| Done (a : A)
| Crash (f : Fault).

Arguments Done {A} a.
Arguments Crash {A} f.

Definition bind {A B : Type} (m : Outcome A) (k : A -> Outcome B) : Outcome B :=
  match m with
  | Done a => k a
  | Crash f => Crash f
  end.

Notation "x <- m ;; k" := (bind m (fun x => k))
  (at level 61, m at next level, right associativity).

Definition assert (b : bool) : Outcome unit :=
  if b then Done tt else Crash AssertionFailed.

(** ** Numbers *)

(** The C++ [float], and Bullet's [btScalar], which is a [float]. *)
Definition float : Type := R.
Definition btScalar : Type := float.

(** Exposes the real numbers behind [float] and [btScalar] to [ring] and
    [field], which look for equations between reals. *)
Ltac as_reals := unfold btScalar, float in *.

(** ** Indices and vectors *)

Definition uint : Type := N.

Definition UINT_RANGE : N := 4294967296.

(** Addition of [unsigned int] values. *)
Definition uint_add (a b : uint) : uint := ((a + b) mod UINT_RANGE)%N.

(** [v.size()] *)
Definition size {A : Type} (v : list A) : N := N.of_nat (length v).

(** [v[i]] *)
Definition at_index {A : Type} (v : list A) (i : N) : Outcome A :=
  match nth_error v (N.to_nat i) with
  | Some a => Done a
  | None => Crash OutOfBounds
  end.

(** [v.push_back(a)] *)
Definition push_back {A : Type} (v : list A) (a : A) : list A := v ++ [a].

(** ** Vectors, quaternions, transforms *)

Record Vec3 : Type := mkVec3
  { getX : btScalar; getY : btScalar; getZ : btScalar }.

(** [s * v] *)
Definition vscale (s : btScalar) (v : Vec3) : Vec3 :=
  mkVec3 (getX v * s) (getY v * s) (getZ v * s).

(** [a + b] *)
Definition vadd (a b : Vec3) : Vec3 :=
  mkVec3 (getX a + getX b) (getY a + getY b) (getZ a + getZ b).

Record btQuaternion : Type := mkQuat
  { qx : btScalar; qy : btScalar; qz : btScalar; qw : btScalar }.

Definition qdot (a b : btQuaternion) : btScalar :=
  qx a * qx b + qy a * qy b + qz a * qz b + qw a * qw b.

Definition length2 (q : btQuaternion) : btScalar := qdot q q.

(** The component-wise blend [(1-t)*a + t*b] of two quaternions; the ghost
    kart does not use it, it is what [slerp] is compared with. *)
Definition qlerp (a b : btQuaternion) (t : btScalar) : btQuaternion :=
  mkQuat ((1 - t) * qx a + t * qx b) ((1 - t) * qy a + t * qy b)
         ((1 - t) * qz a + t * qz b) ((1 - t) * qw a + t * qw b).

(** The angle of the shorter of the two arcs between the orientations [a]
    and [b] (as points of the unit sphere of quaternions). *)
Definition arc_angle (a b : btQuaternion) : btScalar := acos (Rabs (qdot a b)).

(** Modelled from the spec: [btQuaternion::slerp] belongs to the bundled
    Bullet library and is not among the files treated here.  The spec asks
    for the spherical, shortest-arc, constant-angular-velocity interpolation
    of two unit quaternions: when the two orientations differ, the point at
    fraction [t] of the shorter great arc from [a] to [b] (or to [-b], the
    same orientation, when that is the nearer one); when they coincide, [a]. *)
Definition slerp (a b : btQuaternion) (t : btScalar) : btQuaternion :=
  let product := qdot a b in
  if Rlt_dec (Rabs product) 1 then
    let sign := if Rlt_dec product 0 then -1 else 1 in
    let theta := acos (sign * product) in
    let s1 := sign * sin (t * theta) in
    let d := 1 / sin theta in
    let s0 := sin ((1 - t) * theta) in
    mkQuat ((qx a * s0 + qx b * s1) * d)
           ((qy a * s0 + qy b * s1) * d)
           ((qz a * s0 + qz b * s1) * d)
           ((qw a * s0 + qw b * s1) * d)
  else a.

(** A [btTransform]: an origin and a rotation.  Bullet keeps the rotation
    as a basis matrix; here it is kept as the quaternion that
    [getRotation()] returns and [setRotation()] stores. *)
Record btTransform : Type := mkTransform
  { getOrigin : Vec3; getRotation : btQuaternion }.

Definition identity_rotation : btQuaternion := mkQuat 0 0 0 1.

(** ** Recorded frames ([ReplayBase]) *)

(** [float m_suspension_length[4]] *)
Record float4 : Type := mkFloat4
  { f4_0 : float; f4_1 : float; f4_2 : float; f4_3 : float }.

Definition float4_get (a : float4) (i : nat) : float :=
  match i with
  | O => f4_0 a
  | 1%nat => f4_1 a
  | 2%nat => f4_2 a
  | _ => f4_3 a
  end.

Record PhysicInfo : Type := mkPhysicInfo
  { m_speed : float; m_steer : float; m_suspension_length : float4 }.

Record KartReplayEvent : Type := mkKartReplayEvent
  { m_on_nitro : bool; m_on_zipper : bool }.

(** ** The replay cursor

    [GhostController] is declared in [karts/controller/ghost_controller.hpp];
    the ghost kart only uses the member functions below. *)

Class GhostController (GC : Type) : Type := {
  addReplayTime : float -> GC -> GC;
  gc_update : float -> GC -> GC;
  gc_reset : GC -> GC;
  isReplayEnd : GC -> bool;
  getCurrentReplayIndex : GC -> uint;
  getReplayDelta : GC -> float
}.

(** What [dynamic_cast<GhostController*>(getController())] finds. *)
Inductive Controller (GC : Type) : Type :=
| Ghost (gc : GC)
| NotGhost.

Arguments Ghost {GC} gc.
Arguments NotGhost {GC}.

(** ** Properties of the kart that the ghost kart reads *)

Record KartEnv : Type := mkKartEnv {
  getEngineMaxSpeed : float;   (* m_kart_properties->getEngineMaxSpeed() *)
  getLowestPoint : float;      (* getKartModel()->getLowestPoint() *)
  getKartLength : float;       (* getKartLength() *)
  basis_apply : btQuaternion -> Vec3 -> Vec3
                           (* getBasis() * v for the basis of a rotation *)
}.

(** ** Calls into collaborators *)

Inductive Call : Type :=
| KartGFX_updateNitroGraphics (nitro_frac : float)
| showZipperFire
| Moveable_updateGraphics (dt : float) (center_shift : Vec3) (q : btQuaternion)
| KartModel_update (dt distance steer speed : float) (idx : uint)
| KartGFX_update (dt : float)
| KartModel_setDefaultSuspension.

(** ** The ghost kart *)

Section GhostKart.

Context {GC : Type} {gcI : GhostController GC}.
Variable env : KartEnv.

Record GhostKart : Type := mkGhostKart {
  m_controller : Controller GC;
  m_node_visible : bool;
  m_all_transform : list btTransform;
  m_all_physic_info : list PhysicInfo;
  m_all_replay_events : list KartReplayEvent;
  m_graphical_y_offset : float;
  m_transform : btTransform;
  m_xyz_front : Vec3;
  m_calls : list Call
}.

Definition set_controller (c : Controller GC) (k : GhostKart) : GhostKart :=
  mkGhostKart c (m_node_visible k) (m_all_transform k) (m_all_physic_info k)
    (m_all_replay_events k) (m_graphical_y_offset k) (m_transform k)
    (m_xyz_front k) (m_calls k).

(** [m_node->setVisible(b)] *)
Definition setVisible (b : bool) (k : GhostKart) : GhostKart :=
  mkGhostKart (m_controller k) b (m_all_transform k) (m_all_physic_info k)
    (m_all_replay_events k) (m_graphical_y_offset k) (m_transform k)
    (m_xyz_front k) (m_calls k).

Definition set_graphical_y_offset (f : float) (k : GhostKart) : GhostKart :=
  mkGhostKart (m_controller k) (m_node_visible k) (m_all_transform k)
    (m_all_physic_info k) (m_all_replay_events k) f (m_transform k)
    (m_xyz_front k) (m_calls k).

Definition set_transform (t : btTransform) (k : GhostKart) : GhostKart :=
  mkGhostKart (m_controller k) (m_node_visible k) (m_all_transform k)
    (m_all_physic_info k) (m_all_replay_events k) (m_graphical_y_offset k) t
    (m_xyz_front k) (m_calls k).

(** [setXYZ(a)] *)
Definition setXYZ (a : Vec3) (k : GhostKart) : GhostKart :=
  set_transform (mkTransform a (getRotation (m_transform k))) k.

(** [setRotation(q)] *)
Definition setRotation (q : btQuaternion) (k : GhostKart) : GhostKart :=
  set_transform (mkTransform (getOrigin (m_transform k)) q) k.

(** [getXYZ()] *)
Definition getXYZ (k : GhostKart) : Vec3 := getOrigin (m_transform k).

Definition set_xyz_front (a : Vec3) (k : GhostKart) : GhostKart :=
  mkGhostKart (m_controller k) (m_node_visible k) (m_all_transform k)
    (m_all_physic_info k) (m_all_replay_events k) (m_graphical_y_offset k)
    (m_transform k) a (m_calls k).

(** A call into a collaborator is appended to the log. *)
Definition call (c : Call) (k : GhostKart) : GhostKart :=
  mkGhostKart (m_controller k) (m_node_visible k) (m_all_transform k)
    (m_all_physic_info k) (m_all_replay_events k) (m_graphical_y_offset k)
    (m_transform k) (m_xyz_front k) (m_calls k ++ [c]).

(** The three [push_back]s of [addReplayEvent]. *)
Definition push_frame (trans : btTransform) (pi : PhysicInfo)
    (kre : KartReplayEvent) (k : GhostKart) : GhostKart :=
  mkGhostKart (m_controller k) (m_node_visible k)
    (push_back (m_all_transform k) trans)
    (push_back (m_all_physic_info k) pi)
    (push_back (m_all_replay_events k) kre)
    (m_graphical_y_offset k) (m_transform k) (m_xyz_front k) (m_calls k).

(** [getTrans()(v)]: the basis applied to [v], plus the origin. *)
Definition trans_apply (t : btTransform) (v : Vec3) : Vec3 :=
  vadd (basis_apply env (getRotation t) v) (getOrigin t).

(** *** [GhostKart::addReplayEvent] *)

(** [float f = 0; for (int i = 0; i < 4; i++) f += a[i];] *)
Definition sum_suspension (a : float4) : float :=
  fold_left (fun f i => f + float4_get a i) (seq 0 4) 0.

Definition addReplayEvent (time : float) (trans : btTransform) (pi : PhysicInfo)
    (kre : KartReplayEvent) (k : GhostKart) : Outcome GhostKart :=
  match m_controller k with
  | NotGhost => Crash NullDereference
  | Ghost gc =>
      let k := set_controller (Ghost (addReplayTime time gc)) k in
      let k := push_frame trans pi kre k in
      if (size (m_all_physic_info k) =? 1)%N then
        pi0 <- at_index (m_all_physic_info k) 0%N ;;
        let f := sum_suspension (m_suspension_length pi0) in
        let k := set_graphical_y_offset (- f / 4 + getLowestPoint env) k in
        Done (call KartModel_setDefaultSuspension k)
      else Done k
  end.

(** *** [GhostKart::update] *)

Definition update (dt : float) (k : GhostKart) : Outcome GhostKart :=
  match m_controller k with
  | NotGhost => Done k
  | Ghost gc0 =>
      let gc := gc_update dt gc0 in
      let k := set_controller (Ghost gc) k in
      if isReplayEnd gc then Done (setVisible false k)
      else
        let idx := getCurrentReplayIndex gc in
        let rd := getReplayDelta gc in
        _ <- assert (idx <? size (m_all_transform k))%N ;;
        ev <- at_index (m_all_replay_events k) idx ;;
        nitro_frac <-
          (if m_on_nitro ev then
             pi <- at_index (m_all_physic_info k) idx ;;
             let nitro_frac := Rabs (m_speed pi) / getEngineMaxSpeed env in
             Done (if Rlt_dec 1 nitro_frac then 1 else nitro_frac)
           else Done 0) ;;
        let k := call (KartGFX_updateNitroGraphics nitro_frac) k in
        ev <- at_index (m_all_replay_events k) idx ;;
        let k := if m_on_zipper ev then call showZipperFire k else k in
        t0 <- at_index (m_all_transform k) idx ;;
        t1 <- at_index (m_all_transform k) (uint_add idx 1%N) ;;
        let k := setXYZ (vadd (vscale (1 - rd) (getOrigin t0))
                              (vscale rd (getOrigin t1))) k in
        let q := slerp (getRotation t0) (getRotation t1) rd in
        let k := setRotation q k in
        let center_shift :=
          basis_apply env (getRotation (m_transform k))
            (mkVec3 0 (m_graphical_y_offset k) 0) in
        let k := call (Moveable_updateGraphics dt center_shift
                         identity_rotation) k in
        pi <- at_index (m_all_physic_info k) idx ;;
        let k := call (KartModel_update dt (dt * m_speed pi) (m_steer pi)
                         (m_speed pi) idx) k in
        let front := mkVec3 0 0 (getKartLength env * (1 / 2)) in
        let k := set_xyz_front (trans_apply (m_transform k) front) k in
        Done (call (KartGFX_update dt) k)
  end.

(** *** [GhostKart::getSpeed] *)

Definition getSpeed (k : GhostKart) : Outcome float :=
  match m_controller k with
  | NotGhost => Crash NullDereference
  | Ghost gc =>
      _ <- assert (getCurrentReplayIndex gc <? size (m_all_physic_info k))%N ;;
      pi <- at_index (m_all_physic_info k) (getCurrentReplayIndex gc) ;;
      Done (m_speed pi)
  end.

(** *** [GhostKart::reset] *)

(** Modelled from the spec: [Kart::reset] is the base-class reset, defined
    in [karts/kart.cpp], which is not among the files treated here.  For the
    ghost kart the spec retains one effect of it: the index and time reset
    is delegated to the cursor. *)
Definition Kart_reset (k : GhostKart) : GhostKart :=
  match m_controller k with
  | Ghost gc => set_controller (Ghost (gc_reset gc)) k
  | NotGhost => k
  end.

Definition reset (k : GhostKart) : Outcome GhostKart :=
  let k := setVisible true k in
  let k := Kart_reset k in
  update 0 k.

End GhostKart.

Arguments GhostKart GC : clear implicits.

(** ** Reading the frame store *)

Section FrameStore.

Context {GC : Type} {gcI : GhostController GC}.
Variable env : KartEnv.

(** The number of recorded frames. *)
Definition frameCount (k : GhostKart GC) : N := size (m_all_transform k).

(** The three vectors are filled in lock step by [addReplayEvent]. *)
Definition store_wf (k : GhostKart GC) : Prop :=
  length (m_all_physic_info k) = length (m_all_transform k) /\
  length (m_all_replay_events k) = length (m_all_transform k).

Definition default_transform : btTransform :=
  mkTransform (mkVec3 0 0 0) identity_rotation.

Definition default_physic_info : PhysicInfo :=
  mkPhysicInfo 0 0 (mkFloat4 0 0 0 0).

Definition default_event : KartReplayEvent := mkKartReplayEvent false false.

(** Frame [i] of the store, read through each of the three vectors. *)
Definition transform_at (k : GhostKart GC) (i : N) : btTransform :=
  nth (N.to_nat i) (m_all_transform k) default_transform.

Definition physic_at (k : GhostKart GC) (i : N) : PhysicInfo :=
  nth (N.to_nat i) (m_all_physic_info k) default_physic_info.

Definition event_at (k : GhostKart GC) (i : N) : KartReplayEvent :=
  nth (N.to_nat i) (m_all_replay_events k) default_event.

(** The recorded position [P[i]]. *)
Definition position_at (k : GhostKart GC) (i : N) : Vec3 :=
  getOrigin (transform_at k i).

(** Two karts hold the same recording: the same frames and the same
    graphical offset derived from them. *)
Definition same_recording (k1 k2 : GhostKart GC) : Prop :=
  m_all_transform k1 = m_all_transform k2 /\
  m_all_physic_info k1 = m_all_physic_info k2 /\
  m_all_replay_events k1 = m_all_replay_events k2 /\
  m_graphical_y_offset k1 = m_graphical_y_offset k2.

(** The nitro intensity the spec describes for frame [i]. *)
Definition nitro_intensity (k : GhostKart GC) (i : N) : float :=
  if m_on_nitro (event_at k i)
  then Rmin 1 (Rabs (m_speed (physic_at k i)) / getEngineMaxSpeed env)
  else 0.

(** The calls one tick makes for frame [idx] at time step [dt], once the
    pose [t] of the tick is known. *)
Definition tick_calls (k : GhostKart GC) (dt : float) (idx : N)
    (nitro : float) (t : btTransform) : list Call :=
  [KartGFX_updateNitroGraphics nitro] ++
  (if m_on_zipper (event_at k idx) then [showZipperFire] else []) ++
  [Moveable_updateGraphics dt
     (basis_apply env (getRotation t) (mkVec3 0 (m_graphical_y_offset k) 0))
     identity_rotation;
   KartModel_update dt (dt * m_speed (physic_at k idx))
     (m_steer (physic_at k idx)) (m_speed (physic_at k idx)) idx;
   KartGFX_update dt].

(** ** Loading a recording *)

Record ReplayFrame : Type := mkReplayFrame {
  rf_time : float;
  rf_trans : btTransform;
  rf_physic : PhysicInfo;
  rf_event : KartReplayEvent
}.

(** The loader calls [addReplayEvent] once per recorded frame, in order. *)
Fixpoint addReplayEvents (fs : list ReplayFrame) (k : GhostKart GC)
    : Outcome (GhostKart GC) :=
  match fs with
  | [] => Done k
  | f :: fs' =>
      k' <- addReplayEvent env (rf_time f) (rf_trans f) (rf_physic f)
              (rf_event f) k ;;
      addReplayEvents fs' k'
  end.

(** How often [setDefaultSuspension] was called. *)
Definition is_setDefaultSuspension (c : Call) : bool :=
  match c with
  | KartModel_setDefaultSuspension => true
  | _ => false
  end.

Definition baseline_computations (k : GhostKart GC) : nat :=
  length (filter is_setDefaultSuspension (m_calls k)).

(** ** The contract of the cursor *)

(** Modelled from the spec: the cursor is an external collaborator whose
    code is not among the files treated here.  Its invariant: while [ended]
    is false, [idx + 1] is a valid index of a store of [n] frames. *)
Definition cursor_in_bounds (gc : GC) (n : N) : Prop :=
  isReplayEnd gc = false -> (getCurrentReplayIndex gc + 1 < n)%N.

(** Modelled from the spec: the position a cursor has right after load and
    right after its reset, before any time has elapsed: not ended, frame 0,
    fraction 0. *)
Definition cursor_at_start (gc : GC) : Prop :=
  isReplayEnd gc = false /\
  getCurrentReplayIndex gc = 0%N /\
  getReplayDelta gc = 0.

End FrameStore.

(** ** A cursor held at a given position

    The simplest implementation of the cursor interface: it reports the
    position it is given, does not move when advanced, and returns to frame
    0, fraction 0 on reset.  It serves to run the ghost kart on concrete
    recordings. *)

Record HeldCursor : Type := mkHeldCursor {
  hc_ended : bool;
  hc_index : uint;
  hc_delta : float
}.

#[export] Instance HeldCursor_controller : GhostController HeldCursor := {
  addReplayTime := fun _ c => c;
  gc_update := fun _ c => c;
  gc_reset := fun _ => mkHeldCursor false 0%N 0;
  isReplayEnd := hc_ended;
  getCurrentReplayIndex := hc_index;
  getReplayDelta := hc_delta
}.

(** ** Concrete recordings *)

(** A kart whose engine maximum speed, 4, is below the recorded speeds. *)
Definition sample_env : KartEnv :=
  mkKartEnv 4 (- 1 / 4) 2 (fun _ v => v).

(** A cursor half way between frames 0 and 1, one at the start, and one
    that has reached the end. *)
Definition mid_cursor : HeldCursor := mkHeldCursor false 0%N (1 / 2).
Definition start_cursor : HeldCursor := mkHeldCursor false 0%N 0.
Definition ended_cursor : HeldCursor := mkHeldCursor true 1%N 0.

(** A kart as constructed: nothing recorded, visible, identity transform. *)
Definition new_kart {GC : Type} (c : Controller GC) : GhostKart GC :=
  mkGhostKart c true [] [] [] 0
    (mkTransform (mkVec3 0 0 0) identity_rotation) (mkVec3 0 0 0) [].

(** The two-frame store of the spec's example: positions (0,0,0) and
    (10,0,0), speeds 5 and 7. *)
Definition two_frames (c : Controller HeldCursor) : GhostKart HeldCursor :=
  mkGhostKart c true
    [mkTransform (mkVec3 0 0 0) identity_rotation;
     mkTransform (mkVec3 10 0 0) (mkQuat 1 0 0 0)]
    [mkPhysicInfo 5 0 (mkFloat4 (1/10) (1/10) (1/10) (1/10));
     mkPhysicInfo 7 0 (mkFloat4 (2/10) (2/10) (2/10) (2/10))]
    [mkKartReplayEvent true false; mkKartReplayEvent false true]
    (- (1/10) + - 1 / 4)
    (mkTransform (mkVec3 0 0 0) identity_rotation) (mkVec3 0 0 0) [].

(** A store with a single frame. *)
Definition one_frame (c : Controller HeldCursor) : GhostKart HeldCursor :=
  mkGhostKart c true
    [mkTransform (mkVec3 0 0 0) identity_rotation]
    [mkPhysicInfo 5 0 (mkFloat4 (1/10) (1/10) (1/10) (1/10))]
    [mkKartReplayEvent false false]
    (- (1/10) + - 1 / 4)
    (mkTransform (mkVec3 0 0 0) identity_rotation) (mkVec3 0 0 0) [].

(** The two-frame recording once its replay has ended: the cursor reports
    the end, the kart is hidden and still carries the pose and the calls of
    its last tick. *)
Definition finished_kart : GhostKart HeldCursor :=
  mkGhostKart (Ghost ended_cursor) false
    (m_all_transform (two_frames NotGhost))
    (m_all_physic_info (two_frames NotGhost))
    (m_all_replay_events (two_frames NotGhost))
    (m_graphical_y_offset (two_frames NotGhost))
    (mkTransform (mkVec3 9 0 0) (mkQuat 1 0 0 0)) (mkVec3 9 0 1)
    [KartGFX_updateNitroGraphics 1; KartGFX_update (1 / 60)].

Definition sample_frame (speed s : float) : ReplayFrame :=
  mkReplayFrame 0 (mkTransform (mkVec3 0 0 0) identity_rotation)
    (mkPhysicInfo speed 0 (mkFloat4 s s s s)) (mkKartReplayEvent false false).

(** ** More readings of the call log and of positions *)

Definition is_showZipperFire (c : Call) : bool :=
  match c with
  | showZipperFire => true
  | _ => false
  end.

(** How often the zipper fire was shown. *)
Definition zipper_fires {GC : Type} (k : GhostKart GC) : nat :=
  length (filter is_showZipperFire (m_calls k)).

(** [x] lies between [a] and [b], whichever of the two is the smaller. *)
Definition between (a b x : float) : Prop := Rmin a b <= x <= Rmax a b.

(** Every coordinate of [p] lies between those of [a] and [b]. *)
Definition in_box (a b p : Vec3) : Prop :=
  between (getX a) (getX b) (getX p) /\
  between (getY a) (getY b) (getY p) /\
  between (getZ a) (getZ b) (getZ p).

(** The controller after the loader has handed it the recorded times. *)
Definition addReplayTimes {GC : Type} {gcI : GhostController GC}
    (fs : list ReplayFrame) (gc : GC) : GC :=
  fold_left (fun c f => addReplayTime (rf_time f) c) fs gc.

(** A three-frame recording; the zipper is on in frame 1. *)
Definition three_frames (c : Controller HeldCursor) : GhostKart HeldCursor :=
  mkGhostKart c true
    [mkTransform (mkVec3 0 0 0) identity_rotation;
     mkTransform (mkVec3 10 0 0) (mkQuat 1 0 0 0);
     mkTransform (mkVec3 10 4 (- 8)) (mkQuat 1 0 0 0)]
    [mkPhysicInfo 5 0 (mkFloat4 (1/10) (1/10) (1/10) (1/10));
     mkPhysicInfo 7 (1/2) (mkFloat4 (2/10) (2/10) (2/10) (2/10));
     mkPhysicInfo 3 0 (mkFloat4 (2/10) (2/10) (2/10) (2/10))]
    [mkKartReplayEvent true false; mkKartReplayEvent false true;
     mkKartReplayEvent false false]
    (- (1/10) + - 1 / 4)
    (mkTransform (mkVec3 0 0 0) identity_rotation) (mkVec3 0 0 0) [].

(** A cursor a quarter of the way from frame 1 to frame 2, and one that
    points past a two-frame store without reporting the end. *)
Definition second_cursor : HeldCursor := mkHeldCursor false 1%N (1 / 4).
Definition stray_cursor : HeldCursor := mkHeldCursor false 2%N 0.

(** Three recorded frames as the loader passes them on. *)
Definition sample_frames : list ReplayFrame :=
  [mkReplayFrame 0 (mkTransform (mkVec3 1 2 3) identity_rotation)
     (mkPhysicInfo 5 0 (mkFloat4 (1/10) (1/10) (1/10) (1/10)))
     (mkKartReplayEvent false false);
   mkReplayFrame 1 (mkTransform (mkVec3 4 5 6) identity_rotation)
     (mkPhysicInfo 7 0 (mkFloat4 (2/10) (2/10) (2/10) (2/10)))
     (mkKartReplayEvent true false);
   mkReplayFrame 2 (mkTransform (mkVec3 7 8 9) identity_rotation)
     (mkPhysicInfo 9 0 (mkFloat4 (3/10) (3/10) (3/10) (3/10)))
     (mkKartReplayEvent false true)].

(** * The material manager: [material_manager.cpp]

    The manager keeps a vector of materials.  The materials up to
    [m_shared_material_index] are shared and stay for the whole run; those
    after it are temporary (track specific) and are popped after a race. *)

Module MaterialManager.

Import String.
Local Open Scope string_scope.
Local Open Scope Z_scope.

(** The newline character of the C++ string literals. *)
Definition nl : string := String (Ascii.ascii_of_nat 10) EmptyString.

(** How a member function ends: it returns, throws a [std::runtime_error],
    leaves the process through [exit], or reads a vector outside its
    bounds. *)
Inductive Result (A : Type) : Type :=
| Ret (a : A)
| Throw (what : string)
| Exit (code : Z)
| Undefined.

Arguments Ret {A} a.
Arguments Throw {A} what.
Arguments Exit {A} code.
Arguments Undefined {A}.

Definition rbind {A B : Type} (m : Result A) (k : A -> Result B) : Result B :=
  match m with
  | Ret a => k a
  | Throw w => Throw w
  | Exit c => Exit c
  | Undefined => Undefined
  end.

Notation "x <~ m ;; k" := (rbind m (fun x => k))
  (at level 61, m at next level, right associativity).

(** The largest [int]. *)
Definition INT_MAX : Z := 2147483647.

(** [(int)n] for a [size_t] value [n]: the low 32 bits, read as a signed
    number. *)
Definition int_of_size (n : N) : Z :=
  (Z.of_N n + 2147483648) mod 4294967296 - 2147483648.

(** [v[i]] for an [int] index [i]: a negative index converts to a huge
    [size_t] and is outside every vector. *)
Definition vec_at {A : Type} (v : list A) (i : Z) : Result A :=
  if i <? 0 then Undefined
  else match nth_error v (Z.to_nat i) with
       | Some a => Ret a
       | None => Undefined
       end.

(** [v.pop_back()] *)
Definition pop_back {A : Type} (v : list A) : Result (list A) :=
  match v with
  | [] => Undefined
  | _ => Ret (removelast v)
  end.

(** What the manager uses of the classes around it: [Material]
    ([material.hpp]), [XMLNode] ([io/xml_node.hpp]), the file manager and
    [StringUtils::basename]. *)
Class MaterialWorld : Type := {
  Material : Type;
  XMLNode : Type;
  (* m->getTexFname() *)
  getTexFname : Material -> string;
  (* new Material(fname, index, is_full_path) *)
  Material_of_file : string -> N -> bool -> Material;
  (* new Material(node, index): the material, or the what() of the
     std::exception the constructor throws *)
  Material_of_node : XMLNode -> N -> Material + string;
  (* root->getName(), root->getNumNodes(), root->getNode(i) *)
  xml_getName : XMLNode -> string;
  xml_getNumNodes : XMLNode -> N;
  xml_getNode : XMLNode -> N -> option XMLNode;
  (* file_manager->getTextureFile(fname), file_manager->createXMLTree(f) *)
  getTextureFile : string -> string;
  createXMLTree : string -> option XMLNode;
  (* StringUtils::basename *)
  basename : string -> string
}.

Section Manager.

Context {W : MaterialWorld}.

(** What is written to [stderr]: the format and its argument. *)
Inductive Message : Type :=
| ConstructorFailed (what filename : string).

Record MaterialManager : Type := mkMaterialManager {
  m_materials : list Material;
  m_shared_material_index : Z;
  (* the materials [delete] was called on, oldest first *)
  m_deleted : list Material;
  (* what was printed to stderr, oldest first *)
  m_stderr : list Message
}.

(** The constructor reserves space and initialises nothing else: the
    shared index starts with whatever value the memory holds. *)
Definition MaterialManager_new (indeterminate : Z) : MaterialManager :=
  mkMaterialManager [] indeterminate [] [].

Definition set_materials (v : list Material) (s : MaterialManager)
    : MaterialManager :=
  mkMaterialManager v (m_shared_material_index s) (m_deleted s) (m_stderr s).

Definition set_shared_material_index (i : Z) (s : MaterialManager)
    : MaterialManager :=
  mkMaterialManager (m_materials s) i (m_deleted s) (m_stderr s).

(** [delete m] *)
Definition delete (m : Material) (s : MaterialManager) : MaterialManager :=
  mkMaterialManager (m_materials s) (m_shared_material_index s)
    (m_deleted s ++ [m]) (m_stderr s).

(** [fprintf(stderr, ...)] *)
Definition print_stderr (msg : Message) (s : MaterialManager)
    : MaterialManager :=
  mkMaterialManager (m_materials s) (m_shared_material_index s)
    (m_deleted s) (m_stderr s ++ [msg]).

(** The number of times the body of
    [for (int i = first; i >= last; i--)] runs. *)
Definition down_count (first last : Z) : nat := Z.to_nat (first - last + 1).

(** *** [setAllMaterialFlags]

    The loop body for [i = n - 1] down to [0]; the result lists the
    materials [setMaterialProperties(mb)] was called on, in call order. *)
Fixpoint setAllMaterialFlags_loop (v : list Material) (image : string)
    (n : nat) : Result (list Material) :=
  match n with
  | O => Ret []
  | S i =>
      m <~ vec_at v (Z.of_nat i) ;;
      rest <~ setAllMaterialFlags_loop v image i ;;
      Ret (if (getTexFname m =? image)%string then m :: rest else rest)
  end.

Definition setAllMaterialFlags (texture_name : string) (s : MaterialManager)
    : Result (list Material) :=
  let image := basename texture_name in
  setAllMaterialFlags_loop (m_materials s) image
    (down_count (int_of_size (N.of_nat (List.length (m_materials s))) - 1) 0).

(** *** [addEntity] *)
Definition addEntity (m : Material) (s : MaterialManager)
    : MaterialManager * Z :=
  let s := set_materials (m_materials s ++ [m]) s in
  (s, int_of_size (N.of_nat (List.length (m_materials s))) - 1).

(** *** [pushTempMaterial] *)

(** One round of the loop over the child nodes. *)
Definition pushTempMaterial_step (root : XMLNode) (filename : string)
    (s : MaterialManager) (i : N) : Result MaterialManager :=
  match xml_getNode root i with
  | None => Exit (-1)   (* after a message on stderr *)
  | Some node =>
      match Material_of_node node (N.of_nat (List.length (m_materials s))) with
      | inl m => Ret (set_materials (m_materials s ++ [m]) s)
      | inr what => Ret (print_stderr (ConstructorFailed what filename) s)
      end
  end.

Fixpoint pushTempMaterial_loop (root : XMLNode) (filename : string)
    (ids : list N) (s : MaterialManager) : Result MaterialManager :=
  match ids with
  | [] => Ret s
  | i :: ids' =>
      s' <~ pushTempMaterial_step root filename s i ;;
      pushTempMaterial_loop root filename ids' s'
  end.

(** The values [i] takes in [for (unsigned i = 0; i < n; i++)]. *)
Definition upto (n : N) : list N := map N.of_nat (seq 0 (N.to_nat n)).

Definition pushTempMaterial (filename : string) (s : MaterialManager)
    : Result (MaterialManager * bool) :=
  match createXMLTree filename with
  | None => Ret (s, true)
  | Some root =>
      if negb (xml_getName root =? "materials")%string then Ret (s, true)
      else
        s' <~ pushTempMaterial_loop root filename
                (upto (xml_getNumNodes root)) s ;;
        Ret (s', true)
  end.

(** *** [addSharedMaterial] *)
Definition addSharedMaterial (filename : string) (s : MaterialManager)
    : Result MaterialManager :=
  if (filename =? "")%string then
    Throw ("FATAL: File '" ++ filename ++ "' not found" ++ nl)%string
  else
    r <~ pushTempMaterial filename s ;;
    let '(s, ok) := r in
    if negb ok then
      Throw ("FATAL: Parsing error in '" ++ filename ++ "'" ++ nl)%string
    else
      Ret (set_shared_material_index
             (int_of_size (N.of_nat (List.length (m_materials s)))) s).

(** *** [loadMaterial] *)
Definition loadMaterial (s : MaterialManager) : Result MaterialManager :=
  let fname := "materials.xml" in
  let full_name := getTextureFile fname in
  s <~ addSharedMaterial full_name s ;;
  Ret (set_shared_material_index
         (int_of_size (N.of_nat (List.length (m_materials s)))) s).

(** *** [reInit] *)
Definition reInit (s : MaterialManager) : Result MaterialManager :=
  let s := fold_left (fun s m => delete m s) (m_materials s) s in
  let s := set_materials [] s in
  loadMaterial s.

(** *** [popTempMaterial]

    [fuel] rounds of the loop body, starting at index [i]. *)
Fixpoint popTempMaterial_loop (fuel : nat) (i : Z) (s : MaterialManager)
    : Result MaterialManager :=
  match fuel with
  | O => Ret s
  | S fuel' =>
      m <~ vec_at (m_materials s) i ;;
      let s := delete m s in
      v <~ pop_back (m_materials s) ;;
      popTempMaterial_loop fuel' (i - 1) (set_materials v s)
  end.

Definition popTempMaterial (s : MaterialManager) : Result MaterialManager :=
  let first := int_of_size (N.of_nat (List.length (m_materials s))) - 1 in
  popTempMaterial_loop (down_count first (m_shared_material_index s)) first s.

(** *** [getMaterial]

    The search loop for [i = n - 1] down to [0]. *)
Fixpoint getMaterial_search (v : list Material) (name : string) (n : nat)
    : Result (option Material) :=
  match n with
  | O => Ret None
  | S i =>
      m <~ vec_at v (Z.of_nat i) ;;
      if (getTexFname m =? name)%string then Ret (Some m)
      else getMaterial_search v name i
  end.

(** The result is the pointer returned: [None] is [NULL]. *)
Definition getMaterial (fname : string) (is_full_path make_permanent : bool)
    (s : MaterialManager) : Result (MaterialManager * option Material) :=
  if (fname =? "")%string then
    if (1 <=? N.of_nat (List.length (m_materials s)))%N then
      m <~ vec_at (m_materials s) 0 ;; Ret (s, Some m)
    else Ret (s, None)
  else
    let name := basename fname in
    found <~ getMaterial_search (m_materials s) name
               (down_count
                  (int_of_size (N.of_nat (List.length (m_materials s))) - 1)
                  0) ;;
    match found with
    | Some m => Ret (s, Some m)
    | None =>
        let m := Material_of_file fname
                   (N.of_nat (List.length (m_materials s))) is_full_path in
        let s := set_materials (m_materials s ++ [m]) s in
        let s :=
          if make_permanent then
            set_shared_material_index
              (int_of_size (N.of_nat (List.length (m_materials s)))) s
          else s in
        Ret (s, Some m)
    end.

End Manager.

End MaterialManager.

(** ** A small world of materials

    Materials that remember the texture name and the index they were
    built with, XML trees whose nodes carry a texture name, and two
    material files: the shared [materials.xml] and a track's own file. *)

Module ToyMaterials.

Import String MaterialManager.
Local Open Scope string_scope.

Record ToyMaterial : Type := mkToyMaterial {
  tm_texname : string;
  tm_index : N
}.

(** A node is the root of a file, with the names of its children, or one
    of those children. *)
Inductive ToyNode : Type :=
| Root (name : string) (children : list string)
| Leaf (name : string).

Definition node_name (n : ToyNode) : string :=
  match n with Root name _ => name | Leaf name => name end.

Definition node_children (n : ToyNode) : list ToyNode :=
  match n with Root _ children => map Leaf children | Leaf _ => [] end.

(** The part of a path after its last slash (character 47). *)
Fixpoint toy_basename_from (path acc : string) : string :=
  match path with
  | EmptyString => acc
  | String c rest =>
      if Ascii.eqb c (Ascii.ascii_of_nat 47) then toy_basename_from rest EmptyString
      else toy_basename_from rest (acc ++ String c EmptyString)
  end.

Definition toy_basename (path : string) : string :=
  toy_basename_from path EmptyString.

Definition shared_file : ToyNode :=
  Root "materials" ["grass.png"; "road.png"].

Definition track_file : ToyNode :=
  Root "materials" ["lava.png"; "broken"; "road.png"].

#[export] Instance toy_world : MaterialWorld := {
  Material := ToyMaterial;
  XMLNode := ToyNode;
  getTexFname := tm_texname;
  Material_of_file := fun fname index _ =>
    mkToyMaterial (toy_basename fname) index;
  Material_of_node := fun node index =>
    if node_name node =? "broken" then inr "cannot read %s"
    else inl (mkToyMaterial (node_name node) index);
  xml_getName := node_name;
  xml_getNumNodes := fun n => N.of_nat (List.length (node_children n));
  xml_getNode := fun n i => nth_error (node_children n) (N.to_nat i);
  getTextureFile := fun fname => "data/textures/" ++ fname;
  createXMLTree := fun f =>
    if f =? "data/textures/materials.xml" then Some shared_file
    else if f =? "tracks/volcano/materials.xml" then Some track_file
    else None;
  basename := toy_basename
}.

(** The manager after [loadMaterial]: two shared materials. *)
Definition loaded_manager : MaterialManager :=
  mkMaterialManager
    [mkToyMaterial "grass.png" 0; mkToyMaterial "road.png" 1] 2 [] [].

(** The same manager during a race on the volcano track: two temporary
    materials after the shared ones, one of them a second "road.png". *)
Definition racing_manager : MaterialManager :=
  mkMaterialManager
    [mkToyMaterial "grass.png" 0; mkToyMaterial "road.png" 1;
     mkToyMaterial "lava.png" 2; mkToyMaterial "road.png" 3] 2 [] [].

End ToyMaterials.

(** * Challenges: [challenges/challenge.cpp]

    A challenge has a state, an id, a name and the list of features it
    unlocks when solved. *)

Module Challenge.

Import String.
Local Open Scope string_scope.
Local Open Scope N_scope.

(** The newline character of the C++ literals. *)
Definition newline : string := String (Ascii.ascii_of_nat 10) EmptyString.

(** The states this file assigns. *)
Inductive ChallengeState : Type :=
| CH_INACTIVE
| CH_SOLVED.

(** The kinds of reward this file creates. *)
Inductive REWARD_TYPE : Type :=
| UNLOCK_TRACK
| UNLOCK_MODE
| UNLOCK_GP
| UNLOCK_DIFFICULTY.

Record UnlockableFeature : Type := mkUnlockableFeature {
  name : string;
  type : REWARD_TYPE;
  user_name : string
}.

(** What the challenge uses of its surroundings: the lisp reader
    ([lisp::Lisp]), the translation macro [_()] and [gettext], the track
    manager, the C library's formatting of a format string with one [%s]
    argument, and the platform the file is compiled for, which decides what
    [snprintf] stands for. *)
Class ChallengeWorld : Type := {
  Lisp : Type;
  (* config->getLisp(id): the sub-node, or NULL *)
  getLisp : Lisp -> string -> option Lisp;
  (* node->get(key, bool&): the value stored when the key is present *)
  get_bool : Lisp -> string -> option bool;
  (* _(text) and gettext(text) *)
  translate : string -> string;
  (* track_manager->getTrack(ident)->getName(), when the track exists *)
  getTrackName : string -> option string;
  (* what printf writes for a format with one %s and its argument *)
  format_s : string -> string -> string;
  (* defined(WIN32) && !defined(__CYGWIN__): snprintf is _snprintf *)
  WIN32 : bool
}.

Section Challenges.

Context {W : ChallengeWorld}.

(** Calls into the virtual functions of the subclasses and into the
    [lisp::Writer]. *)
Inductive Call : Type :=
| loadState (subnode : Lisp)
| saveState
| Writer_beginList (id : string)
| Writer_write (key : string) (value : bool)
| Writer_endList (id : string).

Record Challenge : Type := mkChallenge {
  m_state : ChallengeState;
  m_Id : string;
  m_Name : string;
  m_feature : list UnlockableFeature;
  m_calls : list Call
}.

(** [Challenge::Challenge(id, name)] *)
Definition Challenge_new (id name : string) : Challenge :=
  mkChallenge CH_INACTIVE id name [] [].

(** [getId()], the accessor of [m_Id]. *)
Definition getId (c : Challenge) : string := m_Id c.

Definition set_state (st : ChallengeState) (c : Challenge) : Challenge :=
  mkChallenge st (m_Id c) (m_Name c) (m_feature c) (m_calls c).

Definition call (x : Call) (c : Challenge) : Challenge :=
  mkChallenge (m_state c) (m_Id c) (m_Name c) (m_feature c)
    (m_calls c ++ [x]).

Definition push_feature (f : UnlockableFeature) (c : Challenge) : Challenge :=
  mkChallenge (m_state c) (m_Id c) (m_Name c) (m_feature c ++ [f])
    (m_calls c).

(** *** [Challenge::load] *)
Definition load (config : Lisp) (c : Challenge) : Challenge :=
  match getLisp config (getId c) with
  | None => c
  | Some subnode =>
      let finished :=
        match get_bool subnode "solved" with
        | Some b => b
        | None => false
        end in
      let c := set_state (if finished then CH_SOLVED else CH_INACTIVE) c in
      if negb finished then call (loadState subnode) c else c
  end.

(** *** [Challenge::save]

    [isSolved()] is defined in the header; it is taken as an argument. *)
Definition save (isSolved : Challenge -> bool) (c : Challenge) : Challenge :=
  let c1 := call (Writer_beginList (getId c)) c in
  let c2 := call (Writer_write "solved" (isSolved c)) c1 in
  let c3 := if negb (isSolved c) then call saveState c2 else c2 in
  call (Writer_endList (getId c)) c3.

(** *** The rewards *)
Definition addUnlockTrackReward (track_name : string) (c : Challenge)
    : Challenge :=
  push_feature (mkUnlockableFeature track_name UNLOCK_TRACK "") c.

Definition addUnlockModeReward (internal_mode_name user_mode_name : string)
    (c : Challenge) : Challenge :=
  push_feature
    (mkUnlockableFeature internal_mode_name UNLOCK_MODE user_mode_name) c.

Definition addUnlockGPReward (gp_name : string) (c : Challenge) : Challenge :=
  push_feature (mkUnlockableFeature (translate gp_name) UNLOCK_GP "") c.

Definition addUnlockDifficultyReward (internal_name user_name : string)
    (c : Challenge) : Challenge :=
  push_feature
    (mkUnlockableFeature internal_name UNLOCK_DIFFICULTY user_name) c.

(** *** [Challenge::getUnlockedMessage] *)

(** The first [n] characters of a string. *)
Fixpoint truncate (n : nat) (s : string) : string :=
  match n, s with
  | O, _ => EmptyString
  | _, EmptyString => EmptyString
  | S n', String ch rest => String ch (truncate n' rest)
  end.

(** [snprintf(message, 127, format, arg)] into [char message[128]],
    followed by reading [message] as a string.

    The C library's [snprintf] writes at most 126 characters and then the
    terminator.  Where the file defines [snprintf] as [_snprintf], a text
    of 126 characters or fewer is written with its terminator; a text of
    127 characters or more fills the first 127 bytes and no terminator is
    written, and as the last byte of the buffer was never initialised there
    is no string to read: [None]. *)
Definition snprintf_127 (format arg : string) : option string :=
  let text := format_s format arg in
  if WIN32 then
    if (String.length text <=? 126)%nat then Some text else None
  else Some (truncate 126 text).

(** The [switch]: the message for one feature.  [None] when the track is
    not known and its null pointer is dereferenced, or when [message] is
    left without a terminator. *)
Definition feature_message (f : UnlockableFeature) : option string :=
  match type f with
  | UNLOCK_TRACK =>
      match getTrackName (name f) with
      | Some track_name =>
          snprintf_127
            (translate ("New track '%s'" ++ newline ++ "now available"))
            (translate track_name)
      | None => None
      end
  | UNLOCK_MODE =>
      snprintf_127
        (translate ("New game mode" ++ newline ++ "'%s'" ++ newline
                    ++ "now available"))
        (user_name f)
  | UNLOCK_GP =>
      snprintf_127
        (translate ("New Grand Prix '%s'" ++ newline ++ "now available"))
        (name f)
  | UNLOCK_DIFFICULTY =>
      snprintf_127
        (translate ("New difficulty" ++ newline ++ "'%s'" ++ newline
                    ++ "now available"))
        (user_name f)
  end.

(** The loop body for the features from index [n] on, appending to
    [unlocked_message]. *)
Fixpoint getUnlockedMessage_loop (fs : list UnlockableFeature) (n : N)
    (unlocked_message : string) : option string :=
  match fs with
  | [] => Some unlocked_message
  | f :: fs' =>
      let unlocked_message :=
        if 0 <? n then unlocked_message ++ newline else unlocked_message in
      match feature_message f with
      | Some message =>
          getUnlockedMessage_loop fs' (n + 1) (unlocked_message ++ message)
      | None => None
      end
  end.

(** What is written before the message of the feature at index [n]. *)
Definition separator (n : N) : string := if 0 <? n then newline else "".

(** [amount] is the size of the vector cast to [unsigned int]. *)
Definition getUnlockedMessage (c : Challenge) : option string :=
  let amount := N.of_nat (List.length (m_feature c)) mod 4294967296 in
  getUnlockedMessage_loop (firstn (N.to_nat amount) (m_feature c)) 0 "".

End Challenges.

End Challenge.

(** ** A small world of challenges

    No translation, one known track, a [printf] that puts the argument in
    the place of the first [%s] of the format, and the C library's
    [snprintf]; and the same world compiled for Windows. *)

Module ToyChallenges.

Import String Challenge.
Local Open Scope string_scope.

Fixpoint toy_format_s (format arg : string) : string :=
  match format with
  | EmptyString => EmptyString
  | String c rest =>
      match rest with
      | String d rest' =>
          if (Ascii.eqb c (Ascii.ascii_of_nat 37) &&
              Ascii.eqb d (Ascii.ascii_of_nat 115))%bool
          then arg ++ rest'
          else String c (toy_format_s rest arg)
      | EmptyString => String c EmptyString
      end
  end.

(** A configuration: for each challenge id, whether it is solved. *)
Inductive ToyLisp : Type :=
| Config (entries : list (string * option bool))
| Entry (solved : option bool).

Fixpoint toy_lookup (entries : list (string * option bool)) (id : string)
    : option ToyLisp :=
  match entries with
  | [] => None
  | (k, v) :: rest => if k =? id then Some (Entry v) else toy_lookup rest id
  end.

#[export] Instance toy_world : ChallengeWorld := {
  Lisp := ToyLisp;
  getLisp := fun l id =>
    match l with Config entries => toy_lookup entries id | Entry _ => None end;
  get_bool := fun l key =>
    match l with
    | Entry v => if key =? "solved" then v else None
    | Config _ => None
    end;
  translate := fun s => s;
  getTrackName := fun ident =>
    if ident =? "volcano" then Some "Volcano Island" else None;
  format_s := toy_format_s;
  WIN32 := false
}.



(** A challenge that unlocks a game mode and a track. *)
Definition sample_challenge : Challenge :=
  addUnlockTrackReward "volcano"
    (addUnlockModeReward "followleader" "Follow the Leader"
       (Challenge_new "penguinplayground" "Finish Penguin Playground")).


End ToyChallenges.

(** * The create-server screen: [states_screens/online/create_server_screen.cpp]

    The screen reads its widgets and a few globals, and acts on widgets and
    on the network, audio and file collaborators.  What the widgets and
    globals report when asked is gathered in a record, [Gui]; what is done
    to the collaborators is appended to a call log.  The screen's own
    members and the global [UserConfigParams::m_max_players], which the
    screen both reads and writes, are fields of the state.  C++ [int]s are
    integers; none of the arithmetic here (a subtraction of 2, counters up
    to 20) is taken to overflow. *)

Module CreateServerScreen.

Import String.
Local Open Scope string_scope.
Local Open Scope Z_scope.

(** What the screen uses of wide strings ([irr::core::stringw]), of the
    translation macro and of [StringUtils]. *)
Class ScreenWorld : Type := {
  stringw : Type;
  (* s.size() *)
  stringw_size : stringw -> N;
  (* s.trim() *)
  trim : stringw -> stringw;
  (* StringUtils::xmlEncode, wideToUtf8, toWString(int) *)
  xmlEncode : stringw -> string;
  wideToUtf8 : stringw -> string;
  toWString : Z -> stringw;
  (* _(text) and _(text, argument) *)
  translate : string -> stringw;
  translate1 : string -> stringw -> stringw;
  (* the literal "" passed to setText *)
  empty_stringw : stringw
}.

(** [stream << n] for an [int]. *)
Definition show_int (n : Z) : string :=
  DecimalString.NilZero.string_of_int (Z.to_int n).

(** [s.find_first_not_of(chars)]: the position of the first character of
    [s] that is not one of [chars]; [None] is [npos]. *)
Fixpoint is_one_of (c : Ascii.ascii) (chars : string) : bool :=
  match chars with
  | EmptyString => false
  | String d rest => (Ascii.eqb c d || is_one_of c rest)%bool
  end.

Fixpoint find_first_not_of (s chars : string) : option nat :=
  match s with
  | EmptyString => None
  | String c rest =>
      if is_one_of c chars then option_map S (find_first_not_of rest chars)
      else Some O
  end.

(** [s.find(sub) != npos] *)
Fixpoint starts_with (s sub : string) : bool :=
  match sub, s with
  | EmptyString, _ => true
  | String _ _, EmptyString => false
  | String d sub', String c s' => (Ascii.eqb c d && starts_with s' sub')%bool
  end.

Fixpoint contains (s sub : string) : bool :=
  (starts_with s sub ||
   match s with
   | EmptyString => false
   | String _ s' => contains s' sub
   end)%bool.

Definition password_characters : string :=
  "abcdefghijklmnopqrstuvwxyzABCDEFGHIJKLMNOPQRSTUVWXYZ01234567890_".

(** The test [createServer] applies to the password:
    [(!password.empty() != 0 && password.find_first_not_of(...) != npos)
     || password.size() > 255]. *)
Definition password_rejected (password : string) : bool :=
  (negb (password =? "")%string &&
   match find_first_not_of password password_characters with
   | Some _ => true
   | None => false
   end) || (255 <? String.length password)%nat.

Section Screen.

Context {W : ScreenWorld}.

(** What widgets and globals report when the screen asks. *)
Record Gui : Type := mkGui {
  (* getWidget<...>(name) != NULL *)
  has_widget : string -> bool;
  (* the PROP_ID of m_options_widget, m_cancel_widget, m_create_widget,
     m_game_mode_widget and m_max_players_widget *)
  options_id : string;
  cancel_id : string;
  create_id : string;
  game_mode_id : string;
  max_players_id : string;
  (* m_options_widget->getSelectionIDString(PLAYER_ID_GAME_MASTER) *)
  options_selection : string;
  (* m_game_mode_widget->getSelection, the "gamemode" and the "difficulty"
     ribbon's getSelection *)
  game_mode_selection : Z;
  difficulty_selection : Z;
  (* m_max_players_widget->getValue() *)
  max_players_value : Z;
  (* m_more_options_spinner->getValue() and ->isVisible() *)
  more_options_value : Z;
  more_options_visible : bool;
  (* m_name_widget->getText() and the "password" text box's getText() *)
  name_text : stringw;
  password_text : stringw;
  (* UserConfigParams::m_max_players.getDefaultValue(), m_difficulty *)
  default_max_players : Z;
  config_difficulty : Z;
  (* NetworkConfig::get()->isLAN(), isWAN(), getCurrentUserId(),
     getCurrentUserToken() *)
  isLAN : bool;
  isWAN : bool;
  current_user_id : N;
  current_user_token : string;
  (* PlayerManager::getCurrentPlayer()->getName() and
     PlayerManager::getCurrentOnlineProfile()->getUserName() *)
  current_player_name : stringw;
  online_user_name : stringw;
  (* stk_config->m_server_discovery_port *)
  server_discovery_port : N;
  (* STKHost::existHost() *)
  existHost : bool;
  (* file_manager: the files listed in the user config directory (a
     std::set, in its order), getUserConfigDir(), getUserConfigFile(f) *)
  config_dir_files : list string;
  user_config_dir : string;
  user_config_file : string -> string;
  (* SeparateProcess::getCurrentExecutableLocation() *)
  executable_location : string
}.

(** The arguments of the [Server] constructed by [createServer]. *)
Record Server : Type := mkServer {
  server_id : Z;
  server_name : stringw;
  server_max_players : Z;
  server_current_players : Z;
  server_difficulty : Z;
  server_mode : Z;
  server_address_ip : N;
  server_address_port : N;
  server_password_protected : bool;
  server_game_started : bool
}.

Inductive Call : Type :=
| Screen_init
| Info_setErrorColor
| Info_setText (text : stringw)
| Title_setText (text : stringw)
| Name_setText (text : stringw)
| Difficulty_setSelection (item : Z)
| Gamemode_setSelection (item : Z)
| MaxPlayers_setMax (n : Z)
| MaxPlayers_setValue (n : Z)
| MoreOptionsText_setVisible (b : bool)
| MoreOptionsText_setText (text : stringw)
| MoreOptionsSpinner_setVisible (b : bool)
| MoreOptionsSpinner_clearLabels
| MoreOptionsSpinner_addLabel (label : stringw)
| MoreOptionsSpinner_setValue (n : Z)
| SFXManager_quickSound (name : string)
| NetworkConfig_unsetNetworking
| NetworkConfig_setIsServer (b : bool)
| NetworkConfig_setServerIdFile (path : string)
| ServerConfig_set_private_server_password (password : string)
| StateManager_escapePressed
| FileManager_removeFile (path : string)
| STKHost_create_SeparateProcess (executable arguments : string)
| NetworkingLobby_setJoinedServer (server : Server)
| NetworkingLobby_push.

Record CreateServerScreen : Type := mkScreen {
  m_prev_mode : Z;
  m_prev_value : Z;
  m_supports_ai : bool;
  (* UserConfigParams::m_max_players *)
  config_max_players : Z;
  m_calls : list Call
}.

Definition set_prev_mode (n : Z) (s : CreateServerScreen) :=
  mkScreen n (m_prev_value s) (m_supports_ai s) (config_max_players s)
    (m_calls s).

Definition set_prev_value (n : Z) (s : CreateServerScreen) :=
  mkScreen (m_prev_mode s) n (m_supports_ai s) (config_max_players s)
    (m_calls s).

Definition set_supports_ai (b : bool) (s : CreateServerScreen) :=
  mkScreen (m_prev_mode s) (m_prev_value s) b (config_max_players s)
    (m_calls s).

Definition set_config_max_players (n : Z) (s : CreateServerScreen) :=
  mkScreen (m_prev_mode s) (m_prev_value s) (m_supports_ai s) n (m_calls s).

Definition call (c : Call) (s : CreateServerScreen) :=
  mkScreen (m_prev_mode s) (m_prev_value s) (m_supports_ai s)
    (config_max_players s) (m_calls s ++ [c]).

Definition calls (cs : list Call) (s : CreateServerScreen) :=
  fold_left (fun s c => call c s) cs s.

(** [w = getWidget<...>(name); assert(w != NULL);] *)
Definition assert_widget (g : Gui) (name : string) : Outcome unit :=
  assert (has_widget g name).

(** A member call through the result of [getWidget<...>(name)], which is
    not checked. *)
Definition require_widget (g : Gui) (name : string) : Outcome unit :=
  if has_widget g name then Done tt else Crash NullDereference.

(** The calls made between two states of the screen. *)
Definition calls_since (s s' : CreateServerScreen) : list Call :=
  skipn (List.length (m_calls s)) (m_calls s').

(** The values of [i] in [for (int i = first; i <= last; i++)]. *)
Definition from_to (first last : Z) : list Z :=
  map (fun k => first + Z.of_nat k) (seq 0 (Z.to_nat (last - first + 1))).

(** *** [loadedFromFile] *)
Definition loadedFromFile (g : Gui) (s : CreateServerScreen)
    : Outcome CreateServerScreen :=
  let s := set_prev_mode 0 s in
  let s := set_prev_value 0 s in
  _ <- assert_widget g "name" ;;
  _ <- assert_widget g "max_players" ;;
  let max := default_max_players g in
  let s := call (MaxPlayers_setMax max) s in
  let s := if max <? config_max_players s
           then set_config_max_players max s else s in
  let s := call (MaxPlayers_setValue (config_max_players s)) s in
  _ <- assert_widget g "info" ;;
  _ <- assert_widget g "more-options" ;;
  _ <- assert_widget g "more-options-spinner" ;;
  _ <- assert_widget g "options" ;;
  _ <- assert_widget g "gamemode" ;;
  _ <- assert_widget g "create" ;;
  _ <- assert_widget g "cancel" ;;
  Done s.

(** *** [updateMoreOption] *)
Definition updateMoreOption (g : Gui) (game_mode : Z) (s : CreateServerScreen)
    : CreateServerScreen :=
  if (game_mode =? 0) || (game_mode =? 1) then
    let s := calls [MoreOptionsText_setVisible true;
                    MoreOptionsSpinner_setVisible true;
                    MoreOptionsSpinner_clearLabels] s in
    if m_supports_ai s then
      let s := call (MoreOptionsText_setText
                       (translate "Number of AI karts")) s in
      let s := calls (map (fun i => MoreOptionsSpinner_addLabel (toWString i))
                        (from_to 0 (max_players_value g - 2))) s in
      if max_players_value g - 2 <? m_prev_value s then
        call (MoreOptionsSpinner_setValue (max_players_value g - 2)) s
      else
        call (MoreOptionsSpinner_setValue (m_prev_value s)) s
    else
      let s := call (MoreOptionsText_setText
                       (translate "No. of grand prix track(s)")) s in
      let s := call (MoreOptionsSpinner_addLabel (translate "Disabled")) s in
      let s := calls (map (fun i => MoreOptionsSpinner_addLabel (toWString i))
                        (from_to 1 20)) s in
      call (MoreOptionsSpinner_setValue (m_prev_value s)) s
  else if game_mode =? 2 then
    let s := calls [MoreOptionsText_setVisible true;
                    MoreOptionsSpinner_setVisible true;
                    MoreOptionsSpinner_clearLabels;
                    MoreOptionsText_setText (translate "Battle mode");
                    MoreOptionsSpinner_setVisible true;
                    MoreOptionsSpinner_clearLabels;
                    MoreOptionsSpinner_addLabel (translate "Free-For-All");
                    MoreOptionsSpinner_addLabel
                      (translate "Capture The Flag")] s in
    call (MoreOptionsSpinner_setValue (m_prev_value s)) s
  else if game_mode =? 3 then
    let s := calls [MoreOptionsText_setVisible true;
                    MoreOptionsSpinner_setVisible true;
                    MoreOptionsSpinner_clearLabels;
                    MoreOptionsText_setText (translate "Soccer game type");
                    MoreOptionsSpinner_setVisible true;
                    MoreOptionsSpinner_clearLabels;
                    MoreOptionsSpinner_addLabel (translate "Time limit");
                    MoreOptionsSpinner_addLabel (translate "Goals limit")] s in
    call (MoreOptionsSpinner_setValue (m_prev_value s)) s
  else
    calls [MoreOptionsText_setVisible false;
           MoreOptionsSpinner_setVisible false] s.

(** *** [init] *)
Definition init (g : Gui) (s : CreateServerScreen)
    : Outcome CreateServerScreen :=
  let s := call Screen_init s in
  let s := set_supports_ai (isLAN g) s in
  let s := call (Info_setText empty_stringw) s in
  _ <- require_widget g "title" ;;
  let s := call (Title_setText
                   (if isLAN g then translate "Create LAN Server"
                    else translate "Create Server")) s in
  let s := call (Name_setText
                   (translate1 "%s's server"
                      (if isLAN g then current_player_name g
                       else online_user_name g))) s in
  _ <- assert_widget g "difficulty" ;;
  let s := call (Difficulty_setSelection (config_difficulty g)) s in
  _ <- assert_widget g "gamemode" ;;
  let s := call (Gamemode_setSelection (m_prev_mode s)) s in
  Done (updateMoreOption g (m_prev_mode s) s).

(** *** [createServer] *)
Definition createServer (g : Gui) (s : CreateServerScreen)
    : Outcome CreateServerScreen :=
  let name := trim (name_text g) in
  let max_players := max_players_value g in
  let s := call Info_setErrorColor s in
  if ((stringw_size name <? 4) || (30 <? stringw_size name))%N then
    Done (calls [Info_setText
                   (translate
                      "Name has to be between 4 and 30 characters long!");
                 SFXManager_quickSound "anvil"] s)
  else
    _ <- assert ((1 <? max_players) && (max_players <=? default_max_players g)) ;;
    let s := set_config_max_players max_players s in
    _ <- require_widget g "password" ;;
    let password := wideToUtf8 (password_text g) in
    if password_rejected password then
      Done (calls [Info_setText
                     (translate "Incorrect characters in password!");
                   SFXManager_quickSound "anvil"] s)
    else
      let private_server := negb (password =? "")%string in
      let s := call (ServerConfig_set_private_server_password password) s in
      let password := (" --server-password=" ++ password)%string in
      _ <- require_widget g "difficulty" ;;
      let server :=
        mkServer 0 name max_players 0 (difficulty_selection g) 0
          2130706433 (server_discovery_port g) private_server false in
      let s := call (NetworkConfig_setIsServer false) s in
      let server_name := xmlEncode name in
      let server_cfg :=
        (if isWAN g then
           "--public-server --wan-server=" ++ server_name ++ " --login-id="
           ++ show_int (Z.of_N (current_user_id g)) ++ " --token="
           ++ current_user_token g
         else "--lan-server=" ++ server_name)%string in
      let server_id_file := "stk-server-id-file_" in
      let s :=
        calls (map (fun f => FileManager_removeFile
                               (user_config_dir g ++ "/" ++ f)%string)
                   (filter (fun f => contains f server_id_file)
                           (config_dir_files g))) s in
      let s := call (NetworkConfig_setServerIdFile
                       (user_config_file g server_id_file)) s in
      _ <- require_widget g "gamemode" ;;
      let server_cfg :=
        (server_cfg ++ " --stdout=server.log --mode="
         ++ show_int (game_mode_selection g) ++ " --difficulty="
         ++ show_int (difficulty_selection g) ++ " --max-players="
         ++ show_int max_players ++ " --server-id-file=" ++ server_id_file
         ++ " --log=1 --no-console-log")%string in
      let '(server_cfg, s) :=
        if more_options_visible g then
          let esi := more_options_value g in
          let server_cfg :=
            (if (game_mode_selection g =? 3)%Z then
               if (esi =? 0)%Z then server_cfg ++ " --soccer-timed"
               else server_cfg ++ " --soccer-goals"
             else if (game_mode_selection g =? 2)%Z then
               server_cfg ++ " --battle-mode=" ++ show_int esi
             else if m_supports_ai s then
               if (0 <? esi)%Z
               then server_cfg ++ " --server-ai=" ++ show_int esi
               else server_cfg
             else
               if (0 <? esi)%Z
               then server_cfg ++ " --network-gp=" ++ show_int esi
               else server_cfg)%string in
          (server_cfg,
           set_prev_value esi (set_prev_mode (game_mode_selection g) s))
        else (server_cfg, set_prev_mode 0 (set_prev_value 0 s)) in
      let s := call (STKHost_create_SeparateProcess (executable_location g)
                       (server_cfg ++ password)%string) s in
      Done (call (NetworkingLobby_setJoinedServer server) s).

(** *** [eventCallback] *)
Definition eventCallback (g : Gui) (name : string) (s : CreateServerScreen)
    : Outcome CreateServerScreen :=
  if (name =? options_id g)%string then
    let selection := options_selection g in
    if (selection =? cancel_id g)%string then
      Done (calls [NetworkConfig_unsetNetworking;
                   StateManager_escapePressed] s)
    else if (selection =? create_id g)%string then createServer g s
    else Done s
  else if (name =? game_mode_id g)%string then
    let selection := game_mode_selection g in
    let s := set_prev_value 0 s in
    let s := updateMoreOption g selection s in
    Done (set_prev_mode selection s)
  else if (name =? max_players_id g)%string && m_supports_ai s then
    let s := set_prev_value (more_options_value g) s in
    let selection := game_mode_selection g in
    Done (updateMoreOption g selection s)
  else Done s.

(** *** [onUpdate] *)
Definition onUpdate (g : Gui) (s : CreateServerScreen) : CreateServerScreen :=
  if negb (existHost g) then s else call NetworkingLobby_push s.

(** *** [tearDown] *)
Definition tearDown (s : CreateServerScreen) : CreateServerScreen := s.

End Screen.

End CreateServerScreen.

(** ** A small world for the screen

    Wide strings are plain strings, nothing is translated or encoded, and
    [trim] removes leading blanks. *)

Module ToyScreen.

Import String CreateServerScreen.
Local Open Scope string_scope.
Local Open Scope Z_scope.

Fixpoint toy_trim (s : string) : string :=
  match s with
  | String c rest =>
      if Ascii.eqb c (Ascii.ascii_of_nat 32) then toy_trim rest else s
  | EmptyString => EmptyString
  end.

#[export] Instance toy_world : ScreenWorld := {
  stringw := string;
  stringw_size := fun s => N.of_nat (String.length s);
  trim := toy_trim;
  xmlEncode := fun s => s;
  wideToUtf8 := fun s => s;
  toWString := show_int;
  translate := fun s => s;
  translate1 := fun _ arg => arg ++ "'s server";
  empty_stringw := ""
}.

(** A LAN game: eight players at most by default, the more-options
    spinner showing 3, one stale server-id file in the configuration
    directory. *)
Definition lan_gui (name password : string) (max_players : Z) : Gui :=
  mkGui (fun _ => true)
    "options" "cancel" "create" "gamemode" "max_players"
    "create" 0 1 max_players 3 true name password 8 1
    true false 0 "" "tux" "" 2757 false
    ["config.xml"; "stk-server-id-file_17"] "/home/tux/.config/stk"
    (fun f => "/home/tux/.config/stk/" ++ f) "/usr/bin/supertuxkart".

(** The screen after [init] on a LAN, with nothing logged. *)
Definition lan_screen : CreateServerScreen := mkScreen 0 5 true 12 [].

End ToyScreen.

(** * Properties *)

(** ** Vectors and indices *)

Lemma at_index_nth {A : Type} (v : list A) (i : N) (d : A) :
  (i < size v)%N -> at_index v i = Done (nth (N.to_nat i) v d).
Proof.
  unfold at_index, size. intros Hi.
  assert (Hlt : (N.to_nat i < length v)%nat) by lia.
  destruct (nth_error v (N.to_nat i)) as [a|] eqn:E.
  - now rewrite (nth_error_nth v (N.to_nat i) d E).
  - apply nth_error_None in E. lia.
Qed.

Lemma at_index_past_end {A : Type} (v : list A) (i : N) :
  (size v <= i)%N -> at_index v i = Crash OutOfBounds.
Proof.
  unfold at_index, size. intros Hi.
  assert (E : nth_error v (N.to_nat i) = None) by (apply nth_error_None; lia).
  now rewrite E.
Qed.

Lemma uint_add_no_wrap (i : uint) :
  (i + 1 < UINT_RANGE)%N -> uint_add i 1%N = (i + 1)%N.
Proof. intros Hi. unfold uint_add. now apply N.mod_small. Qed.

Lemma assert_true (b : bool) : b = true -> assert b = Done tt.
Proof. now intros ->. Qed.

Lemma assert_false (b : bool) : b = false -> assert b = Crash AssertionFailed.
Proof. now intros ->. Qed.

(** The clamp of [update] is the minimum with 1. *)
Lemma clamp_is_Rmin (x : R) : (if Rlt_dec 1 x then 1 else x) = Rmin 1 x.
Proof.
  unfold Rmin. destruct (Rlt_dec 1 x), (Rle_dec 1 x); lra.
Qed.

Lemma vscale_one (v : Vec3) : vscale 1 v = v.
Proof. destruct v; unfold vscale; simpl; f_equal; lra. Qed.

Lemma vadd_vscale_zero (a b : Vec3) : vadd a (vscale 0 b) = a.
Proof. destruct a, b; unfold vadd, vscale; simpl; f_equal; lra. Qed.

(** At fraction 0 the blend of two positions is the first one. *)
Lemma lerp_at_zero (a b : Vec3) :
  vadd (vscale (1 - 0) a) (vscale 0 b) = a.
Proof.
  replace (1 - 0) with 1 by lra.
  now rewrite vscale_one, vadd_vscale_zero.
Qed.

(** ** One tick with the cursor between two frames *)

Section Tick.

Context {GC : Type} {gcI : GhostController GC}.
Variable env : KartEnv.

(** When the cursor, once advanced, has not ended and both [idx] and
    [idx + 1] lie in the store, [update] runs to its end; this lemma
    collects everything it leaves behind. *)
Lemma update_between_frames (dt : float) (k : GhostKart GC) (gc0 : GC) :
  let gc := gc_update dt gc0 in
  let idx := getCurrentReplayIndex gc in
  let rd := getReplayDelta gc in
  let pose :=
    mkTransform
      (vadd (vscale (1 - rd) (position_at k idx))
            (vscale rd (position_at k (idx + 1))))
      (slerp (getRotation (transform_at k idx))
             (getRotation (transform_at k (idx + 1))) rd) in
  m_controller k = Ghost gc0 ->
  isReplayEnd gc = false ->
  store_wf k ->
  (idx + 1 < frameCount k)%N ->
  (idx + 1 < UINT_RANGE)%N ->
  exists k',
    update env dt k = Done k' /\
    m_controller k' = Ghost gc /\
    m_node_visible k' = m_node_visible k /\
    same_recording k k' /\
    m_transform k' = pose /\
    m_xyz_front k' =
      trans_apply env pose (mkVec3 0 0 (getKartLength env * (1 / 2))) /\
    m_calls k' =
      m_calls k ++ tick_calls env k dt idx (nitro_intensity env k idx) pose.
Proof.
  intros gc idx rd pose Hc Hend [Hp He] Hidx Hwrap.
  unfold frameCount, size in Hidx.
  assert (Ht0 : (idx < size (m_all_transform k))%N) by (unfold size; lia).
  assert (Ht1 : (idx + 1 < size (m_all_transform k))%N) by (unfold size; lia).
  assert (Hp0 : (idx < size (m_all_physic_info k))%N) by (unfold size; lia).
  assert (He0 : (idx < size (m_all_replay_events k))%N) by (unfold size; lia).
  unfold update. rewrite Hc. fold gc. rewrite Hend. fold idx rd.
  cbn [set_controller m_all_transform m_all_physic_info m_all_replay_events].
  rewrite (assert_true _ (proj2 (N.ltb_lt _ _) Ht0)).
  cbn [bind].
  rewrite (at_index_nth _ _ default_event He0). cbn [bind].
  fold (event_at k idx).
  assert (Hn :
    (if m_on_nitro (event_at k idx) then
       pi <- at_index (m_all_physic_info k) idx ;;
       Done (if Rlt_dec 1 (Rabs (m_speed pi) / getEngineMaxSpeed env)
             then 1 else Rabs (m_speed pi) / getEngineMaxSpeed env)
     else Done 0) = Done (nitro_intensity env k idx)).
  { unfold nitro_intensity.
    destruct (m_on_nitro (event_at k idx)); [|reflexivity].
    rewrite (at_index_nth _ _ default_physic_info Hp0). cbn [bind].
    fold (physic_at k idx). now rewrite clamp_is_Rmin. }
  rewrite Hn. clear Hn.
  rewrite (uint_add_no_wrap _ Hwrap).
  cbn [bind call set_controller m_all_replay_events].
  rewrite (at_index_nth _ _ default_event He0). cbn [bind].
  fold (event_at k idx).
  unfold tick_calls.
  destruct (m_on_zipper (event_at k idx));
    cbn [bind call set_controller setXYZ setRotation set_transform
         set_xyz_front m_all_transform m_all_physic_info m_all_replay_events
         m_transform m_calls m_graphical_y_offset m_controller
         m_node_visible m_xyz_front getOrigin getRotation];
    rewrite (at_index_nth _ _ default_transform Ht0); cbn [bind];
    rewrite (at_index_nth _ _ default_transform Ht1); cbn [bind];
    rewrite (at_index_nth _ _ default_physic_info Hp0); cbn [bind];
    fold (transform_at k idx) (transform_at k (idx + 1)) (physic_at k idx);
    fold (position_at k idx) (position_at k (idx + 1)); fold pose;
    (eexists; split; [reflexivity|]);
    cbn [m_all_transform m_all_physic_info m_all_replay_events
         m_transform m_calls m_graphical_y_offset m_controller
         m_node_visible m_xyz_front getOrigin getRotation];
    unfold same_recording;
    cbn [m_all_transform m_all_physic_info m_all_replay_events
         m_graphical_y_offset];
    repeat split; try reflexivity;
    cbn [call set_controller setXYZ setRotation set_transform set_xyz_front
         m_calls];
    rewrite <- ?app_assoc; reflexivity.
Qed.

End Tick.

(** ** The claims about [update] and [getSpeed] *)

Section Playback.

Context {GC : Type} {gcI : GhostController GC}.
Variable env : KartEnv.

(** [update] never touches the recording. *)
Lemma update_keeps_recording (dt : float) (k k' : GhostKart GC) :
  update env dt k = Done k' -> same_recording k k'.
Proof.
  unfold update, same_recording.
  destruct (m_controller k) as [gc0|]; [|intros [= <-]; now repeat split].
  destruct (isReplayEnd (gc_update dt gc0)); [intros [= <-]; now repeat split|].
  destruct (assert _); [|discriminate]. cbn [bind].
  destruct (at_index _ _) as [ev|]; [|discriminate]. cbn [bind].
  destruct (if m_on_nitro ev then _ else _) as [nf|]; [|discriminate].
  cbn [bind call set_controller m_all_replay_events].
  destruct (at_index _ _) as [ev'|]; [|discriminate]. cbn [bind].
  destruct (m_on_zipper ev');
    cbn [call set_controller m_all_transform];
    (destruct (at_index _ _) as [t0|]; [|discriminate]); cbn [bind];
    (destruct (at_index _ _) as [t1|]; [|discriminate]); cbn [bind];
    cbn [call set_controller setXYZ setRotation set_transform
         m_all_physic_info];
    (destruct (at_index _ _) as [pi|]; [|discriminate]); cbn [bind];
    intros [= <-]; now repeat split.
Qed.

(** C1.  When the advanced cursor has not ended, stands at index [idx] with
    fraction [rd], and the store holds at least [idx + 2] frames, [update]
    sets the position of the kart to [(1 - rd) * P[idx] + rd * P[idx+1]];
    at [rd = 0] that position is [P[idx]] itself.  This holds for every
    fraction, so in particular for those in [0,1). *)
Theorem update_position_is_lerp (dt : float) (k : GhostKart GC) (gc0 : GC) :
  let gc := gc_update dt gc0 in
  let idx := getCurrentReplayIndex gc in
  let rd := getReplayDelta gc in
  m_controller k = Ghost gc0 ->
  isReplayEnd gc = false ->
  store_wf k ->
  (idx + 2 <= frameCount k)%N ->
  (idx + 1 < UINT_RANGE)%N ->
  exists k',
    update env dt k = Done k' /\
    getXYZ k' = vadd (vscale (1 - rd) (position_at k idx))
                     (vscale rd (position_at k (idx + 1))) /\
    (rd = 0 -> getXYZ k' = position_at k idx).
Proof.
  intros gc idx rd Hc Hend Hwf Hn Hwrap.
  assert (Hidx : (idx + 1 < frameCount k)%N) by lia.
  destruct (update_between_frames env dt k gc0 Hc Hend Hwf Hidx Hwrap)
    as (k' & Hu & _ & _ & _ & Ht & _).
  exists k'. split; [exact Hu|].
  unfold getXYZ. rewrite Ht. cbn [getOrigin]. fold gc idx rd.
  split; [reflexivity|].
  intros ->. apply lerp_at_zero.
Qed.

(** C2.  When the index of the cursor is a valid index of the store,
    [getSpeed] returns the speed recorded in the frame at that index.  The
    interpolation fraction plays no part: any cursor standing at the same
    index gives the same answer. *)
Theorem getSpeed_is_recorded_speed (k : GhostKart GC) (gc : GC) :
  m_controller k = Ghost gc ->
  (getCurrentReplayIndex gc < size (m_all_physic_info k))%N ->
  getSpeed k = Done (m_speed (physic_at k (getCurrentReplayIndex gc))) /\
  forall gc' : GC,
    getCurrentReplayIndex gc' = getCurrentReplayIndex gc ->
    getSpeed (set_controller (Ghost gc') k) = getSpeed k.
Proof.
  intros Hc Hidx.
  assert (Hs : getSpeed k =
               Done (m_speed (physic_at k (getCurrentReplayIndex gc)))).
  { unfold getSpeed. rewrite Hc.
    rewrite (assert_true _ (proj2 (N.ltb_lt _ _) Hidx)). cbn [bind].
    now rewrite (at_index_nth _ _ default_physic_info Hidx). }
  split; [exact Hs|].
  intros gc' Hsame. rewrite Hs.
  unfold getSpeed. cbn [set_controller m_controller m_all_physic_info].
  rewrite Hsame.
  rewrite (assert_true _ (proj2 (N.ltb_lt _ _) Hidx)). cbn [bind].
  now rewrite (at_index_nth _ _ default_physic_info Hidx).
Qed.

(** C3.  On a tick that has not ended, exactly one nitro intensity is
    forwarded to the kart graphics.  It is [min(1, |speed| / max speed)] for
    the speed recorded in frame [idx] when that frame has nitro on, and 0
    otherwise; with a positive engine maximum speed it lies in [0,1],
    whatever the recorded speed. *)
Theorem update_nitro_intensity_clamped (dt : float) (k : GhostKart GC) (gc0 : GC) :
  let gc := gc_update dt gc0 in
  let idx := getCurrentReplayIndex gc in
  m_controller k = Ghost gc0 ->
  isReplayEnd gc = false ->
  store_wf k ->
  (idx + 1 < frameCount k)%N ->
  (idx + 1 < UINT_RANGE)%N ->
  0 < getEngineMaxSpeed env ->
  exists (k' : GhostKart GC) (v : R) (rest : list Call),
    update env dt k = Done k' /\
    m_calls k' = m_calls k ++ KartGFX_updateNitroGraphics v :: rest /\
    (forall w, ~ In (KartGFX_updateNitroGraphics w) rest) /\
    v = (if m_on_nitro (event_at k idx)
         then Rmin 1 (Rabs (m_speed (physic_at k idx)) / getEngineMaxSpeed env)
         else 0) /\
    0 <= v <= 1.
Proof.
  intros gc idx Hc Hend Hwf Hidx Hwrap Hmax.
  destruct (update_between_frames env dt k gc0 Hc Hend Hwf Hidx Hwrap)
    as (k' & Hu & _ & _ & _ & _ & _ & Hcalls).
  fold gc idx in Hcalls. unfold tick_calls in Hcalls.
  exists k', (nitro_intensity env k idx). eexists.
  split; [exact Hu|]. split; [exact Hcalls|].
  split.
  { intros w Hin.
    destruct (m_on_zipper (event_at k idx)); cbn in Hin;
      intuition discriminate. }
  split; [reflexivity|].
  unfold nitro_intensity.
  destruct (m_on_nitro (event_at k idx)); [|lra].
  set (x := Rabs (m_speed (physic_at k idx)) / getEngineMaxSpeed env).
  assert (Hx : 0 <= x).
  { unfold x. apply Rmult_le_pos; [apply Rabs_pos|].
    left. now apply Rinv_0_lt_compat. }
  unfold Rmin. destruct (Rle_dec 1 x); lra.
Qed.

(** C5.  When the advanced cursor reports the end of the replay, [update]
    hides the kart and returns: the transform (position and orientation),
    the front point and the call log (no nitro, zipper, animation or
    graphics call) are as they were. *)
Theorem update_at_replay_end (dt : float) (k : GhostKart GC) (gc0 : GC) :
  m_controller k = Ghost gc0 ->
  isReplayEnd (gc_update dt gc0) = true ->
  exists k',
    update env dt k = Done k' /\
    m_node_visible k' = false /\
    m_controller k' = Ghost (gc_update dt gc0) /\
    m_transform k' = m_transform k /\
    m_xyz_front k' = m_xyz_front k /\
    m_calls k' = m_calls k /\
    same_recording k k'.
Proof.
  intros Hc Hend.
  exists (setVisible false (set_controller (Ghost (gc_update dt gc0)) k)).
  unfold update. rewrite Hc, Hend.
  unfold same_recording. cbn. now repeat split.
Qed.

(** C10.  When the controller of the kart is not a [GhostController],
    [update] returns at once and leaves the whole state as it was: cursor,
    visibility, pose, calls and front point. *)
Theorem update_without_ghost_controller (dt : float) (k : GhostKart GC) :
  m_controller k = NotGhost -> update env dt k = Done k.
Proof. intros Hc. unfold update. now rewrite Hc. Qed.

End Playback.

(** ** Loading: the graphical offset *)

Section Loading.

Context {GC : Type} {gcI : GhostController GC}.
Variable env : KartEnv.

Lemma sum_suspension_eq (a : float4) :
  sum_suspension a = f4_0 a + f4_1 a + f4_2 a + f4_3 a.
Proof. unfold sum_suspension. cbn. lra. Qed.

Lemma size_push_back {A : Type} (v : list A) (a : A) :
  size (push_back v a) = (size v + 1)%N.
Proof. unfold size, push_back. rewrite length_app. cbn. lia. Qed.

(** Appending the first frame computes the offset from that frame. *)
Lemma addReplayEvent_first (time : float) (trans : btTransform) (pi : PhysicInfo)
    (kre : KartReplayEvent) (k : GhostKart GC) (gc : GC) :
  m_controller k = Ghost gc ->
  m_all_physic_info k = [] ->
  exists k',
    addReplayEvent env time trans pi kre k = Done k' /\
    m_controller k' = Ghost (addReplayTime time gc) /\
    m_all_physic_info k' = [pi] /\
    m_graphical_y_offset k' =
      - sum_suspension (m_suspension_length pi) / 4 + getLowestPoint env /\
    m_calls k' = m_calls k ++ [KartModel_setDefaultSuspension].
Proof.
  intros Hc Hp. unfold addReplayEvent. rewrite Hc.
  cbn [push_frame set_controller m_all_physic_info]. rewrite Hp.
  change (size (push_back [] pi) =? 1)%N with true. cbn iota.
  change (at_index (push_back [] pi) 0%N) with (Done pi). cbn [bind].
  eexists. split; [reflexivity|].
  cbn [call set_graphical_y_offset push_frame set_controller m_controller
       m_all_physic_info m_graphical_y_offset m_calls].
  rewrite Hp. now repeat split.
Qed.

(** Appending to a store that already holds a frame leaves the offset, and
    the suspension of the kart model, alone. *)
Lemma addReplayEvent_later (time : float) (trans : btTransform) (pi : PhysicInfo)
    (kre : KartReplayEvent) (k : GhostKart GC) (gc : GC) :
  m_controller k = Ghost gc ->
  m_all_physic_info k <> [] ->
  exists k',
    addReplayEvent env time trans pi kre k = Done k' /\
    m_controller k' = Ghost (addReplayTime time gc) /\
    m_all_physic_info k' = push_back (m_all_physic_info k) pi /\
    m_graphical_y_offset k' = m_graphical_y_offset k /\
    m_calls k' = m_calls k.
Proof.
  intros Hc Hp. unfold addReplayEvent. rewrite Hc.
  cbn [push_frame set_controller m_all_physic_info].
  rewrite size_push_back.
  assert (Hsz : (size (m_all_physic_info k) + 1 =? 1)%N = false).
  { apply N.eqb_neq. unfold size.
    destruct (m_all_physic_info k); [congruence|cbn; lia]. }
  rewrite Hsz. eexists. split; [reflexivity|]. cbn. now repeat split.
Qed.

Lemma addReplayEvents_later (fs : list ReplayFrame) :
  forall (k : GhostKart GC) (gc : GC),
    m_controller k = Ghost gc ->
    m_all_physic_info k <> [] ->
    exists k',
      addReplayEvents env fs k = Done k' /\
      m_graphical_y_offset k' = m_graphical_y_offset k /\
      m_calls k' = m_calls k.
Proof.
  induction fs as [|f fs IH]; intros k gc Hc Hp.
  - exists k. now repeat split.
  - destruct (addReplayEvent_later (rf_time f) (rf_trans f) (rf_physic f)
                (rf_event f) k gc Hc Hp) as (k1 & H1 & Hc1 & Hp1 & Ho1 & Hl1).
    assert (Hne : m_all_physic_info k1 <> []).
    { rewrite Hp1. unfold push_back.
      destruct (m_all_physic_info k); discriminate. }
    destruct (IH k1 _ Hc1 Hne) as (k' & H' & Ho' & Hl').
    exists k'. cbn [addReplayEvents]. rewrite H1. cbn [bind].
    split; [exact H'|]. split; congruence.
Qed.

(** [addReplayEvent] keeps the three vectors of the store in lock step, so
    every kart loaded from an empty one has a well-formed store. *)
Lemma addReplayEvent_keeps_wf (time : float) (trans : btTransform)
    (pi : PhysicInfo) (kre : KartReplayEvent) (k k' : GhostKart GC) :
  store_wf k ->
  addReplayEvent env time trans pi kre k = Done k' ->
  store_wf k' /\ frameCount k' = (frameCount k + 1)%N.
Proof.
  unfold store_wf, frameCount. intros [Hp He]. unfold addReplayEvent.
  destruct (m_controller k) as [gc|]; [|discriminate].
  cbn [push_frame set_controller m_all_physic_info].
  destruct (_ =? _)%N.
  - destruct (at_index _ _) as [pi0|]; [|discriminate]. cbn [bind].
    intros [= <-].
    cbn [call set_graphical_y_offset push_frame set_controller
         m_all_transform m_all_physic_info m_all_replay_events].
    rewrite size_push_back. unfold push_back. rewrite !length_app.
    cbn [length]. repeat split; lia.
  - intros [= <-].
    cbn [push_frame set_controller
         m_all_transform m_all_physic_info m_all_replay_events].
    rewrite size_push_back. unfold push_back. rewrite !length_app.
    cbn [length]. repeat split; lia.
Qed.

Lemma addReplayEvents_keep_wf (fs : list ReplayFrame) :
  forall k k' : GhostKart GC,
    store_wf k -> addReplayEvents env fs k = Done k' -> store_wf k'.
Proof.
  induction fs as [|f fs IH]; intros k k' Hwf; cbn [addReplayEvents].
  - now intros [= <-].
  - destruct (addReplayEvent env _ _ _ _ k) as [k1|] eqn:E; [|discriminate].
    cbn [bind]. apply IH.
    now destruct (addReplayEvent_keeps_wf _ _ _ _ k k1 Hwf E).
Qed.

Lemma new_kart_wf (c : Controller GC) : store_wf (new_kart c).
Proof. split; reflexivity. Qed.

(** C7.  The graphical y offset is computed when the very first frame is
    appended: it is minus the average of that frame's four suspension
    lengths, plus the lowest point of the kart model.  Appending any further
    frames leaves it unchanged, and the computation (which also sets the
    default suspension of the model) has run exactly once. *)
Theorem graphical_y_offset_set_by_first_frame
    (k : GhostKart GC) (gc : GC) (f0 : ReplayFrame) (fs : list ReplayFrame) :
  m_controller k = Ghost gc ->
  m_all_physic_info k = [] ->
  exists k1 kN,
    addReplayEvent env (rf_time f0) (rf_trans f0) (rf_physic f0)
      (rf_event f0) k = Done k1 /\
    m_graphical_y_offset k1 =
      - ((f4_0 (m_suspension_length (rf_physic f0)) +
          f4_1 (m_suspension_length (rf_physic f0)) +
          f4_2 (m_suspension_length (rf_physic f0)) +
          f4_3 (m_suspension_length (rf_physic f0))) / 4)
      + getLowestPoint env /\
    addReplayEvents env fs k1 = Done kN /\
    m_graphical_y_offset kN = m_graphical_y_offset k1 /\
    baseline_computations kN = S (baseline_computations k).
Proof.
  intros Hc Hp.
  destruct (addReplayEvent_first (rf_time f0) (rf_trans f0) (rf_physic f0)
              (rf_event f0) k gc Hc Hp) as (k1 & H1 & Hc1 & Hp1 & Ho1 & Hl1).
  assert (Hne : m_all_physic_info k1 <> []) by (rewrite Hp1; discriminate).
  destruct (addReplayEvents_later fs k1 _ Hc1 Hne) as (kN & HN & HoN & HlN).
  exists k1, kN. split; [exact H1|]. split.
  { rewrite Ho1, sum_suspension_eq. lra. }
  split; [exact HN|]. split; [exact HoN|].
  unfold baseline_computations. rewrite HlN, Hl1, filter_app, length_app.
  cbn. lia.
Qed.

End Loading.

(** ** The bounds of the frame reads *)

Section Bounds.

Context {GC : Type} {gcI : GhostController GC}.
Variable env : KartEnv.

(** An index at or past the end of the store stops [update] at its
    assertion. *)
Lemma update_asserts_index (dt : float) (k : GhostKart GC) (gc0 : GC) :
  m_controller k = Ghost gc0 ->
  isReplayEnd (gc_update dt gc0) = false ->
  (frameCount k <= getCurrentReplayIndex (gc_update dt gc0))%N ->
  update env dt k = Crash AssertionFailed.
Proof.
  intros Hc Hend Hidx. unfold frameCount in Hidx.
  unfold update. rewrite Hc, Hend.
  cbn [set_controller m_all_transform].
  now rewrite (assert_false _ (proj2 (N.ltb_ge _ _) Hidx)).
Qed.

(** With a cursor that keeps its contract, [update] never stops at a
    fault: both frame reads are within the store. *)
Lemma update_safe_under_contract (dt : float) (k : GhostKart GC) (gc0 : GC) :
  m_controller k = Ghost gc0 ->
  store_wf k ->
  cursor_in_bounds (gc_update dt gc0) (frameCount k) ->
  (frameCount k <= UINT_RANGE)%N ->
  exists k', update env dt k = Done k'.
Proof.
  intros Hc Hwf Hcur Hsize.
  destruct (isReplayEnd (gc_update dt gc0)) eqn:Hend.
  - unfold update. rewrite Hc, Hend. now eexists.
  - specialize (Hcur Hend).
    destruct (update_between_frames env dt k gc0 Hc Hend Hwf Hcur)
      as (k' & Hu & _); [lia|].
    now exists k'.
Qed.

(** With the cursor on the last frame of the store and not ended, which
    the contract of the cursor excludes, the assertion passes and the read
    of frame [idx + 1] falls outside the store. *)
Lemma update_reads_past_last_frame (dt : float) (k : GhostKart GC) (gc0 : GC) :
  let gc := gc_update dt gc0 in
  let idx := getCurrentReplayIndex gc in
  m_controller k = Ghost gc0 ->
  isReplayEnd gc = false ->
  store_wf k ->
  (idx + 1 = frameCount k)%N ->
  (idx + 1 < UINT_RANGE)%N ->
  assert (idx <? size (m_all_transform k))%N = Done tt /\
  update env dt k = Crash OutOfBounds.
Proof.
  intros gc idx Hc Hend [Hp He] Hidx Hwrap.
  unfold frameCount in Hidx.
  assert (Ht0 : (idx < size (m_all_transform k))%N) by lia.
  assert (Ht1 : (size (m_all_transform k) <= idx + 1)%N) by lia.
  assert (Hp0 : (idx < size (m_all_physic_info k))%N) by (unfold size in *; lia).
  assert (He0 : (idx < size (m_all_replay_events k))%N)
    by (unfold size in *; lia).
  assert (Ha : assert (idx <? size (m_all_transform k))%N = Done tt)
    by (apply assert_true, N.ltb_lt, Ht0).
  split; [exact Ha|].
  unfold update. rewrite Hc. fold gc. rewrite Hend. fold idx.
  cbn [set_controller m_all_transform m_all_physic_info m_all_replay_events].
  rewrite Ha. cbn [bind].
  rewrite (at_index_nth _ _ default_event He0). cbn [bind].
  rewrite (uint_add_no_wrap _ Hwrap).
  destruct (m_on_nitro _);
    [rewrite (at_index_nth _ _ default_physic_info Hp0)|];
    cbn [bind call set_controller m_all_replay_events];
    rewrite (at_index_nth _ _ default_event He0); cbn [bind];
    (destruct (m_on_zipper _);
     cbn [call set_controller m_all_transform];
     rewrite (at_index_nth _ _ default_transform Ht0); cbn [bind];
     now rewrite (at_index_past_end _ _ Ht1)).
Qed.

(** C8.  What [update] checks before it reads frames is [idx < size], not
    [idx + 1 < size].  A cursor index at or past the end of the store stops
    [update] at its assertion: a fault, not a result the caller could
    handle.  When frame [idx + 1] exists, as the contract of the cursor
    promises while it has not ended, the assertion passes, every frame read
    of the tick (at [idx] in the three vectors, at [idx + 1] in the
    transforms) is inside the store, and [update] returns. *)
Theorem update_checks_cursor_index
    (dt : float) (k : GhostKart GC) (gc0 : GC) :
  let gc := gc_update dt gc0 in
  let idx := getCurrentReplayIndex gc in
  m_controller k = Ghost gc0 ->
  isReplayEnd gc = false ->
  ((frameCount k <= idx)%N -> update env dt k = Crash AssertionFailed) /\
  (store_wf k ->
   (idx + 1 < frameCount k)%N ->
   (idx + 1 < UINT_RANGE)%N ->
   assert (idx <? size (m_all_transform k))%N = Done tt /\
   at_index (m_all_replay_events k) idx = Done (event_at k idx) /\
   at_index (m_all_physic_info k) idx = Done (physic_at k idx) /\
   at_index (m_all_transform k) idx = Done (transform_at k idx) /\
   at_index (m_all_transform k) (uint_add idx 1%N)
     = Done (transform_at k (idx + 1)) /\
   exists k', update env dt k = Done k').
Proof.
  intros gc idx Hc Hend. split.
  - intros Hidx. exact (update_asserts_index dt k gc0 Hc Hend Hidx).
  - intros Hwf Hidx Hwrap.
    destruct (update_between_frames env dt k gc0 Hc Hend Hwf Hidx Hwrap)
      as (k' & Hu & _).
    destruct Hwf as [Hp He]. unfold frameCount, size in Hidx.
    rewrite (uint_add_no_wrap _ Hwrap).
    unfold event_at, physic_at, transform_at.
    repeat split;
      try (apply assert_true, N.ltb_lt; unfold size; fold idx; lia);
      try (apply at_index_nth; unfold size; fold idx; lia).
    now exists k'.
Qed.

(** C9.  A cursor that keeps its contract reports the end on an empty
    store, so [update] hides the kart and returns normally, without reaching
    its assertion and without any pose or effect output. *)
Theorem update_on_empty_store (dt : float) (k : GhostKart GC) (gc0 : GC) :
  m_controller k = Ghost gc0 ->
  frameCount k = 0%N ->
  cursor_in_bounds (gc_update dt gc0) (frameCount k) ->
  isReplayEnd (gc_update dt gc0) = true /\
  exists k',
    update env dt k = Done k' /\
    m_node_visible k' = false /\
    m_transform k' = m_transform k /\
    m_xyz_front k' = m_xyz_front k /\
    m_calls k' = m_calls k.
Proof.
  intros Hc Hn Hcur.
  assert (Hend : isReplayEnd (gc_update dt gc0) = true).
  { destruct (isReplayEnd (gc_update dt gc0)) eqn:E; [reflexivity|].
    specialize (Hcur E). lia. }
  split; [exact Hend|].
  exists (setVisible false (set_controller (Ghost (gc_update dt gc0)) k)).
  unfold update. rewrite Hc, Hend. cbn. now repeat split.
Qed.

End Bounds.

(** ** Spherical interpolation of orientations *)

Section Slerp.

Lemma sin_cos_squares (x : R) : sin x * sin x + cos x * cos x = 1.
Proof. generalize (sin2_cos2 x). unfold Rsqr. lra. Qed.

Lemma sum4_squares_pos (w x y z : R) : 0 <= w * w + x * x + y * y + z * z.
Proof.
  generalize (Rle_0_sqr w) (Rle_0_sqr x) (Rle_0_sqr y) (Rle_0_sqr z).
  unfold Rsqr. lra.
Qed.

Lemma sum4_squares_zero (w x y z : R) :
  w * w + x * x + y * y + z * z <= 0 -> w = 0 /\ x = 0 /\ y = 0 /\ z = 0.
Proof.
  generalize (Rle_0_sqr w) (Rle_0_sqr x) (Rle_0_sqr y) (Rle_0_sqr z).
  unfold Rsqr. intros Hw Hx Hy Hz Hs.
  repeat split; apply Rsqr_0_uniq; unfold Rsqr; lra.
Qed.

(** The inner product of two unit quaternions lies in [-1,1]. *)
Lemma qdot_unit_bound (a b : btQuaternion) :
  length2 a = 1 -> length2 b = 1 -> Rabs (qdot a b) <= 1.
Proof.
  destruct a as [ax ay az aw], b as [bx b_y bz bw].
  unfold length2, qdot. cbn [qx qy qz qw]. intros Ha Hb.
  apply Rabs_le.
  generalize (sum4_squares_pos (ax - bx) (ay - b_y) (az - bz) (aw - bw))
             (sum4_squares_pos (ax + bx) (ay + b_y) (az + bz) (aw + bw)).
  lra.
Qed.

(** Two unit quaternions whose inner product reaches 1 are equal. *)
Lemma qdot_unit_lt (a b : btQuaternion) :
  length2 a = 1 -> length2 b = 1 -> a <> b -> qdot a b < 1.
Proof.
  destruct a as [ax ay az aw], b as [bx b_y bz bw].
  unfold length2, qdot. cbn [qx qy qz qw]. intros Ha Hb Hne.
  destruct (Rlt_dec (ax * bx + ay * b_y + az * bz + aw * bw) 1) as [|Hge];
    [assumption|].
  exfalso. apply Hne.
  assert (Hs : (ax - bx) * (ax - bx) + (ay - b_y) * (ay - b_y) +
               (az - bz) * (az - bz) + (aw - bw) * (aw - bw) <= 0) by lra.
  destruct (sum4_squares_zero _ _ _ _ Hs) as (H1 & H2 & H3 & H4).
  f_equal; lra.
Qed.

(** The sign [slerp] picks turns the inner product into its absolute
    value. *)
Lemma slerp_sign (p : R) :
  let sign := if Rlt_dec p 0 then -1 else 1 in
  sign * p = Rabs p /\ sign * sign = 1.
Proof.
  cbn zeta. destruct (Rlt_dec p 0).
  - rewrite Rabs_left by assumption. lra.
  - rewrite Rabs_right by lra. lra.
Qed.

(** The arc angle of a cosine in [0,1): its cosine is the given one and its
    sine does not vanish. *)
Lemma acos_angle (c : R) :
  0 <= c < 1 -> cos (acos c) = c /\ sin (acos c) <> 0.
Proof.
  intros Hc.
  assert (Hcos : cos (acos c) = c) by (apply cos_acos; lra).
  split; [exact Hcos|].
  intros Hsin. generalize (sin_cos_squares (acos c)).
  rewrite Hsin, Hcos. nra.
Qed.

(** The weights of [slerp]: with [S], [C] the sine and cosine of the arc
    angle and [s], [c] those of the part travelled, the weight of the first
    quaternion is [S*c - C*s] and that of the second is [s]. *)
Lemma slerp_weights (t theta : R) :
  sin ((1 - t) * theta) =
  sin theta * cos (t * theta) - cos theta * sin (t * theta).
Proof.
  replace ((1 - t) * theta) with (theta - t * theta) by ring.
  apply sin_minus.
Qed.

(** [slerp] of two unit quaternions is a unit quaternion. *)
Lemma slerp_unit (a b : btQuaternion) (t : R) :
  length2 a = 1 -> length2 b = 1 -> length2 (slerp a b t) = 1.
Proof.
  intros Ha Hb. unfold slerp.
  destruct (Rlt_dec (Rabs (qdot a b)) 1) as [Hlt|]; [|exact Ha].
  destruct (slerp_sign (qdot a b)) as [Hs Hss]. cbn zeta in Hs, Hss.
  set (sign := if Rlt_dec (qdot a b) 0 then -1 else 1) in *.
  rewrite Hs.
  destruct (acos_angle (Rabs (qdot a b))) as [Hcos Hsin];
    [split; [apply Rabs_pos|exact Hlt]|].
  set (theta := acos (Rabs (qdot a b))) in *.
  rewrite slerp_weights, Hcos. rewrite <- Hs.
  generalize (sin_cos_squares theta) (sin_cos_squares (t * theta)).
  rewrite Hcos, <- Hs.
  set (S := sin theta) in *. set (s := sin (t * theta)).
  set (c := cos (t * theta)).
  intros HS Hsc.
  destruct a as [ax ay az aw], b as [bx b_y bz bw].
  unfold length2, qdot in *. cbn [qx qy qz qw] in *.
  set (p := ax * bx + ay * b_y + az * bz + aw * bw) in *.
  as_reals.
  transitivity
    (((S * c - sign * p * s) * (S * c - sign * p * s) *
        (ax * ax + ay * ay + az * az + aw * aw) +
      s * s * (sign * sign) * (bx * bx + b_y * b_y + bz * bz + bw * bw) +
      2 * (S * c - sign * p * s) * (sign * s) * p) * (1 / S) * (1 / S)).
  { unfold p. ring. }
  rewrite Ha, Hb, Hss.
  transitivity ((S * S * (c * c + s * s) +
                 s * s * (1 - S * S - sign * p * (sign * p))) *
                (1 / S) * (1 / S)).
  { ring. }
  replace (1 - S * S - sign * p * (sign * p)) with 0 by lra.
  replace (c * c + s * s) with 1 by lra.
  field. exact Hsin.
Qed.

(** Constant angular velocity on the shorter arc: the angle between the
    first quaternion and the interpolated one is the fraction [t] of the
    arc angle. *)
Lemma slerp_angle (a b : btQuaternion) (t : R) :
  length2 a = 1 -> length2 b = 1 ->
  qdot a (slerp a b t) = cos (t * arc_angle a b).
Proof.
  intros Ha Hb. unfold slerp, arc_angle.
  destruct (Rlt_dec (Rabs (qdot a b)) 1) as [Hlt|Hge].
  - destruct (slerp_sign (qdot a b)) as [Hs Hss]. cbn zeta in Hs, Hss.
    set (sign := if Rlt_dec (qdot a b) 0 then -1 else 1) in *.
    rewrite Hs.
    destruct (acos_angle (Rabs (qdot a b))) as [Hcos Hsin];
      [split; [apply Rabs_pos|exact Hlt]|].
    set (theta := acos (Rabs (qdot a b))) in *.
    rewrite slerp_weights, Hcos. rewrite <- Hs.
    set (S := sin theta) in *. set (s := sin (t * theta)).
    set (c := cos (t * theta)).
    destruct a as [ax ay az aw], b as [bx b_y bz bw].
    unfold length2, qdot in *. cbn [qx qy qz qw] in *.
    set (p := ax * bx + ay * b_y + az * bz + aw * bw) in *.
    as_reals.
    transitivity
      (((S * c - sign * p * s) * (ax * ax + ay * ay + az * az + aw * aw) +
        sign * s * p) * (1 / S)).
    { unfold p. ring. }
    rewrite Ha. field. exact Hsin.
  - assert (Habs : Rabs (qdot a b) = 1)
      by (generalize (qdot_unit_bound a b Ha Hb); lra).
    rewrite Habs, acos_1, Rmult_0_r, cos_0. exact Ha.
Qed.

(** At fraction 0, [slerp] returns its first argument. *)
Lemma slerp_at_zero (a b : btQuaternion) : slerp a b 0 = a.
Proof.
  unfold slerp.
  destruct (Rlt_dec (Rabs (qdot a b)) 1) as [Hlt|]; [|reflexivity].
  destruct (slerp_sign (qdot a b)) as [Hs _]. cbn zeta in Hs.
  set (sign := if Rlt_dec (qdot a b) 0 then -1 else 1) in *.
  rewrite Hs.
  destruct (acos_angle (Rabs (qdot a b))) as [_ Hsin];
    [split; [apply Rabs_pos|exact Hlt]|].
  set (theta := acos (Rabs (qdot a b))) in *.
  replace ((1 - 0) * theta) with theta by ring.
  rewrite Rmult_0_l, sin_0.
  destruct a as [ax ay az aw]. cbn [qx qy qz qw].
  f_equal; as_reals; field; exact Hsin.
Qed.

(** The squared length of the component-wise blend of two unit
    quaternions. *)
Lemma qlerp_length2 (a b : btQuaternion) (t : R) :
  length2 a = 1 -> length2 b = 1 ->
  length2 (qlerp a b t) = 1 - 2 * t * (1 - t) * (1 - qdot a b).
Proof.
  destruct a as [ax ay az aw], b as [bx b_y bz bw].
  unfold length2, qdot, qlerp. cbn [qx qy qz qw]. intros Ha Hb.
  as_reals.
  transitivity
    ((1 - t) * (1 - t) * (ax * ax + ay * ay + az * az + aw * aw) +
     t * t * (bx * bx + b_y * b_y + bz * bz + bw * bw) +
     2 * t * (1 - t) * (ax * bx + ay * b_y + az * bz + aw * bw)).
  { ring. }
  rewrite Ha, Hb. ring.
Qed.

(** Strictly between two distinct unit quaternions the component-wise
    blend is shorter than a unit quaternion, so [slerp] is not that blend. *)
Lemma slerp_is_not_qlerp (a b : btQuaternion) (t : R) :
  length2 a = 1 -> length2 b = 1 -> a <> b -> 0 < t < 1 ->
  length2 (qlerp a b t) < 1 /\ slerp a b t <> qlerp a b t.
Proof.
  intros Ha Hb Hne Ht.
  assert (Hd : qdot a b < 1) by now apply qdot_unit_lt.
  assert (Hl : length2 (qlerp a b t) < 1).
  { rewrite (qlerp_length2 a b t Ha Hb).
    assert (0 < t * (1 - t) * (1 - qdot a b)).
    { apply Rmult_lt_0_compat; [apply Rmult_lt_0_compat|]; lra. }
    lra. }
  split; [exact Hl|].
  intros Heq. rewrite <- Heq, (slerp_unit a b t Ha Hb) in Hl. lra.
Qed.

End Slerp.

(** ** Orientation, and the tick that [reset] performs *)

Section Pose.

Context {GC : Type} {gcI : GhostController GC}.
Variable env : KartEnv.

(** C4.  On a tick between two frames whose orientations are unit
    quaternions, the orientation [update] sets is their [slerp] at the
    fraction [rd].  It is a unit quaternion; its angle to the orientation of
    frame [idx] is the fraction [rd] of the (shorter) arc angle between the
    two frames, so the arc is travelled at constant angular velocity; and
    strictly between two distinct orientations it differs from their
    component-wise linear blend.  This holds for every fraction, so in
    particular for those in [0,1]. *)
Theorem update_orientation_is_unit_slerp
    (dt : float) (k : GhostKart GC) (gc0 : GC) :
  let gc := gc_update dt gc0 in
  let idx := getCurrentReplayIndex gc in
  let rd := getReplayDelta gc in
  let q0 := getRotation (transform_at k idx) in
  let q1 := getRotation (transform_at k (idx + 1)) in
  m_controller k = Ghost gc0 ->
  isReplayEnd gc = false ->
  store_wf k ->
  (idx + 1 < frameCount k)%N ->
  (idx + 1 < UINT_RANGE)%N ->
  length2 q0 = 1 ->
  length2 q1 = 1 ->
  exists k',
    update env dt k = Done k' /\
    getRotation (m_transform k') = slerp q0 q1 rd /\
    length2 (getRotation (m_transform k')) = 1 /\
    qdot q0 (getRotation (m_transform k')) = cos (rd * arc_angle q0 q1) /\
    (q0 <> q1 -> 0 < rd < 1 ->
     getRotation (m_transform k') <> qlerp q0 q1 rd).
Proof.
  intros gc idx rd q0 q1 Hc Hend Hwf Hidx Hwrap H0 H1.
  destruct (update_between_frames env dt k gc0 Hc Hend Hwf Hidx Hwrap)
    as (k' & Hu & _ & _ & _ & Ht & _).
  exists k'. split; [exact Hu|].
  rewrite Ht. cbn [getRotation]. fold gc idx rd q0 q1.
  split; [reflexivity|].
  split; [now apply slerp_unit|].
  split; [now apply slerp_angle|].
  intros Hne Hrd. now apply slerp_is_not_qlerp.
Qed.

Lemma Kart_reset_ghost (k : GhostKart GC) (gc : GC) :
  m_controller k = Ghost gc ->
  Kart_reset k = set_controller (Ghost (gc_reset gc)) k.
Proof. intros Hc. unfold Kart_reset. now rewrite Hc. Qed.

(** C6.  [reset] makes the kart visible, resets the cursor and runs one
    [update(0)].  With a cursor that stands at frame 0, fraction 0 after its
    reset, as it does after load, the kart ends visible with the pose of
    frame 0, and its pose, front point and the calls of that tick are those
    of the first [update(0)] on the loaded kart. *)
Theorem reset_replays_first_update
    (k0 k : GhostKart GC) (gc0 gc : GC) :
  m_controller k0 = Ghost gc0 ->
  m_controller k = Ghost gc ->
  same_recording k0 k ->
  store_wf k0 ->
  (2 <= frameCount k0)%N ->
  m_node_visible k0 = true ->
  cursor_at_start (gc_update 0 gc0) ->
  cursor_at_start (gc_update 0 (gc_reset gc)) ->
  exists k0' k' out,
    update env 0 k0 = Done k0' /\
    reset env k = Done k' /\
    m_controller k' = Ghost (gc_update 0 (gc_reset gc)) /\
    m_node_visible k' = true /\
    m_transform k' = transform_at k 0 /\
    m_node_visible k0' = m_node_visible k' /\
    m_transform k0' = m_transform k' /\
    m_xyz_front k0' = m_xyz_front k' /\
    m_calls k0' = m_calls k0 ++ out /\
    m_calls k' = m_calls k ++ out.
Proof.
  intros Hc0 Hc (HT & HP & HE & HO) Hwf Hn Hvis
    (Hend0 & Hidx0 & Hrd0) (Hend & Hidx & Hrd).
  assert (Hwf' : store_wf k).
  { unfold store_wf in *. now rewrite <- HT, <- HP, <- HE. }
  assert (Hn' : (2 <= frameCount k)%N).
  { unfold frameCount in *. now rewrite <- HT. }
  (* the first tick of the loaded kart *)
  destruct (update_between_frames env 0 k0 gc0 Hc0 Hend0 Hwf)
    as (k0' & Hu0 & _ & Hv0 & _ & Ht0 & Hf0 & Hl0);
    [rewrite Hidx0; lia | rewrite Hidx0; reflexivity |].
  rewrite Hidx0, Hrd0 in Ht0, Hf0, Hl0.
  (* the tick inside reset *)
  set (kr := set_controller (Ghost (gc_reset gc)) (setVisible true k)).
  assert (Hr : reset env k = update env 0 kr).
  { unfold reset. now rewrite (Kart_reset_ghost (setVisible true k) gc Hc). }
  destruct (update_between_frames env 0 kr (gc_reset gc) eq_refl Hend Hwf')
    as (k' & Hu & Hck & Hv & _ & Ht & Hf & Hl);
    [rewrite Hidx; exact (N.lt_le_trans _ _ _ N.lt_1_2 Hn')
    | rewrite Hidx; reflexivity |].
  rewrite Hidx, Hrd in Ht, Hf, Hl.
  change (position_at kr) with (position_at k) in Ht, Hf, Hl.
  change (transform_at kr) with (transform_at k) in Ht, Hf, Hl.
  change (m_calls kr) with (m_calls k) in Hl.
  change (tick_calls env kr) with (tick_calls env k) in Hl.
  change (nitro_intensity env kr) with (nitro_intensity env k) in Hl.
  assert (Hsame_t : transform_at k0 = transform_at k)
    by (unfold transform_at; now rewrite HT).
  assert (Hsame_p : position_at k0 = position_at k)
    by (unfold position_at; now rewrite Hsame_t).
  assert (Hsame_c : tick_calls env k0 = tick_calls env k).
  { unfold tick_calls, event_at, physic_at. now rewrite HP, HE, HO. }
  assert (Hsame_n : nitro_intensity env k0 = nitro_intensity env k).
  { unfold nitro_intensity, event_at, physic_at. now rewrite HP, HE. }
  rewrite Hsame_t, Hsame_p, Hsame_c, Hsame_n in *.
  rewrite lerp_at_zero, slerp_at_zero in *.
  exists k0', k'. eexists.
  split; [exact Hu0|]. split; [now rewrite Hr|]. split; [exact Hck|].
  split; [now rewrite Hv|].
  split.
  { rewrite Ht. unfold position_at. now destruct (transform_at k 0). }
  split; [now rewrite Hv0, Hv, Hvis|].
  split; [now rewrite Ht0, Ht|].
  split; [now rewrite Hf0, Hf|].
  split; [exact Hl0|exact Hl].
Qed.

End Pose.

(** ** The claims on concrete recordings *)

Lemma two_frames_wf (c : Controller HeldCursor) : store_wf (two_frames c).
Proof. split; reflexivity. Qed.

(** C1 on the spec's example: half way between (0,0,0) and (10,0,0) the
    kart stands at (5,0,0). *)
Lemma update_position_is_lerp_witness :
  (0 + 2 <= frameCount (two_frames (Ghost mid_cursor)))%N /\
  exists k',
    update sample_env (1 / 60) (two_frames (Ghost mid_cursor)) = Done k' /\
    getXYZ k' = mkVec3 5 0 0.
Proof.
  split; [cbn; lia|].
  destruct (update_position_is_lerp sample_env (1 / 60)
              (two_frames (Ghost mid_cursor)) mid_cursor)
    as (k' & Hu & Hp & _);
    [reflexivity | reflexivity | apply two_frames_wf | cbn; lia
    | reflexivity |].
  exists k'. split; [exact Hu|].
  rewrite Hp.
  change (getReplayDelta (gc_update (1 / 60) mid_cursor)) with (1 / 2).
  change (position_at (two_frames (Ghost mid_cursor))
            (getCurrentReplayIndex (gc_update (1 / 60) mid_cursor)))
    with (mkVec3 0 0 0).
  change (position_at (two_frames (Ghost mid_cursor))
            (getCurrentReplayIndex (gc_update (1 / 60) mid_cursor) + 1))
    with (mkVec3 10 0 0).
  unfold vadd, vscale. cbn [getX getY getZ]. f_equal; lra.
Defined.

(** C2 on the spec's example: speeds 5 and 7, cursor at index 0 and
    fraction 1/2; the speed is 5. *)
Lemma getSpeed_is_recorded_speed_witness :
  getReplayDelta mid_cursor = 1 / 2 /\
  getSpeed (two_frames (Ghost mid_cursor)) = Done 5.
Proof.
  split; [reflexivity|].
  destruct (getSpeed_is_recorded_speed (two_frames (Ghost mid_cursor))
              mid_cursor) as [Hs _]; [reflexivity | cbn; lia |].
  exact Hs.
Defined.

(** C3 with a recorded speed above the engine maximum: the intensity is
    clamped to 1. *)
Lemma update_nitro_intensity_clamped_witness :
  exists k' rest,
    update sample_env (1 / 60) (two_frames (Ghost mid_cursor)) = Done k' /\
    m_calls k' = KartGFX_updateNitroGraphics 1 :: rest.
Proof.
  destruct (update_nitro_intensity_clamped sample_env (1 / 60)
              (two_frames (Ghost mid_cursor)) mid_cursor)
    as (k' & v & rest & Hu & Hl & _ & Hv & _);
    [reflexivity | reflexivity | apply two_frames_wf
    | reflexivity | reflexivity | cbn; lra |].
  exists k', rest. split; [exact Hu|].
  rewrite Hl, Hv. cbn.
  rewrite Rabs_right by lra.
  unfold Rmin. destruct (Rle_dec 1 (5 / 4)); [reflexivity|lra].
Defined.

(** C4 on the two-frame recording, whose orientations are the distinct unit
    quaternions (0,0,0,1) and (1,0,0,0): half way, the orientation is a unit
    quaternion and is not their blend (1/2,0,0,1/2). *)
Lemma update_orientation_is_unit_slerp_witness :
  length2 identity_rotation = 1 /\
  length2 (mkQuat 1 0 0 0) = 1 /\
  exists k',
    update sample_env (1 / 60) (two_frames (Ghost mid_cursor)) = Done k' /\
    length2 (getRotation (m_transform k')) = 1 /\
    getRotation (m_transform k') <>
      qlerp identity_rotation (mkQuat 1 0 0 0) (1 / 2).
Proof.
  assert (H0 : length2 identity_rotation = 1)
    by (unfold length2, qdot; cbn; lra).
  assert (H1 : length2 (mkQuat 1 0 0 0) = 1)
    by (unfold length2, qdot; cbn; lra).
  split; [exact H0|]. split; [exact H1|].
  destruct (update_orientation_is_unit_slerp sample_env (1 / 60)
              (two_frames (Ghost mid_cursor)) mid_cursor)
    as (k' & Hu & _ & Hlen & _ & Hne);
    [reflexivity | reflexivity | apply two_frames_wf
    | reflexivity | reflexivity | exact H0 | exact H1 |].
  exists k'. split; [exact Hu|]. split; [exact Hlen|].
  apply Hne.
  - intros Heq. apply (f_equal qw) in Heq. change (1 = 0) in Heq. lra.
  - change (getReplayDelta (gc_update (1 / 60) mid_cursor)) with (1 / 2). lra.
Defined.

(** C5 on the two-frame recording with a cursor at its end. *)
Lemma update_at_replay_end_witness :
  exists k',
    update sample_env (1 / 60) (two_frames (Ghost ended_cursor)) = Done k' /\
    m_node_visible k' = false /\
    m_transform k' = m_transform (two_frames (Ghost ended_cursor)) /\
    m_calls k' = [].
Proof.
  destruct (update_at_replay_end sample_env (1 / 60)
              (two_frames (Ghost ended_cursor)) ended_cursor)
    as (k' & Hu & Hv & _ & Ht & _ & Hl & _); [reflexivity | reflexivity |].
  exists k'. split; [exact Hu|]. split; [exact Hv|]. split; [exact Ht|].
  exact Hl.
Defined.

(** C6 on the two-frame recording: reset of the finished kart against the
    first tick of the loaded one. *)
Lemma reset_replays_first_update_witness :
  m_node_visible finished_kart = false /\
  exists k0' k',
    update sample_env 0 (two_frames (Ghost start_cursor)) = Done k0' /\
    reset sample_env finished_kart = Done k' /\
    m_node_visible k' = true /\
    m_transform k' = mkTransform (mkVec3 0 0 0) identity_rotation /\
    m_transform k0' = m_transform k' /\
    m_xyz_front k0' = m_xyz_front k'.
Proof.
  split; [reflexivity|].
  destruct (reset_replays_first_update sample_env
              (two_frames (Ghost start_cursor)) finished_kart
              start_cursor ended_cursor)
    as (k0' & k' & out & Hu0 & Hr & _ & Hv & Ht & _ & Htt & Hf & _);
    [reflexivity | reflexivity | now repeat split | apply two_frames_wf
    | cbn; lia | reflexivity | now repeat split | now repeat split |].
  exists k0', k'. split; [exact Hu0|]. split; [exact Hr|].
  split; [exact Hv|]. split; [exact Ht|]. split; [exact Htt|exact Hf].
Defined.

(** C7 on three frames with suspension lengths 1/10, 2/10 and 3/10 and a
    lowest point of -1/4: the offset is that of the first frame. *)
Lemma graphical_y_offset_set_by_first_frame_witness :
  exists kN,
    addReplayEvents sample_env
      [sample_frame 5 (1 / 10); sample_frame 7 (2 / 10);
       sample_frame 9 (3 / 10)]
      (new_kart (Ghost start_cursor)) = Done kN /\
    m_graphical_y_offset kN = - (7 / 20) /\
    baseline_computations kN = 1%nat.
Proof.
  destruct (graphical_y_offset_set_by_first_frame sample_env
              (new_kart (Ghost start_cursor)) start_cursor
              (sample_frame 5 (1 / 10))
              [sample_frame 7 (2 / 10); sample_frame 9 (3 / 10)])
    as (k1 & kN & H1 & Ho1 & HN & HoN & Hc); [reflexivity | reflexivity |].
  exists kN. split.
  { cbn [addReplayEvents]. rewrite H1. cbn [bind]. exact HN. }
  split; [|exact Hc].
  rewrite HoN, Ho1. cbn. lra.
Defined.

(** C8 on the one-frame recording with the cursor at index 2, and on the
    two-frame recording with the cursor half way between frames 0 and 1. *)
Lemma update_checks_cursor_index_witness :
  update sample_env 0 (one_frame (Ghost stray_cursor))
    = Crash AssertionFailed /\
  at_index (m_all_transform (two_frames (Ghost mid_cursor)))
    (uint_add 0%N 1%N)
    = Done (mkTransform (mkVec3 10 0 0) (mkQuat 1 0 0 0)) /\
  exists k',
    update sample_env (1 / 60) (two_frames (Ghost mid_cursor)) = Done k'.
Proof.
  split.
  - apply (update_checks_cursor_index sample_env 0
             (one_frame (Ghost stray_cursor)) stray_cursor);
      [reflexivity | reflexivity | unfold frameCount, size; cbn; lia].
  - destruct (update_checks_cursor_index sample_env (1 / 60)
                (two_frames (Ghost mid_cursor)) mid_cursor)
      as [_ Hsafe]; [reflexivity | reflexivity |].
    destruct Hsafe as (_ & _ & _ & _ & Hnext & Hdone);
      [apply two_frames_wf | reflexivity | reflexivity |].
    split; [exact Hnext|exact Hdone].
Defined.

(** C8 as the spec states it, that [update] checks [idx + 1 < frameCount],
    so that passing the check keeps every read inside the store and failing
    it is an assertion failure, does not hold of the code.  On a store with a single
    frame and a cursor that has not ended and stands at index 0,
    [idx + 1 < frameCount] is false; the assertion of [update] passes all
    the same, and the tick ends in a read outside the store, not in an
    assertion failure. *)
Lemma update_does_not_check_next_frame :
  isReplayEnd (gc_update 0 start_cursor) = false /\
  ~ (getCurrentReplayIndex (gc_update 0%R start_cursor) + 1
     < frameCount (one_frame (Ghost start_cursor)))%N /\
  assert (0 <? size (m_all_transform (one_frame (Ghost start_cursor))))%N
    = Done tt /\
  update sample_env 0 (one_frame (Ghost start_cursor)) = Crash OutOfBounds /\
  update sample_env 0 (one_frame (Ghost start_cursor))
    <> Crash AssertionFailed.
Proof.
  split; [reflexivity|]. split; [cbn; lia|].
  destruct (update_reads_past_last_frame sample_env 0
              (one_frame (Ghost start_cursor)) start_cursor) as [Ha Hu];
    [reflexivity | reflexivity | split; reflexivity
    | reflexivity | reflexivity |].
  split; [exact Ha|]. split; [exact Hu|].
  rewrite Hu. discriminate.
Qed.

(** C9 on a kart with nothing recorded, whose cursor reports the end. *)
Lemma update_on_empty_store_witness :
  frameCount (new_kart (Ghost ended_cursor)) = 0%N /\
  exists k',
    update sample_env (1 / 60) (new_kart (Ghost ended_cursor)) = Done k' /\
    m_node_visible k' = false /\
    m_calls k' = [].
Proof.
  split; [reflexivity|].
  destruct (update_on_empty_store sample_env (1 / 60)
              (new_kart (Ghost ended_cursor)) ended_cursor)
    as (_ & k' & Hu & Hv & _ & _ & Hl);
    [reflexivity | reflexivity | intros E; discriminate E |].
  exists k'. split; [exact Hu|]. split; [exact Hv|exact Hl].
Defined.

(** C10 on the two-frame recording driven by another controller. *)
Lemma update_without_ghost_controller_witness :
  update sample_env (1 / 60) (two_frames NotGhost) = Done (two_frames NotGhost).
Proof.
  apply (update_without_ghost_controller sample_env (1 / 60)
           (two_frames NotGhost)).
  reflexivity.
Defined.

(** * Further properties of the ghost kart *)

Section MorePlayback.

Context {GC : Type} {gcI : GhostController GC}.
Variable env : KartEnv.

(** X1.  A tick only reads the recording: whenever [update] returns, the
    three frame vectors and the graphical offset are what they were, so the
    frame count is unchanged and a well-formed store stays well-formed. *)
Theorem update_leaves_store_untouched (dt : float) (k k' : GhostKart GC) :
  update env dt k = Done k' ->
  same_recording k k' /\
  frameCount k' = frameCount k /\
  (store_wf k -> store_wf k').
Proof.
  intros Hu.
  destruct (update_keeps_recording env dt k k' Hu) as (HT & HP & HE & HO).
  split; [now repeat split|].
  unfold frameCount, store_wf. rewrite <- HT, <- HP, <- HE. now split.
Qed.

(** X2.  With a cursor that has not ended and whose index is at or past the
    end of the store, [update] stops at its assertion; nothing is read out
    of bounds. *)
Theorem update_index_past_store_asserts
    (dt : float) (k : GhostKart GC) (gc0 : GC) :
  m_controller k = Ghost gc0 ->
  isReplayEnd (gc_update dt gc0) = false ->
  (frameCount k <= getCurrentReplayIndex (gc_update dt gc0))%N ->
  update env dt k = Crash AssertionFailed /\
  update env dt k <> Crash OutOfBounds.
Proof.
  intros Hc Hend Hidx.
  rewrite (update_asserts_index env dt k gc0 Hc Hend Hidx).
  split; [reflexivity|discriminate].
Qed.

(** X3.  If the advanced cursor either reports the end or has a frame
    after its index, [update] returns normally: the assertion holds and
    both frame reads are inside the store. *)
Theorem update_runs_when_next_frame_exists
    (dt : float) (k : GhostKart GC) (gc0 : GC) :
  m_controller k = Ghost gc0 ->
  store_wf k ->
  (frameCount k <= UINT_RANGE)%N ->
  (isReplayEnd (gc_update dt gc0) = false ->
   (getCurrentReplayIndex (gc_update dt gc0) + 1 < frameCount k)%N) ->
  exists k',
    update env dt k = Done k' /\
    m_controller k' = Ghost (gc_update dt gc0) /\
    m_node_visible k' =
      (if isReplayEnd (gc_update dt gc0) then false else m_node_visible k).
Proof.
  intros Hc Hwf Hsize Hnext.
  destruct (isReplayEnd (gc_update dt gc0)) eqn:Hend.
  - exists (setVisible false (set_controller (Ghost (gc_update dt gc0)) k)).
    unfold update. rewrite Hc, Hend. now repeat split.
  - specialize (Hnext eq_refl).
    destruct (update_between_frames env dt k gc0 Hc Hend Hwf Hnext)
      as (k' & Hu & Hck & Hv & _); [lia|].
    exists k'. now repeat split.
Qed.

(** X4.  [getSpeed] never reads outside the store: an index at or past the
    end of the physics vector stops it at its assertion. *)
Theorem getSpeed_never_reads_past_store (k : GhostKart GC) :
  getSpeed k <> Crash OutOfBounds /\
  forall gc : GC,
    m_controller k = Ghost gc ->
    (size (m_all_physic_info k) <= getCurrentReplayIndex gc)%N ->
    getSpeed k = Crash AssertionFailed.
Proof.
  unfold getSpeed. split.
  - destruct (m_controller k) as [gc|]; [|discriminate].
    destruct (getCurrentReplayIndex gc <? size (m_all_physic_info k))%N eqn:E;
      cbn [assert bind]; [|discriminate].
    apply N.ltb_lt in E.
    rewrite (at_index_nth _ _ default_physic_info E). discriminate.
  - intros gc Hc Hidx. rewrite Hc.
    now rewrite (assert_false _ (proj2 (N.ltb_ge _ _) Hidx)).
Qed.

(** X5.  The zipper fire is shown once on every tick whose frame [idx] has
    the zipper flag set, and not at all on a tick whose frame has it
    clear: the trigger is per tick, not per recorded event. *)
Theorem update_fires_zipper_on_flagged_ticks
    (dt : float) (k : GhostKart GC) (gc0 : GC) :
  let gc := gc_update dt gc0 in
  let idx := getCurrentReplayIndex gc in
  m_controller k = Ghost gc0 ->
  isReplayEnd gc = false ->
  store_wf k ->
  (idx + 1 < frameCount k)%N ->
  (idx + 1 < UINT_RANGE)%N ->
  exists k',
    update env dt k = Done k' /\
    zipper_fires k' =
      (zipper_fires k + if m_on_zipper (event_at k idx) then 1 else 0)%nat.
Proof.
  intros gc idx Hc Hend Hwf Hidx Hwrap.
  destruct (update_between_frames env dt k gc0 Hc Hend Hwf Hidx Hwrap)
    as (k' & Hu & _ & _ & _ & _ & _ & Hl).
  exists k'. split; [exact Hu|].
  unfold zipper_fires. rewrite Hl. unfold tick_calls. fold gc idx.
  rewrite filter_app, length_app.
  destruct (m_on_zipper (event_at k idx)); reflexivity.
Qed.

(** X6.  After a tick between two frames, [getSpeed] returns the speed of
    frame [idx], the very speed that tick handed to the kart model (together
    with [dt * speed] as distance and the steer of the same frame). *)
Theorem update_then_getSpeed (dt : float) (k : GhostKart GC) (gc0 : GC) :
  let gc := gc_update dt gc0 in
  let idx := getCurrentReplayIndex gc in
  let pi := physic_at k idx in
  m_controller k = Ghost gc0 ->
  isReplayEnd gc = false ->
  store_wf k ->
  (idx + 1 < frameCount k)%N ->
  (idx + 1 < UINT_RANGE)%N ->
  exists k',
    update env dt k = Done k' /\
    getSpeed k' = Done (m_speed pi) /\
    In (KartModel_update dt (dt * m_speed pi) (m_steer pi) (m_speed pi) idx)
       (m_calls k').
Proof.
  intros gc idx pi Hc Hend Hwf Hidx Hwrap.
  destruct (update_between_frames env dt k gc0 Hc Hend Hwf Hidx Hwrap)
    as (k' & Hu & Hck & _ & (_ & HP & _) & _ & _ & Hl).
  exists k'. split; [exact Hu|]. split.
  - assert (Hsz : (idx < size (m_all_physic_info k'))%N).
    { rewrite <- HP. destruct Hwf as [Hp _].
      unfold frameCount, size in *. lia. }
    unfold getSpeed. rewrite Hck. fold gc idx.
    rewrite (assert_true _ (proj2 (N.ltb_lt _ _) Hsz)). cbn [bind].
    rewrite (at_index_nth _ _ default_physic_info Hsz).
    unfold pi, physic_at. now rewrite HP.
  - rewrite Hl. unfold tick_calls. fold gc idx pi.
    apply in_or_app. right. apply in_or_app. right.
    apply in_or_app. right. cbn. auto.
Qed.

End MorePlayback.

Section PoseAndLoading.

Context {GC : Type} {gcI : GhostController GC}.
Variable env : KartEnv.

(** X7.  The pose of a tick is a function of the recording and of where the
    cursor stands, not of the pose or history the kart had before: two
    karts holding the same recording whose advanced cursors agree on index
    and fraction leave [update] with the same transform and front point,
    and, for equal time steps, have made the same calls. *)
Theorem update_pose_depends_on_cursor_position_only
    (dt1 dt2 : float) (k1 k2 : GhostKart GC) (g1 g2 : GC) :
  let c1 := gc_update dt1 g1 in
  let c2 := gc_update dt2 g2 in
  m_controller k1 = Ghost g1 ->
  m_controller k2 = Ghost g2 ->
  same_recording k1 k2 ->
  store_wf k1 ->
  isReplayEnd c1 = false ->
  isReplayEnd c2 = false ->
  getCurrentReplayIndex c2 = getCurrentReplayIndex c1 ->
  getReplayDelta c2 = getReplayDelta c1 ->
  (getCurrentReplayIndex c1 + 1 < frameCount k1)%N ->
  (getCurrentReplayIndex c1 + 1 < UINT_RANGE)%N ->
  exists k1' k2',
    update env dt1 k1 = Done k1' /\
    update env dt2 k2 = Done k2' /\
    m_transform k1' = m_transform k2' /\
    m_xyz_front k1' = m_xyz_front k2' /\
    (dt1 = dt2 ->
     exists out, m_calls k1' = m_calls k1 ++ out /\
                 m_calls k2' = m_calls k2 ++ out).
Proof.
  intros c1 c2 Hc1 Hc2 (HT & HP & HE & HO) Hwf Hend1 Hend2 Hi Hr Hidx Hwrap.
  assert (Hwf2 : store_wf k2).
  { unfold store_wf in *. now rewrite <- HT, <- HP, <- HE. }
  assert (Hidx2 : (getCurrentReplayIndex c2 + 1 < frameCount k2)%N).
  { unfold frameCount in *. now rewrite Hi, <- HT. }
  assert (Hwrap2 : (getCurrentReplayIndex c2 + 1 < UINT_RANGE)%N)
    by now rewrite Hi.
  destruct (update_between_frames env dt1 k1 g1 Hc1 Hend1 Hwf Hidx Hwrap)
    as (k1' & Hu1 & _ & _ & _ & Ht1 & Hf1 & Hl1).
  destruct (update_between_frames env dt2 k2 g2 Hc2 Hend2 Hwf2 Hidx2 Hwrap2)
    as (k2' & Hu2 & _ & _ & _ & Ht2 & Hf2 & Hl2).
  fold c1 in Ht1, Hf1, Hl1. fold c2 in Ht2, Hf2, Hl2.
  rewrite Hi, Hr in Ht2, Hf2, Hl2.
  assert (Hsame_t : transform_at k2 = transform_at k1)
    by (unfold transform_at; now rewrite HT).
  assert (Hsame_p : position_at k2 = position_at k1)
    by (unfold position_at; now rewrite Hsame_t).
  assert (Hsame_c : tick_calls env k2 = tick_calls env k1).
  { unfold tick_calls, event_at, physic_at. now rewrite HP, HE, HO. }
  assert (Hsame_n : nitro_intensity env k2 = nitro_intensity env k1).
  { unfold nitro_intensity, event_at, physic_at. now rewrite HP, HE. }
  rewrite Hsame_t, Hsame_p in Ht2, Hf2, Hl2.
  rewrite Hsame_c, Hsame_n in Hl2.
  exists k1', k2'. split; [exact Hu1|]. split; [exact Hu2|].
  split; [now rewrite Ht1, Ht2|]. split; [now rewrite Hf1, Hf2|].
  intros <-. eexists. split; [exact Hl1|exact Hl2].
Qed.

Lemma blend_between (a b t : R) :
  0 <= t <= 1 -> between a b (a * (1 - t) + b * t).
Proof.
  intros Ht. unfold between, Rmin, Rmax.
  destruct (Rle_dec a b); nra.
Qed.

(** X8.  For a fraction in [0,1] the position [update] sets never leaves
    the box spanned by the two bracketing positions, coordinate by
    coordinate; at fraction 1 it is the position of frame [idx + 1], so
    the motion is continuous from one frame interval to the next. *)
Theorem update_position_stays_between_frames
    (dt : float) (k : GhostKart GC) (gc0 : GC) :
  let gc := gc_update dt gc0 in
  let idx := getCurrentReplayIndex gc in
  let rd := getReplayDelta gc in
  m_controller k = Ghost gc0 ->
  isReplayEnd gc = false ->
  store_wf k ->
  (idx + 1 < frameCount k)%N ->
  (idx + 1 < UINT_RANGE)%N ->
  0 <= rd <= 1 ->
  exists k',
    update env dt k = Done k' /\
    in_box (position_at k idx) (position_at k (idx + 1)) (getXYZ k') /\
    (rd = 1 -> getXYZ k' = position_at k (idx + 1)).
Proof.
  intros gc idx rd Hc Hend Hwf Hidx Hwrap Hrd.
  destruct (update_between_frames env dt k gc0 Hc Hend Hwf Hidx Hwrap)
    as (k' & Hu & _ & _ & _ & Ht & _).
  exists k'. split; [exact Hu|].
  unfold getXYZ. rewrite Ht. cbn [getOrigin]. fold gc idx rd.
  destruct (position_at k idx) as [x0 y0 z0].
  destruct (position_at k (idx + 1)) as [x1 y1 z1].
  unfold in_box, vadd, vscale. cbn [getX getY getZ].
  split; [repeat split; now apply blend_between|].
  intros E. rewrite E. f_equal; lra.
Qed.

(** X9.  [update] never makes a hidden kart visible: if the kart is
    visible after a tick, it was visible before it. *)
Theorem update_never_shows_kart (dt : float) (k k' : GhostKart GC) :
  update env dt k = Done k' ->
  m_node_visible k' = true ->
  m_node_visible k = true.
Proof.
  unfold update.
  destruct (m_controller k) as [gc0|]; [|now intros [= <-]].
  destruct (isReplayEnd (gc_update dt gc0)); [now intros [= <-]|].
  destruct (assert _); [|discriminate]. cbn [bind].
  destruct (at_index _ _) as [ev|]; [|discriminate]. cbn [bind].
  destruct (if m_on_nitro ev then _ else _) as [nf|]; [|discriminate].
  cbn [bind call set_controller m_all_replay_events].
  destruct (at_index _ _) as [ev'|]; [|discriminate]. cbn [bind].
  destruct (m_on_zipper ev');
    cbn [call set_controller m_all_transform];
    (destruct (at_index _ _) as [t0|]; [|discriminate]); cbn [bind];
    (destruct (at_index _ _) as [t1|]; [|discriminate]); cbn [bind];
    cbn [call set_controller setXYZ setRotation set_transform
         m_all_physic_info];
    (destruct (at_index _ _) as [pi|]; [|discriminate]); cbn [bind];
    now intros [= <-].
Qed.

(** Appending one frame, whatever the store holds. *)
Lemma addReplayEvent_appends (time : float) (trans : btTransform)
    (pi : PhysicInfo) (kre : KartReplayEvent) (k : GhostKart GC) (gc : GC) :
  m_controller k = Ghost gc ->
  exists k',
    addReplayEvent env time trans pi kre k = Done k' /\
    m_controller k' = Ghost (addReplayTime time gc) /\
    m_all_transform k' = m_all_transform k ++ [trans] /\
    m_all_physic_info k' = m_all_physic_info k ++ [pi] /\
    m_all_replay_events k' = m_all_replay_events k ++ [kre].
Proof.
  intros Hc.
  destruct (m_all_physic_info k) as [|p0 ps] eqn:Hp.
  - destruct (addReplayEvent_first env time trans pi kre k gc Hc Hp)
      as (k' & Hk & Hck & Hpk & _).
    exists k'. split; [exact Hk|]. split; [exact Hck|].
    revert Hk. unfold addReplayEvent. rewrite Hc.
    cbn [push_frame set_controller m_all_physic_info]. rewrite Hp.
    change (size (push_back [] pi) =? 1)%N with true. cbn iota.
    change (at_index (push_back [] pi) 0%N) with (Done pi). cbn [bind].
    intros [= <-]. cbn. rewrite Hp. now repeat split.
  - assert (Hne : m_all_physic_info k <> []) by (rewrite Hp; discriminate).
    destruct (addReplayEvent_later env time trans pi kre k gc Hc Hne)
      as (k' & Hk & Hck & _).
    exists k'. split; [exact Hk|]. split; [exact Hck|].
    revert Hk. unfold addReplayEvent. rewrite Hc.
    cbn [push_frame set_controller m_all_physic_info].
    rewrite size_push_back.
    assert (Hsz : (size (m_all_physic_info k) + 1 =? 1)%N = false).
    { apply N.eqb_neq. rewrite Hp. unfold size. cbn [length]. lia. }
    rewrite Hsz. intros [= <-]. cbn. rewrite ?Hp. now repeat split.
Qed.

(** Appending a list of frames, one [addReplayEvent] each. *)
Lemma addReplayEvents_append (fs : list ReplayFrame) :
  forall (k : GhostKart GC) (gc : GC),
    m_controller k = Ghost gc ->
    exists k',
      addReplayEvents env fs k = Done k' /\
      m_controller k' = Ghost (addReplayTimes fs gc) /\
      m_all_transform k' = m_all_transform k ++ map rf_trans fs /\
      m_all_physic_info k' = m_all_physic_info k ++ map rf_physic fs /\
      m_all_replay_events k' = m_all_replay_events k ++ map rf_event fs.
Proof.
  induction fs as [|f fs IH]; intros k gc Hc.
  - exists k. cbn. rewrite !app_nil_r. now repeat split.
  - destruct (addReplayEvent_appends (rf_time f) (rf_trans f) (rf_physic f)
                (rf_event f) k gc Hc) as (k1 & H1 & Hc1 & HT1 & HP1 & HE1).
    destruct (IH k1 _ Hc1) as (k' & H' & Hc' & HT' & HP' & HE').
    exists k'. cbn [addReplayEvents]. rewrite H1. cbn [bind].
    split; [exact H'|]. split; [exact Hc'|].
    rewrite HT', HP', HE', HT1, HP1, HE1. cbn [map].
    rewrite <- !app_assoc. now repeat split.
Qed.

(** X10.  Loading appends the recorded frames in the order given: after
    [addReplayEvent] has been called for each frame, every one of the three
    vectors is the old vector followed by the corresponding channel of the
    new frames, the controller has been handed their times in the same
    order, and the frame count has grown by the number of frames. *)
Theorem addReplayEvents_appends_in_order
    (fs : list ReplayFrame) (k : GhostKart GC) (gc : GC) :
  m_controller k = Ghost gc ->
  exists k',
    addReplayEvents env fs k = Done k' /\
    m_controller k' = Ghost (addReplayTimes fs gc) /\
    m_all_transform k' = m_all_transform k ++ map rf_trans fs /\
    m_all_physic_info k' = m_all_physic_info k ++ map rf_physic fs /\
    m_all_replay_events k' = m_all_replay_events k ++ map rf_event fs /\
    frameCount k' = (frameCount k + N.of_nat (length fs))%N.
Proof.
  intros Hc.
  destruct (addReplayEvents_append fs k gc Hc)
    as (k' & H' & Hc' & HT & HP & HE).
  exists k'. repeat (split; [assumption|]).
  unfold frameCount, size. rewrite HT, length_app, length_map. lia.
Qed.

(** Loading does not touch the visibility of the kart. *)
Lemma addReplayEvents_keep_visibility (fs : list ReplayFrame) :
  forall k k' : GhostKart GC,
    addReplayEvents env fs k = Done k' ->
    m_node_visible k' = m_node_visible k.
Proof.
  induction fs as [|f fs IH]; intros k k'; cbn [addReplayEvents].
  - now intros [= <-].
  - unfold addReplayEvent at 1.
    destruct (m_controller k) as [g|]; [|discriminate].
    cbn [push_frame set_controller m_all_physic_info].
    destruct (_ =? _)%N.
    + destruct (at_index _ _); [|discriminate]. cbn [bind].
      intros Hb. now rewrite (IH _ _ Hb).
    + cbn [bind]. intros Hb. now rewrite (IH _ _ Hb).
Qed.

(** X11.  Load, then play: after at least two frames have been loaded into
    a newly constructed kart, a tick whose cursor stands at index 0 with
    fraction 0 puts the kart at the position of the first frame loaded. *)
Theorem load_then_update_shows_first_frame
    (dt : float) (gc : GC) (f0 f1 : ReplayFrame) (fs : list ReplayFrame) :
  let c := gc_update dt (addReplayTimes (f0 :: f1 :: fs) gc) in
  isReplayEnd c = false ->
  getCurrentReplayIndex c = 0%N ->
  getReplayDelta c = 0 ->
  exists k k',
    addReplayEvents env (f0 :: f1 :: fs) (new_kart (Ghost gc)) = Done k /\
    update env dt k = Done k' /\
    getXYZ k' = getOrigin (rf_trans f0) /\
    m_node_visible k' = true.
Proof.
  intros c Hend Hidx Hrd.
  destruct (addReplayEvents_append (f0 :: f1 :: fs) (new_kart (Ghost gc)) gc
              eq_refl) as (k & Hk & Hck & HT & HP & HE).
  assert (Hwf : store_wf k).
  { apply (addReplayEvents_keep_wf env _ _ _ (new_kart_wf (Ghost gc)) Hk). }
  assert (Hvis : m_node_visible k = true)
    by now rewrite (addReplayEvents_keep_visibility _ _ _ Hk).
  destruct (update_between_frames env dt k _ Hck Hend Hwf)
    as (k' & Hu & _ & Hv & _ & Ht & _).
  { fold c. rewrite Hidx. unfold frameCount, size. rewrite HT.
    cbn [new_kart m_all_transform app map length]. lia. }
  { fold c. rewrite Hidx. reflexivity. }
  exists k, k'. split; [exact Hk|]. split; [exact Hu|].
  split; [|now rewrite Hv].
  unfold getXYZ. rewrite Ht. cbn [getOrigin]. fold c. rewrite Hidx, Hrd.
  rewrite lerp_at_zero. unfold position_at, transform_at. now rewrite HT.
Qed.

End PoseAndLoading.

(** ** The further properties on concrete recordings *)

Lemma three_frames_wf (c : Controller HeldCursor) : store_wf (three_frames c).
Proof. split; reflexivity. Qed.

(** The tick of the three-frame recording used below: cursor a quarter of
    the way from frame 1 to frame 2. *)
Lemma three_frames_tick :
  exists k', update sample_env (1 / 60) (three_frames (Ghost second_cursor))
             = Done k'.
Proof.
  destruct (update_between_frames sample_env (1 / 60)
              (three_frames (Ghost second_cursor)) second_cursor)
    as (k' & Hu & _);
    [reflexivity | reflexivity | apply three_frames_wf
    | reflexivity | reflexivity |].
  now exists k'.
Qed.

(** X1 on the three-frame recording. *)
Lemma update_leaves_store_untouched_witness :
  exists k',
    update sample_env (1 / 60) (three_frames (Ghost second_cursor)) = Done k' /\
    m_all_transform k' = m_all_transform (three_frames NotGhost) /\
    frameCount k' = 3%N.
Proof.
  destruct three_frames_tick as (k' & Hu).
  destruct (update_leaves_store_untouched sample_env (1 / 60) _ k' Hu)
    as ((HT & _) & Hn & _).
  exists k'. split; [exact Hu|]. split; [now rewrite <- HT|].
  rewrite Hn. reflexivity.
Defined.

(** X2 on the two-frame recording with a cursor at index 2. *)
Lemma update_index_past_store_asserts_witness :
  (frameCount (two_frames (Ghost stray_cursor)) <= 2)%N /\
  update sample_env 0 (two_frames (Ghost stray_cursor))
    = Crash AssertionFailed.
Proof.
  split; [cbn; lia|].
  destruct (update_index_past_store_asserts sample_env 0
              (two_frames (Ghost stray_cursor)) stray_cursor) as [Ha _];
    [reflexivity | reflexivity | apply N.le_refl |].
  exact Ha.
Defined.

(** X3 on the three-frame recording. *)
Lemma update_runs_when_next_frame_exists_witness :
  exists k',
    update sample_env (1 / 60) (three_frames (Ghost second_cursor)) = Done k' /\
    m_node_visible k' = true.
Proof.
  destruct (update_runs_when_next_frame_exists sample_env (1 / 60)
              (three_frames (Ghost second_cursor)) second_cursor)
    as (k' & Hu & _ & Hv);
    [reflexivity | apply three_frames_wf
    | unfold UINT_RANGE, frameCount, size; cbn; lia
    | intros _; reflexivity |].
  exists k'. split; [exact Hu|exact Hv].
Defined.

(** X5 on the three-frame recording: frame 1 has the zipper on, so the
    tick shows the zipper fire once. *)
Lemma update_fires_zipper_on_flagged_ticks_witness :
  exists k',
    update sample_env (1 / 60) (three_frames (Ghost second_cursor)) = Done k' /\
    zipper_fires k' = 1%nat.
Proof.
  destruct (update_fires_zipper_on_flagged_ticks sample_env (1 / 60)
              (three_frames (Ghost second_cursor)) second_cursor)
    as (k' & Hu & Hz);
    [reflexivity | reflexivity | apply three_frames_wf
    | reflexivity | reflexivity |].
  exists k'. split; [exact Hu|]. rewrite Hz. reflexivity.
Defined.

(** X4 on the one-frame recording with the cursor at index 2. *)
Lemma getSpeed_never_reads_past_store_witness :
  getSpeed (one_frame (Ghost stray_cursor)) = Crash AssertionFailed.
Proof.
  apply (proj2 (getSpeed_never_reads_past_store
                  (one_frame (Ghost stray_cursor))) stray_cursor).
  - reflexivity.
  - unfold size. cbn. lia.
Defined.

(** X6 on the three-frame recording: the speed of frame 1 is 7. *)
Lemma update_then_getSpeed_witness :
  exists k',
    update sample_env (1 / 60) (three_frames (Ghost second_cursor)) = Done k' /\
    getSpeed k' = Done 7.
Proof.
  destruct (update_then_getSpeed sample_env (1 / 60)
              (three_frames (Ghost second_cursor)) second_cursor)
    as (k' & Hu & Hs & _);
    [reflexivity | reflexivity | apply three_frames_wf
    | reflexivity | reflexivity |].
  exists k'. split; [exact Hu|exact Hs].
Defined.

(** X7 on the two-frame recording: the loaded kart and the finished one,
    both with the cursor half way between frames 0 and 1. *)
Lemma update_pose_depends_on_cursor_position_only_witness :
  m_transform (two_frames (Ghost mid_cursor)) <> m_transform finished_kart /\
  exists k1' k2',
    update sample_env (1 / 60) (two_frames (Ghost mid_cursor)) = Done k1' /\
    update sample_env (1 / 60)
      (set_controller (Ghost mid_cursor) finished_kart) = Done k2' /\
    m_transform k1' = m_transform k2' /\
    m_xyz_front k1' = m_xyz_front k2'.
Proof.
  split.
  { intros E. apply (f_equal (fun t => getX (getOrigin t))) in E.
    change (0 = 9) in E. lra. }
  destruct (update_pose_depends_on_cursor_position_only sample_env
              (1 / 60) (1 / 60) (two_frames (Ghost mid_cursor))
              (set_controller (Ghost mid_cursor) finished_kart)
              mid_cursor mid_cursor)
    as (k1' & k2' & H1 & H2 & Ht & Hf & _);
    [reflexivity | reflexivity | now repeat split | apply two_frames_wf
    | reflexivity | reflexivity | reflexivity | reflexivity
    | reflexivity | reflexivity |].
  exists k1', k2'. now repeat split.
Defined.

(** X8 on the three-frame recording: a quarter of the way from (10,0,0) to
    (10,4,-8) the kart stands at (10,1,-2). *)
Lemma update_position_stays_between_frames_witness :
  exists k',
    update sample_env (1 / 60) (three_frames (Ghost second_cursor)) = Done k' /\
    in_box (mkVec3 10 0 0) (mkVec3 10 4 (- 8)) (getXYZ k').
Proof.
  destruct (update_position_stays_between_frames sample_env (1 / 60)
              (three_frames (Ghost second_cursor)) second_cursor)
    as (k' & Hu & Hb & _);
    [reflexivity | reflexivity | apply three_frames_wf
    | reflexivity | reflexivity
    | change (getReplayDelta (gc_update (1 / 60) second_cursor))
        with (1 / 4); lra |].
  exists k'. split; [exact Hu|exact Hb].
Defined.

(** X9 on the three-frame recording. *)
Lemma update_never_shows_kart_witness :
  exists k',
    update sample_env (1 / 60) (three_frames (Ghost second_cursor)) = Done k' /\
    m_node_visible k' = true /\
    m_node_visible (three_frames (Ghost second_cursor)) = true.
Proof.
  destruct (update_between_frames sample_env (1 / 60)
              (three_frames (Ghost second_cursor)) second_cursor)
    as (k' & Hu & _ & Hv & _);
    [reflexivity | reflexivity | apply three_frames_wf
    | reflexivity | reflexivity |].
  exists k'. split; [exact Hu|]. split; [exact Hv|].
  exact (update_never_shows_kart sample_env (1 / 60) _ k' Hu Hv).
Defined.

(** X10 on three sample frames loaded into a new kart. *)
Lemma addReplayEvents_appends_in_order_witness :
  exists k',
    addReplayEvents sample_env sample_frames (new_kart (Ghost start_cursor))
      = Done k' /\
    m_all_transform k' = map rf_trans sample_frames /\
    frameCount k' = 3%N.
Proof.
  destruct (addReplayEvents_appends_in_order sample_env sample_frames
              (new_kart (Ghost start_cursor)) start_cursor)
    as (k' & Hk & _ & HT & _ & _ & Hn); [reflexivity|].
  exists k'. split; [exact Hk|]. split; [exact HT|].
  rewrite Hn. reflexivity.
Defined.

(** X11 on the three sample frames: the first tick puts the kart at
    (1,2,3), the position of the first frame. *)
Lemma load_then_update_shows_first_frame_witness :
  exists k k',
    addReplayEvents sample_env sample_frames (new_kart (Ghost start_cursor))
      = Done k /\
    update sample_env 0 k = Done k' /\
    getXYZ k' = mkVec3 1 2 3.
Proof.
  destruct (load_then_update_shows_first_frame sample_env 0 start_cursor
              (nth 0 sample_frames (sample_frame 0 0))
              (nth 1 sample_frames (sample_frame 0 0))
              (skipn 2 sample_frames))
    as (k & k' & Hk & Hu & Hp & _);
    [reflexivity | reflexivity | reflexivity |].
  exists k, k'. split; [exact Hk|]. split; [exact Hu|exact Hp].
Defined.

(** * Properties of the material manager *)

Module MaterialManagerProps.

Import String MaterialManager.
Local Open Scope Z_scope.

Section Props.

Context {W : MaterialWorld}.

Lemma int_of_size_small (n : N) :
  (n <= 2147483647)%N -> int_of_size n = Z.of_N n.
Proof.
  intros Hn. unfold int_of_size.
  rewrite Z.mod_small; lia.
Qed.

Lemma int_of_length (A : Type) (v : list A) :
  Z.of_nat (List.length v) <= INT_MAX ->
  int_of_size (N.of_nat (List.length v)) = Z.of_nat (List.length v).
Proof. unfold INT_MAX. intros Hn. rewrite int_of_size_small; lia. Qed.

Lemma vec_at_nth (A : Type) (v : list A) (i : nat) (a : A) :
  nth_error v i = Some a -> vec_at v (Z.of_nat i) = Ret a.
Proof.
  intros E. unfold vec_at.
  destruct (Z.ltb_spec (Z.of_nat i) 0); [lia|].
  now rewrite Nat2Z.id, E.
Qed.

Lemma vec_at_last (A : Type) (v : list A) (a : A) :
  vec_at (v ++ [a]) (Z.of_nat (List.length v)) = Ret a.
Proof.
  apply vec_at_nth. rewrite nth_error_app2 by lia.
  now rewrite Nat.sub_diag.
Qed.

Lemma vec_at_negative (A : Type) (v : list A) (i : Z) :
  i < 0 -> vec_at v i = Undefined.
Proof.
  intros Hi. unfold vec_at. now destruct (Z.ltb_spec i 0); [|lia].
Qed.

(** X12. [addEntity] returns the index at which the material is then
    stored: the vector is the old one followed by the material, and reading
    the vector at the returned index gives the material back. *)
Theorem addEntity_returns_index (m : Material) (s : MaterialManager) :
  Z.of_nat (List.length (m_materials s)) < INT_MAX ->
  let s' := fst (addEntity m s) in
  let i := snd (addEntity m s) in
  m_materials s' = m_materials s ++ [m] /\
  i = Z.of_nat (List.length (m_materials s)) /\
  vec_at (m_materials s') i = Ret m /\
  m_shared_material_index s' = m_shared_material_index s.
Proof.
  intros Hn. unfold addEntity. cbn [fst snd set_materials m_materials
    m_shared_material_index].
  rewrite int_of_length by (rewrite length_app; cbn [List.length]; lia).
  rewrite length_app. cbn [List.length].
  replace (Z.of_nat (List.length (m_materials s) + 1) - 1)
    with (Z.of_nat (List.length (m_materials s))) by lia.
  repeat split. apply vec_at_last.
Qed.

Lemma firstn_snoc (A : Type) (v : list A) (i : nat) (a : A) :
  nth_error v i = Some a -> firstn (S i) v = firstn i v ++ [a].
Proof.
  revert v. induction i as [|i IH]; intros [|x v] E; try discriminate.
  - now injection E as ->.
  - change (x :: firstn (S i) v = x :: (firstn i v ++ [a])).
    f_equal. now apply IH.
Qed.

Lemma find_no_match (A : Type) (f : A -> bool) (l : list A) :
  (forall x, In x l -> f x = false) -> find f l = None.
Proof.
  induction l as [|x l IH]; intros Hl; [reflexivity|].
  cbn [find]. rewrite (Hl x) by now left.
  apply IH. intros y Hy. apply Hl. now right.
Qed.

(** The search loop of [getMaterial], run over the first [n] materials,
    finds the last of them that has the name. *)
Lemma getMaterial_search_spec (v : list Material) (name : string) (n : nat) :
  (n <= List.length v)%nat ->
  getMaterial_search v name n =
  Ret (find (fun m => (getTexFname m =? name)%string) (rev (firstn n v))).
Proof.
  induction n as [|i IH]; intros Hn; [reflexivity|].
  cbn [getMaterial_search].
  destruct (nth_error v i) as [m|] eqn:E;
    [|apply nth_error_None in E; lia].
  rewrite (vec_at_nth _ _ _ _ E). cbn [rbind].
  rewrite (firstn_snoc _ v i m E), rev_app_distr. cbn [rev app find].
  destruct (getTexFname m =? name)%string; [reflexivity|].
  apply IH. lia.
Qed.

Lemma down_count_length (A : Type) (v : list A) :
  Z.of_nat (List.length v) <= INT_MAX ->
  down_count (int_of_size (N.of_nat (List.length v)) - 1) 0 = List.length v.
Proof.
  intros Hn. rewrite int_of_length by lia. unfold down_count. lia.
Qed.

Lemma getMaterial_search_all (v : list Material) (name : string) :
  Z.of_nat (List.length v) <= INT_MAX ->
  getMaterial_search v name
    (down_count (int_of_size (N.of_nat (List.length v)) - 1) 0) =
  Ret (find (fun m => (getTexFname m =? name)%string) (rev v)).
Proof.
  intros Hn. rewrite down_count_length by lia.
  rewrite getMaterial_search_spec by lia. now rewrite firstn_all.
Qed.

(** X13. With the empty name [getMaterial] creates nothing: it returns
    the first material when there is one and [NULL] otherwise, and the
    manager is as it was. *)
Theorem getMaterial_of_empty_name (full perm : bool) (s : MaterialManager) :
  getMaterial "" full perm s = Ret (s, hd_error (m_materials s)).
Proof.
  unfold getMaterial. cbn [String.eqb].
  destruct (m_materials s) as [|m v]; [reflexivity|].
  assert (H1 : (1 <=? N.of_nat (List.length (m :: v)))%N = true)
    by (apply N.leb_le; cbn [List.length]; lia).
  rewrite H1. reflexivity.
Qed.

(** X14. [getMaterial] returns the most recently added of the materials
    that carry the texture name (so a temporary material shadows a shared
    one of the same name), and leaves the manager unchanged. *)
Theorem getMaterial_finds_latest
    (fname : string) (full perm : bool) (s : MaterialManager)
    (older newer : list Material) (m : Material) :
  fname <> ""%string ->
  Z.of_nat (List.length (m_materials s)) <= INT_MAX ->
  m_materials s = older ++ m :: newer ->
  getTexFname m = basename fname ->
  (forall m', In m' newer -> getTexFname m' <> basename fname) ->
  getMaterial fname full perm s = Ret (s, Some m).
Proof.
  intros Hne Hn Hv Hm Hnewer. unfold getMaterial.
  destruct (String.eqb_spec fname ""); [contradiction|].
  rewrite getMaterial_search_all by exact Hn.
  rewrite Hv, rev_app_distr. cbn [rev]. rewrite <- app_assoc. cbn [app].
  assert (Hf : forall l,
             (forall m', In m' l -> getTexFname m' <> basename fname) ->
             forall tl,
               find (fun m => (getTexFname m =? basename fname)%string)
                 (l ++ tl) =
               find (fun m => (getTexFname m =? basename fname)%string) tl).
  { induction l as [|x l IH]; intros Hl tl; [reflexivity|].
    cbn [app find].
    destruct (String.eqb_spec (getTexFname x) (basename fname)) as [E|_].
    - exfalso. apply (Hl x); [now left|exact E].
    - apply IH. intros m' Hin. apply Hl. now right. }
  rewrite Hf by (intros m' Hin; apply Hnewer; now apply in_rev).
  cbn [find]. rewrite Hm, String.eqb_refl. reflexivity.
Qed.

(** Creating a material that is not there yet. *)
Lemma getMaterial_creates_missing_lemma
    (fname : string) (full perm : bool) (s : MaterialManager) :
  fname <> ""%string ->
  Z.of_nat (List.length (m_materials s)) < INT_MAX ->
  (forall m', In m' (m_materials s) -> getTexFname m' <> basename fname) ->
  let m := Material_of_file fname (N.of_nat (List.length (m_materials s)))
             full in
  exists s',
    getMaterial fname full perm s = Ret (s', Some m) /\
    m_materials s' = m_materials s ++ [m] /\
    m_shared_material_index s' =
      (if perm then Z.of_nat (List.length (m_materials s)) + 1
       else m_shared_material_index s) /\
    m_deleted s' = m_deleted s.
Proof.
  intros Hne Hn Hnone m. unfold getMaterial.
  destruct (String.eqb_spec fname ""); [contradiction|].
  rewrite getMaterial_search_all by lia.
  assert (Hf : find (fun m => (getTexFname m =? basename fname)%string)
                 (rev (m_materials s)) = None).
  { apply find_no_match. intros x Hin. apply in_rev in Hin.
    apply String.eqb_neq. now apply Hnone. }
  rewrite Hf. cbn [rbind]. fold m.
  eexists. split; [reflexivity|].
  destruct perm; cbn [set_materials set_shared_material_index m_materials
                      m_shared_material_index m_deleted];
    repeat split.
  rewrite int_of_length by (rewrite length_app; cbn [List.length]; lia).
  rewrite length_app. cbn [List.length]. lia.
Qed.

(** X15. When no material carries the texture name, [getMaterial] builds
    one with the index of the next free slot, appends it and returns it;
    the shared index moves past it only when [make_permanent] is set. *)
Theorem getMaterial_creates_missing
    (fname : string) (full perm : bool) (s : MaterialManager) :
  fname <> ""%string ->
  Z.of_nat (List.length (m_materials s)) < INT_MAX ->
  (forall m', In m' (m_materials s) -> getTexFname m' <> basename fname) ->
  let m := Material_of_file fname (N.of_nat (List.length (m_materials s)))
             full in
  exists s',
    getMaterial fname full perm s = Ret (s', Some m) /\
    m_materials s' = m_materials s ++ [m] /\
    vec_at (m_materials s') (Z.of_nat (List.length (m_materials s))) = Ret m /\
    m_shared_material_index s' =
      (if perm then Z.of_nat (List.length (m_materials s)) + 1
       else m_shared_material_index s).
Proof.
  intros Hne Hn Hnone m.
  destruct (getMaterial_creates_missing_lemma fname full perm s Hne Hn Hnone)
    as (s' & Hget & Hm & Hi & _).
  exists s'. split; [exact Hget|]. split; [exact Hm|].
  split; [|exact Hi]. rewrite Hm. apply vec_at_last.
Qed.

(** The loop of [popTempMaterial], started on the last index, removes as
    many materials from the back as it has rounds, deleting each. *)
Lemma popTempMaterial_loop_pops (popped : list Material) :
  forall (kept : list Material) (s : MaterialManager),
    m_materials s = kept ++ popped ->
    popTempMaterial_loop (List.length popped)
      (Z.of_nat (List.length (m_materials s)) - 1) s =
    Ret (mkMaterialManager kept (m_shared_material_index s)
           (m_deleted s ++ rev popped) (m_stderr s)).
Proof.
  induction popped as [|m popped IH] using rev_ind; intros kept s Hv.
  - cbn [List.length popTempMaterial_loop rev].
    rewrite app_nil_r in *. destruct s; cbn in *. now subst.
  - rewrite length_app, Nat.add_comm. cbn [List.length Nat.add].
    cbn [popTempMaterial_loop].
    rewrite Hv, app_assoc.
    replace (Z.of_nat (List.length ((kept ++ popped) ++ [m])) - 1)
      with (Z.of_nat (List.length (kept ++ popped)))
      by (rewrite (length_app (kept ++ popped)); cbn [List.length]; lia).
    rewrite vec_at_last. cbn [rbind delete m_materials].
    rewrite Hv, app_assoc.
    assert (Hpop : pop_back ((kept ++ popped) ++ [m]) = Ret (kept ++ popped)).
    { unfold pop_back. rewrite removelast_last.
      now destruct ((kept ++ popped) ++ [m]) eqn:E;
        [apply app_eq_nil in E; destruct E; discriminate|]. }
    rewrite Hpop. cbn [rbind].
    set (s1 := set_materials (kept ++ popped) _).
    replace (Z.of_nat (List.length (kept ++ popped)) - 1)
      with (Z.of_nat (List.length (m_materials s1)) - 1) by reflexivity.
    rewrite (IH kept s1 eq_refl). unfold s1.
    cbn [set_materials delete m_shared_material_index m_deleted m_stderr].
    now rewrite rev_app_distr, <- app_assoc.
Qed.

(** With more rounds than materials the loop runs off the front of the
    vector. *)
Lemma popTempMaterial_loop_underrun (v : list Material) :
  forall (fuel : nat) (s : MaterialManager),
    m_materials s = v ->
    (List.length v < fuel)%nat ->
    popTempMaterial_loop fuel (Z.of_nat (List.length v) - 1) s = Undefined.
Proof.
  induction v as [|m v IH] using rev_ind; intros fuel s Hv Hfuel.
  - destruct fuel as [|fuel]; [cbn in Hfuel; lia|].
    cbn [popTempMaterial_loop List.length].
    now rewrite vec_at_negative by lia.
  - destruct fuel as [|fuel]; [lia|].
    rewrite length_app in *. cbn [List.length] in *.
    cbn [popTempMaterial_loop]. rewrite Hv.
    replace (Z.of_nat (List.length v + 1) - 1)
      with (Z.of_nat (List.length v)) by lia.
    rewrite vec_at_last. cbn [rbind delete m_materials]. rewrite Hv.
    assert (Hpop : pop_back (v ++ [m]) = Ret v).
    { unfold pop_back. rewrite removelast_last.
      now destruct (v ++ [m]) eqn:E;
        [apply app_eq_nil in E; destruct E; discriminate|]. }
    rewrite Hpop. cbn [rbind].
    apply IH; [reflexivity|lia].
Qed.

(** [popTempMaterial] with a shared index inside the vector. *)
Lemma popTempMaterial_keeps_shared_lemma (s : MaterialManager) :
  0 <= m_shared_material_index s <= Z.of_nat (List.length (m_materials s)) ->
  Z.of_nat (List.length (m_materials s)) <= INT_MAX ->
  let n := Z.to_nat (m_shared_material_index s) in
  popTempMaterial s =
  Ret (mkMaterialManager (firstn n (m_materials s))
         (m_shared_material_index s)
         (m_deleted s ++ rev (skipn n (m_materials s))) (m_stderr s)).
Proof.
  intros Hidx Hn n. unfold popTempMaterial.
  rewrite int_of_length by exact Hn.
  assert (Hfuel :
    down_count (Z.of_nat (List.length (m_materials s)) - 1)
      (m_shared_material_index s) =
    List.length (skipn n (m_materials s))).
  { rewrite length_skipn. unfold down_count, n. lia. }
  rewrite Hfuel.
  apply popTempMaterial_loop_pops. now rewrite firstn_skipn.
Qed.

(** X16. With a shared index between 0 and the number of materials,
    [popTempMaterial] keeps exactly the materials below the shared index
    and deletes the others, last one first; the shared index stays.  In
    particular a second [popTempMaterial] changes nothing. *)
Theorem popTempMaterial_keeps_shared (s : MaterialManager) :
  0 <= m_shared_material_index s <= Z.of_nat (List.length (m_materials s)) ->
  Z.of_nat (List.length (m_materials s)) <= INT_MAX ->
  let n := Z.to_nat (m_shared_material_index s) in
  exists s',
    popTempMaterial s = Ret s' /\
    m_materials s' = firstn n (m_materials s) /\
    m_shared_material_index s' = m_shared_material_index s /\
    m_deleted s' = m_deleted s ++ rev (skipn n (m_materials s)) /\
    popTempMaterial s' = Ret s'.
Proof.
  intros Hidx Hn n.
  rewrite (popTempMaterial_keeps_shared_lemma s Hidx Hn). fold n.
  eexists. split; [reflexivity|].
  cbn [m_materials m_shared_material_index m_deleted].
  repeat split.
  set (s' := mkMaterialManager _ _ _ _).
  assert (Hlen : List.length (m_materials s') = n).
  { unfold s'. cbn [m_materials]. rewrite length_firstn. unfold n. lia. }
  assert (Hidx' : 0 <= m_shared_material_index s' <=
                  Z.of_nat (List.length (m_materials s')))
    by (rewrite Hlen; unfold s', n; cbn [m_shared_material_index]; lia).
  assert (Hn' : Z.of_nat (List.length (m_materials s')) <= INT_MAX)
    by (rewrite Hlen; unfold n; lia).
  rewrite (popTempMaterial_keeps_shared_lemma s' Hidx' Hn').
  replace (Z.to_nat (m_shared_material_index s'))
    with (List.length (m_materials s'))
    by (rewrite Hlen; unfold s', n; cbn [m_shared_material_index]; lia).
  rewrite firstn_all, skipn_all. cbn [rev]. rewrite app_nil_r.
  reflexivity.
Qed.

(** X17. With a negative shared index [popTempMaterial] does not stop at
    the empty vector: it goes on to read the material at index -1, outside
    the vector. *)
Theorem popTempMaterial_negative_index_underruns (s : MaterialManager) :
  m_shared_material_index s < 0 ->
  Z.of_nat (List.length (m_materials s)) <= INT_MAX ->
  popTempMaterial s = Undefined.
Proof.
  intros Hidx Hn. unfold popTempMaterial.
  rewrite int_of_length by exact Hn.
  apply popTempMaterial_loop_underrun; [reflexivity|].
  unfold down_count. lia.
Qed.

(** One round of the loop of [pushTempMaterial] appends at most one
    material and changes nothing else of the vector. *)
Lemma pushTempMaterial_step_extends (root : XMLNode) (filename : string)
    (s s' : MaterialManager) (i : N) :
  pushTempMaterial_step root filename s i = Ret s' ->
  exists added,
    m_materials s' = m_materials s ++ added /\
    (List.length added <= 1)%nat /\
    m_shared_material_index s' = m_shared_material_index s /\
    m_deleted s' = m_deleted s.
Proof.
  unfold pushTempMaterial_step.
  destruct (xml_getNode root i) as [node|]; [|discriminate].
  destruct (Material_of_node node _) as [m|what]; intros [= <-].
  - exists [m]. cbn. now repeat split.
  - exists []. cbn. rewrite app_nil_r. repeat split. lia.
Qed.

Lemma pushTempMaterial_loop_extends (root : XMLNode) (filename : string)
    (ids : list N) :
  forall s s' : MaterialManager,
    pushTempMaterial_loop root filename ids s = Ret s' ->
    exists added,
      m_materials s' = m_materials s ++ added /\
      (List.length added <= List.length ids)%nat /\
      m_shared_material_index s' = m_shared_material_index s /\
      m_deleted s' = m_deleted s.
Proof.
  induction ids as [|i ids IH]; intros s s'; cbn [pushTempMaterial_loop].
  - intros [= <-]. exists []. rewrite app_nil_r. now repeat split.
  - destruct (pushTempMaterial_step root filename s i) as [s1| | |] eqn:E;
      try discriminate.
    cbn [rbind]. intros Hloop.
    destruct (pushTempMaterial_step_extends _ _ _ _ _ E)
      as (a1 & Hm1 & Hl1 & Hs1 & Hd1).
    destruct (IH _ _ Hloop) as (a2 & Hm2 & Hl2 & Hs2 & Hd2).
    exists (a1 ++ a2). rewrite Hm2, Hm1, <- app_assoc, length_app.
    cbn [List.length]. repeat split; [lia|congruence|congruence].
Qed.

(** The loop ends by returning or through [exit(-1)], never otherwise. *)
Lemma pushTempMaterial_loop_ends (root : XMLNode) (filename : string)
    (ids : list N) :
  forall s : MaterialManager,
    (exists s', pushTempMaterial_loop root filename ids s = Ret s') \/
    pushTempMaterial_loop root filename ids s = Exit (-1).
Proof.
  induction ids as [|i ids IH]; intros s; cbn [pushTempMaterial_loop].
  - left. now eexists.
  - unfold pushTempMaterial_step.
    destruct (xml_getNode root i) as [node|]; [|now right].
    destruct (Material_of_node node _) as [m|what]; cbn [rbind]; apply IH.
Qed.

(** The ways [pushTempMaterial] can end. *)
Lemma pushTempMaterial_cases (filename : string) (s : MaterialManager) :
  match pushTempMaterial filename s with
  | Ret (s', ok) =>
      ok = true /\
      (exists added, m_materials s' = m_materials s ++ added) /\
      m_shared_material_index s' = m_shared_material_index s /\
      m_deleted s' = m_deleted s /\
      (match createXMLTree filename with
       | None => s' = s
       | Some root => xml_getName root <> "materials"%string -> s' = s
       end)
  | Exit code => code = -1
  | Throw _ => False
  | Undefined => False
  end.
Proof.
  unfold pushTempMaterial.
  destruct (createXMLTree filename) as [root|].
  - destruct (String.eqb_spec (xml_getName root) "materials") as [E|E];
      cbn [negb].
    + destruct (pushTempMaterial_loop_ends root filename
                  (upto (xml_getNumNodes root)) s) as [[s' Hs']|Hx];
        [|now rewrite Hx].
      rewrite Hs'. cbn [rbind].
      destruct (pushTempMaterial_loop_extends _ _ _ _ _ Hs')
        as (added & Hm & _ & Hi & Hd).
      split; [reflexivity|]. split; [now exists added|].
      split; [exact Hi|]. split; [exact Hd|]. intros Hne. contradiction.
    + split; [reflexivity|]. split; [exists []; now rewrite app_nil_r|].
      now repeat split.
  - split; [reflexivity|]. split; [exists []; now rewrite app_nil_r|].
    now repeat split.
Qed.

(** X18. [pushTempMaterial] only ever appends: the materials it finds
    come after the ones the manager had, and the shared index is not
    moved.  It reports success on every path on which it returns, also
    when the file does not exist or is not a material file, in which case
    the manager is untouched; the only other way out is [exit(-1)]. *)
Theorem pushTempMaterial_only_appends
    (filename : string) (s : MaterialManager) :
  match pushTempMaterial filename s with
  | Ret (s', ok) =>
      ok = true /\
      (exists added, m_materials s' = m_materials s ++ added) /\
      m_shared_material_index s' = m_shared_material_index s /\
      m_deleted s' = m_deleted s /\
      (match createXMLTree filename with
       | None => s' = s
       | Some root => xml_getName root <> "materials"%string -> s' = s
       end)
  | Exit code => code = -1
  | Throw _ => False
  | Undefined => False
  end.
Proof. exact (pushTempMaterial_cases filename s). Qed.

(** X19. [addSharedMaterial] throws for the empty file name and leaves
    it at that.  For any other name it never throws: the parsing error it
    is written to report cannot arise, because [pushTempMaterial] never
    returns false.  When it returns, every material in the manager is
    shared. *)
Theorem addSharedMaterial_outcomes (filename : string) (s : MaterialManager) :
  match addSharedMaterial filename s with
  | Ret s' =>
      filename <> ""%string /\
      (exists added, m_materials s' = m_materials s ++ added) /\
      m_shared_material_index s' =
        int_of_size (N.of_nat (List.length (m_materials s')))
  | Throw what =>
      filename = ""%string /\
      what = ("FATAL: File '' not found" ++ nl)%string
  | Exit code => filename <> ""%string /\ code = -1
  | Undefined => False
  end.
Proof.
  unfold addSharedMaterial.
  destruct (String.eqb_spec filename "") as [->|Hne]; [now split|].
  generalize (pushTempMaterial_cases filename s).
  destruct (pushTempMaterial filename s) as [[s' ok]| | |]; cbn [rbind];
    try contradiction.
  - intros (-> & Hadd & _). cbn [negb]. now repeat split.
  - intros ->. now split.
Qed.

(** X20. Temporary materials come and go: when all materials so far are
    shared, loading a file with [pushTempMaterial] and then calling
    [popTempMaterial] gives back exactly the vector of materials there was
    before, and what was loaded in between has been deleted. *)
Theorem pushTempMaterial_then_popTempMaterial
    (filename : string) (s s1 : MaterialManager) (ok : bool) :
  m_shared_material_index s = Z.of_nat (List.length (m_materials s)) ->
  pushTempMaterial filename s = Ret (s1, ok) ->
  Z.of_nat (List.length (m_materials s1)) <= INT_MAX ->
  exists s2 added,
    popTempMaterial s1 = Ret s2 /\
    m_materials s1 = m_materials s ++ added /\
    m_materials s2 = m_materials s /\
    m_shared_material_index s2 = m_shared_material_index s /\
    m_deleted s2 = m_deleted s ++ rev added.
Proof.
  intros Hshared Hpush Hn.
  generalize (pushTempMaterial_cases filename s). rewrite Hpush.
  intros (_ & (added & Hm) & Hi & Hd & _).
  assert (Hidx : 0 <= m_shared_material_index s1 <=
                 Z.of_nat (List.length (m_materials s1)))
    by (rewrite Hi, Hshared, Hm, length_app; lia).
  rewrite (popTempMaterial_keeps_shared_lemma s1 Hidx Hn).
  eexists. exists added. split; [reflexivity|].
  cbn [m_materials m_shared_material_index m_deleted].
  rewrite Hi, Hshared, Nat2Z.id, Hm.
  rewrite firstn_app, firstn_all, Nat.sub_diag, skipn_app, skipn_all,
    Nat.sub_diag.
  cbn [firstn skipn app]. rewrite app_nil_r, Hd. now repeat split.
Qed.

(** X21. What the comment of [getMaterial] promises: a material created
    on demand is temporary and is gone after the next [popTempMaterial],
    unless [make_permanent] is set; then it stays, and so does every
    material that was temporary before it. *)
Theorem getMaterial_then_popTempMaterial
    (fname : string) (full perm : bool) (s : MaterialManager) :
  fname <> ""%string ->
  Z.of_nat (List.length (m_materials s)) < INT_MAX ->
  0 <= m_shared_material_index s <= Z.of_nat (List.length (m_materials s)) ->
  (forall m', In m' (m_materials s) -> getTexFname m' <> basename fname) ->
  exists s1 m s2,
    getMaterial fname full perm s = Ret (s1, Some m) /\
    popTempMaterial s1 = Ret s2 /\
    m_materials s2 =
      (if perm then m_materials s ++ [m]
       else firstn (Z.to_nat (m_shared_material_index s)) (m_materials s)).
Proof.
  intros Hne Hn Hidx Hnone.
  destruct (getMaterial_creates_missing_lemma fname full perm s Hne Hn Hnone)
    as (s1 & Hget & Hm & Hi & _).
  eexists s1, _, _. split; [exact Hget|].
  assert (Hlen : Z.of_nat (List.length (m_materials s1)) =
                 Z.of_nat (List.length (m_materials s)) + 1).
  { rewrite Hm, length_app. cbn [List.length]. lia. }
  assert (Hidx1 : 0 <= m_shared_material_index s1 <=
                  Z.of_nat (List.length (m_materials s1)))
    by (rewrite Hi, Hlen; destruct perm; lia).
  assert (Hn1 : Z.of_nat (List.length (m_materials s1)) <= INT_MAX)
    by (rewrite Hlen; lia).
  rewrite (popTempMaterial_keeps_shared_lemma s1 Hidx1 Hn1).
  split; [reflexivity|]. cbn [m_materials]. rewrite Hi, Hm.
  destruct perm.
  - replace (Z.to_nat (Z.of_nat (List.length (m_materials s)) + 1))
      with (List.length (m_materials s ++
              [Material_of_file fname
                 (N.of_nat (List.length (m_materials s))) full]))
      by (rewrite length_app; cbn [List.length]; lia).
    apply firstn_all.
  - rewrite firstn_app.
    replace (Z.to_nat (m_shared_material_index s) -
             List.length (m_materials s))%nat with 0%nat by lia.
    cbn [firstn]. apply app_nil_r.
Qed.

(** The outcome of the loop of [pushTempMaterial], as far as the vector of
    materials goes, depends on that vector alone. *)
Lemma pushTempMaterial_loop_by_materials (root : XMLNode) (filename : string)
    (ids : list N) :
  forall s1 s2 : MaterialManager,
    m_materials s1 = m_materials s2 ->
    match pushTempMaterial_loop root filename ids s1,
          pushTempMaterial_loop root filename ids s2 with
    | Ret a, Ret b => m_materials a = m_materials b
    | Exit c, Exit d => c = d
    | _, _ => False
    end.
Proof.
  induction ids as [|i ids IH]; intros s1 s2 Hm; cbn [pushTempMaterial_loop].
  - exact Hm.
  - unfold pushTempMaterial_step. rewrite Hm.
    destruct (xml_getNode root i) as [node|]; [|reflexivity].
    destruct (Material_of_node node _) as [m|what]; cbn [rbind]; apply IH;
      cbn [set_materials print_stderr m_materials]; now rewrite ?Hm.
Qed.

(** X22. [reInit] deletes every material the manager holds and starts
    over from the shared material file: whenever it returns, the materials
    and the shared index it leaves do not depend on what the manager held
    before. *)
Theorem reInit_starts_over (s1 s2 s1' s2' : MaterialManager) :
  reInit s1 = Ret s1' ->
  reInit s2 = Ret s2' ->
  m_materials s1' = m_materials s2' /\
  m_shared_material_index s1' = m_shared_material_index s2' /\
  m_deleted s1' = m_deleted s1 ++ m_materials s1.
Proof.
  unfold reInit, loadMaterial, addSharedMaterial.
  destruct (getTextureFile "materials.xml" =? "")%string; [discriminate|].
  assert (Hdel : forall v s,
             m_deleted (fold_left (fun s m => delete m s) v s) =
             m_deleted s ++ v).
  { induction v as [|m v IH]; intros s; cbn [fold_left].
    - now rewrite app_nil_r.
    - rewrite IH. cbn [delete m_deleted]. now rewrite <- app_assoc. }
  set (c1 := set_materials [] (fold_left _ (m_materials s1) s1)).
  set (c2 := set_materials [] (fold_left _ (m_materials s2) s2)).
  assert (Hd1 : m_deleted c1 = m_deleted s1 ++ m_materials s1)
    by (unfold c1; cbn [set_materials m_deleted]; apply Hdel).
  unfold pushTempMaterial.
  destruct (createXMLTree _) as [root|].
  - destruct (negb _).
    + cbn [rbind negb]. intros [= <-] [= <-].
      cbn [set_shared_material_index m_materials m_shared_material_index
           m_deleted]. now repeat split.
    + generalize (pushTempMaterial_loop_by_materials root
                    (getTextureFile "materials.xml")
                    (upto (xml_getNumNodes root)) c1 c2 eq_refl).
      destruct (pushTempMaterial_loop _ _ _ c1) as [a| | |] eqn:Ea;
        destruct (pushTempMaterial_loop _ _ _ c2) as [b| | |] eqn:Eb;
        cbn [rbind negb]; try contradiction; try discriminate.
      intros Hab [= <-] [= <-].
      cbn [set_shared_material_index m_materials m_shared_material_index
           m_deleted].
      rewrite Hab. split; [reflexivity|]. split; [reflexivity|].
      destruct (pushTempMaterial_loop_extends _ _ _ _ _ Ea)
        as (_ & _ & _ & _ & Hd).
      now rewrite Hd.
  - cbn [rbind negb]. intros [= <-] [= <-].
    cbn [set_shared_material_index m_materials m_shared_material_index
         m_deleted]. now repeat split.
Qed.

(** X23. After [loadMaterial] every material is shared: a
    [popTempMaterial] that follows removes and deletes nothing. *)
Theorem loadMaterial_then_popTempMaterial (s s' : MaterialManager) :
  loadMaterial s = Ret s' ->
  Z.of_nat (List.length (m_materials s')) <= INT_MAX ->
  popTempMaterial s' = Ret s'.
Proof.
  intros Hload Hn.
  assert (Hidx : m_shared_material_index s' =
                 Z.of_nat (List.length (m_materials s'))).
  { revert Hload. unfold loadMaterial.
    destruct (addSharedMaterial _ s) as [a| | |]; try discriminate.
    cbn [rbind]. intros [= <-].
    cbn [set_shared_material_index m_materials m_shared_material_index] in *.
    now apply int_of_length. }
  assert (Hrange : 0 <= m_shared_material_index s' <=
                   Z.of_nat (List.length (m_materials s')))
    by (rewrite Hidx; lia).
  rewrite (popTempMaterial_keeps_shared_lemma s' Hrange Hn).
  rewrite Hidx, Nat2Z.id, firstn_all, skipn_all. cbn [rev].
  rewrite app_nil_r, <- Hidx. now destruct s'.
Qed.

(** The loop of [setAllMaterialFlags] over the first [n] materials. *)
Lemma setAllMaterialFlags_loop_spec (v : list Material) (image : string)
    (n : nat) :
  (n <= List.length v)%nat ->
  setAllMaterialFlags_loop v image n =
  Ret (rev (filter (fun m => (getTexFname m =? image)%string) (firstn n v))).
Proof.
  induction n as [|i IH]; intros Hn; [reflexivity|].
  cbn [setAllMaterialFlags_loop].
  destruct (nth_error v i) as [m|] eqn:E;
    [|apply nth_error_None in E; lia].
  rewrite (vec_at_nth _ _ _ _ E). cbn [rbind].
  rewrite IH by lia. cbn [rbind].
  rewrite (firstn_snoc _ v i m E), filter_app, rev_app_distr.
  cbn [filter]. now destruct (getTexFname m =? image)%string.
Qed.

(** X24. [setAllMaterialFlags] sets the properties of every material
    that carries the name of the texture, not only of the first one found,
    going from the most recently added material to the oldest. *)
Theorem setAllMaterialFlags_reaches_all_matches
    (texture_name : string) (s : MaterialManager) :
  Z.of_nat (List.length (m_materials s)) <= INT_MAX ->
  setAllMaterialFlags texture_name s =
  Ret (rev (filter
              (fun m => (getTexFname m =? basename texture_name)%string)
              (m_materials s))).
Proof.
  intros Hn. unfold setAllMaterialFlags.
  rewrite down_count_length by exact Hn.
  rewrite setAllMaterialFlags_loop_spec by lia.
  now rewrite firstn_all.
Qed.

End Props.

(** ** The properties in the small world of materials *)

Import ToyMaterials.

(** X12: a third material added to the loaded manager gets index 2. *)
Lemma addEntity_returns_index_witness :
  snd (addEntity (mkToyMaterial "sky.png" 7) loaded_manager) = 2 /\
  vec_at (m_materials (fst (addEntity (mkToyMaterial "sky.png" 7)
                              loaded_manager))) 2
    = Ret (mkToyMaterial "sky.png" 7).
Proof.
  destruct (addEntity_returns_index (W := toy_world) (mkToyMaterial "sky.png" 7)
              loaded_manager) as (_ & Hi & Hat & _);
    [unfold INT_MAX; cbn; lia|].
  split; [exact Hi|]. rewrite Hi in Hat. exact Hat.
Defined.

(** X14: during the race the track's own "road.png" (index 3) is found,
    not the shared one (index 1). *)
Lemma getMaterial_finds_latest_witness :
  getMaterial "textures/road.png" false false racing_manager
  = Ret (racing_manager, Some (mkToyMaterial "road.png" 3)).
Proof.
  apply (getMaterial_finds_latest (W := toy_world) "textures/road.png" false false
           racing_manager
           [mkToyMaterial "grass.png" 0; mkToyMaterial "road.png" 1;
            mkToyMaterial "lava.png" 2]
           [] (mkToyMaterial "road.png" 3)).
  - discriminate.
  - unfold INT_MAX. cbn. lia.
  - reflexivity.
  - reflexivity.
  - intros m' [].
Defined.

(** X15: a texture that is not there yet is created as material 2. *)
Lemma getMaterial_creates_missing_witness :
  exists s',
    getMaterial "tracks/volcano/smoke.png" false false loaded_manager
      = Ret (s', Some (mkToyMaterial "smoke.png" 2)) /\
    List.length (m_materials s') = 3%nat /\
    m_shared_material_index s' = 2.
Proof.
  destruct (getMaterial_creates_missing (W := toy_world) "tracks/volcano/smoke.png" false
              false loaded_manager) as (s' & Hget & Hm & _ & Hi).
  - discriminate.
  - unfold INT_MAX. cbn. lia.
  - intros m' [<-|[<-|[]]]; discriminate.
  - exists s'. split; [exact Hget|]. split; [now rewrite Hm|exact Hi].
Defined.

(** X16: after the race the two temporary materials are popped. *)
Lemma popTempMaterial_keeps_shared_witness :
  exists s',
    popTempMaterial racing_manager = Ret s' /\
    m_materials s' = m_materials loaded_manager /\
    m_deleted s' = [mkToyMaterial "road.png" 3; mkToyMaterial "lava.png" 2].
Proof.
  destruct (popTempMaterial_keeps_shared (W := toy_world) racing_manager)
    as (s' & Hpop & Hm & _ & Hd & _).
  - cbn. lia.
  - unfold INT_MAX. cbn. lia.
  - exists s'. split; [exact Hpop|]. split; [exact Hm|exact Hd].
Defined.

(** X17: a manager whose shared index was never set and happens to be
    -1. *)
Lemma popTempMaterial_negative_index_underruns_witness :
  popTempMaterial
    (fst (addEntity (mkToyMaterial "sky.png" 0) (MaterialManager_new (-1))))
  = Undefined.
Proof.
  apply (popTempMaterial_negative_index_underruns (W := toy_world)).
  - cbn. lia.
  - unfold INT_MAX. cbn. lia.
Defined.

(** X20: the track file adds two materials (its "broken" node is skipped
    with a message); popping gives back the loaded manager's materials. *)
Lemma pushTempMaterial_then_popTempMaterial_witness :
  exists s1 s2,
    pushTempMaterial "tracks/volcano/materials.xml" loaded_manager
      = Ret (s1, true) /\
    List.length (m_materials s1) = 4%nat /\
    popTempMaterial s1 = Ret s2 /\
    m_materials s2 = m_materials loaded_manager.
Proof.
  destruct (pushTempMaterial "tracks/volcano/materials.xml" loaded_manager)
    as [[s1 ok]| | |] eqn:E; try discriminate E.
  assert (Hs1 : List.length (m_materials s1) = 4%nat /\ ok = true).
  { revert E. vm_compute. intros [= <- <-]. now split. }
  destruct Hs1 as [Hlen ->].
  destruct (pushTempMaterial_then_popTempMaterial (W := toy_world)
              "tracks/volcano/materials.xml" loaded_manager s1 true)
    as (s2 & added & Hpop & _ & Hm & _).
  - reflexivity.
  - exact E.
  - rewrite Hlen. unfold INT_MAX. lia.
  - exists s1, s2. now repeat split.
Defined.

(** X21: a material created on demand during the race is popped with the
    other temporary ones. *)
Lemma getMaterial_then_popTempMaterial_witness :
  exists s1 m s2,
    getMaterial "smoke.png" false false racing_manager = Ret (s1, Some m) /\
    popTempMaterial s1 = Ret s2 /\
    m_materials s2 = m_materials loaded_manager.
Proof.
  destruct (getMaterial_then_popTempMaterial (W := toy_world) "smoke.png" false false
              racing_manager) as (s1 & m & s2 & Hget & Hpop & Hm).
  - discriminate.
  - unfold INT_MAX. cbn. lia.
  - cbn. lia.
  - intros m' [<-|[<-|[<-|[<-|[]]]]]; discriminate.
  - exists s1, m, s2. split; [exact Hget|]. split; [exact Hpop|exact Hm].
Defined.

(** X22: re-initialising the racing manager and the loaded one gives the
    same two shared materials. *)
Lemma reInit_starts_over_witness :
  exists s1' s2',
    reInit racing_manager = Ret s1' /\
    reInit loaded_manager = Ret s2' /\
    m_materials s1' = m_materials s2' /\
    m_deleted s1' = m_materials racing_manager.
Proof.
  destruct (reInit racing_manager) as [s1'| | |] eqn:E1;
    try (vm_compute in E1; discriminate E1).
  destruct (reInit loaded_manager) as [s2'| | |] eqn:E2;
    try (vm_compute in E2; discriminate E2).
  destruct (reInit_starts_over (W := toy_world) racing_manager loaded_manager s1' s2' E1 E2)
    as (Hm & _ & Hd).
  exists s1', s2'. now repeat split.
Defined.

(** X23: the shared file loaded into a new manager; nothing is popped. *)
Lemma loadMaterial_then_popTempMaterial_witness :
  exists s',
    loadMaterial (MaterialManager_new 0) = Ret s' /\
    m_materials s' = m_materials loaded_manager /\
    popTempMaterial s' = Ret s'.
Proof.
  destruct (loadMaterial (MaterialManager_new 0)) as [s'| | |] eqn:E;
    try (vm_compute in E; discriminate E).
  assert (Hm : m_materials s' = m_materials loaded_manager).
  { revert E. vm_compute. now intros [= <-]. }
  exists s'. split; [reflexivity|]. split; [exact Hm|].
  apply (loadMaterial_then_popTempMaterial (W := toy_world) (MaterialManager_new 0) s' E).
  rewrite Hm. unfold INT_MAX. cbn. lia.
Defined.

(** X24: both materials named "road.png" get their properties set, the
    temporary one first. *)
Lemma setAllMaterialFlags_reaches_all_matches_witness :
  setAllMaterialFlags "textures/road.png" racing_manager
  = Ret [mkToyMaterial "road.png" 3; mkToyMaterial "road.png" 1].
Proof.
  rewrite (setAllMaterialFlags_reaches_all_matches (W := toy_world) "textures/road.png"
             racing_manager); [reflexivity|].
  unfold INT_MAX. cbn. lia.
Defined.

End MaterialManagerProps.

(** * Properties of the challenges *)

Module ChallengeProps.

Import String Challenge.
Local Open Scope string_scope.

Section Props.

Context {W : ChallengeWorld}.


Lemma string_app_assoc (a b c : string) : (a ++ b) ++ c = a ++ (b ++ c).
Proof. induction a as [|x a IH]; cbn; [reflexivity|now rewrite IH]. Qed.






(** The loop over a list followed by another. *)
Lemma getUnlockedMessage_loop_app (fs gs : list UnlockableFeature) :
  forall (n : N) (acc : string),
    getUnlockedMessage_loop (fs ++ gs) n acc =
    match getUnlockedMessage_loop fs n acc with
    | Some m => getUnlockedMessage_loop gs (n + N.of_nat (List.length fs)) m
    | None => None
    end.
Proof.
  induction fs as [|f fs IH]; intros n acc.
  - cbn. now rewrite N.add_0_r.
  - cbn [app getUnlockedMessage_loop List.length].
    destruct (feature_message f) as [message|]; [|reflexivity].
    rewrite IH.
    replace (n + 1 + N.of_nat (List.length fs))%N
      with (n + N.of_nat (S (List.length fs)))%N by lia.
    reflexivity.
Qed.

(** Below 2^32 features the cast to [unsigned int] loses nothing. *)
Lemma getUnlockedMessage_all (c : Challenge) :
  (N.of_nat (List.length (m_feature c)) < 4294967296)%N ->
  getUnlockedMessage c = getUnlockedMessage_loop (m_feature c) 0 "".
Proof.
  intros Hn. unfold getUnlockedMessage.
  rewrite N.mod_small by exact Hn.
  now rewrite Nat2N.id, firstn_all.
Qed.

(** The message after one more feature has been added. *)
Lemma getUnlockedMessage_push (f : UnlockableFeature) (c : Challenge) :
  (N.of_nat (List.length (m_feature c)) + 1 < 4294967296)%N ->
  getUnlockedMessage (push_feature f c) =
  match getUnlockedMessage c, feature_message f with
  | Some m, Some x =>
      Some ((m ++ separator (N.of_nat (List.length (m_feature c)))) ++ x)
  | _, _ => None
  end.
Proof.
  intros Hn.
  rewrite !getUnlockedMessage_all
    by (cbn [push_feature m_feature]; rewrite ?length_app; cbn; lia).
  cbn [push_feature m_feature].
  rewrite getUnlockedMessage_loop_app.
  destruct (getUnlockedMessage_loop (m_feature c) 0 "") as [m|];
    [|reflexivity].
  cbn [getUnlockedMessage_loop]. rewrite N.add_0_l. unfold separator.
  destruct (feature_message f) as [x|]; [|reflexivity].
  destruct (0 <? N.of_nat (List.length (m_feature c)))%N; [reflexivity|].
  now rewrite string_app_assoc.
Qed.

(** X25. The unlocked message lists the rewards in the order they were
    added: adding a mode, a Grand Prix or a difficulty reward extends the
    message there was by the new reward's message, on a line of its own
    unless it is the first; the mode and the difficulty are named by their
    user-visible names, the Grand Prix by its translated name.  There is
    no message when there was none before, or when the text of the new
    reward is left without a terminator. *)
Theorem getUnlockedMessage_after_adding_reward
    (c : Challenge) (internal shown gp : string) :
  (N.of_nat (List.length (m_feature c)) + 1 < 4294967296)%N ->
  let sep := separator (N.of_nat (List.length (m_feature c))) in
  let extend format arg :=
    match getUnlockedMessage c, snprintf_127 (translate format) arg with
    | Some m, Some text => Some ((m ++ sep) ++ text)
    | _, _ => None
    end in
  getUnlockedMessage (addUnlockModeReward internal shown c) =
    extend ("New game mode" ++ newline ++ "'%s'" ++ newline
            ++ "now available") shown /\
  getUnlockedMessage (addUnlockGPReward gp c) =
    extend ("New Grand Prix '%s'" ++ newline ++ "now available")
      (translate gp) /\
  getUnlockedMessage (addUnlockDifficultyReward internal shown c) =
    extend ("New difficulty" ++ newline ++ "'%s'" ++ newline
            ++ "now available") shown.
Proof.
  intros Hn sep extend.
  unfold addUnlockModeReward, addUnlockGPReward, addUnlockDifficultyReward.
  rewrite !getUnlockedMessage_push by exact Hn.
  unfold extend, sep, feature_message. cbn [type name user_name].
  now repeat split.
Qed.




(** X27. A track reward whose track the track manager does not know
    makes the whole message fail, whatever the other rewards are. *)
Theorem getUnlockedMessage_unknown_track
    (c : Challenge) (f : UnlockableFeature) :
  (N.of_nat (List.length (m_feature c)) < 4294967296)%N ->
  In f (m_feature c) ->
  type f = UNLOCK_TRACK ->
  getTrackName (name f) = None ->
  getUnlockedMessage c = None.
Proof.
  intros Hn Hin Ht Hnone.
  rewrite getUnlockedMessage_all by exact Hn.
  destruct (in_split _ _ Hin) as (l1 & l2 & ->).
  rewrite getUnlockedMessage_loop_app.
  destruct (getUnlockedMessage_loop l1 0 "") as [m|]; [|reflexivity].
  cbn [getUnlockedMessage_loop]. unfold feature_message.
  now rewrite Ht, Hnone.
Qed.

End Props.

(** ** The properties in the small world of challenges *)

Import ToyChallenges.

(** X25: a Grand Prix added to the sample challenge, which already has
    two rewards. *)
Lemma getUnlockedMessage_after_adding_reward_witness :
  exists m,
    getUnlockedMessage sample_challenge = Some m /\
    getUnlockedMessage (addUnlockGPReward "Penguin Cup" sample_challenge) =
    Some (m ++ newline ++ "New Grand Prix 'Penguin Cup'" ++ newline
            ++ "now available").
Proof.
  destruct (getUnlockedMessage_after_adding_reward (W := toy_world)
              sample_challenge "" "" "Penguin Cup") as (_ & Hgp & _);
    [reflexivity|].
  destruct (getUnlockedMessage sample_challenge) as [m|] eqn:E;
    [|discriminate E].
  exists m. split; [reflexivity|].
  rewrite Hgp. vm_compute in E. injection E as <-. reflexivity.
Defined.


(** X27: a reward for a track the toy track manager does not have. *)
Lemma getUnlockedMessage_unknown_track_witness :
  getUnlockedMessage (addUnlockTrackReward "atlantis" sample_challenge)
  = None.
Proof.
  apply (getUnlockedMessage_unknown_track (W := toy_world) _
           (mkUnlockableFeature "atlantis" UNLOCK_TRACK "")).
  - reflexivity.
  - cbn. auto.
  - reflexivity.
  - reflexivity.
Defined.

End ChallengeProps.

(** * Properties of the create-server screen *)

Module CreateServerScreenProps.

Import String CreateServerScreen.
Local Open Scope string_scope.
Local Open Scope list_scope.
Local Open Scope Z_scope.

Section Props.

Context {W : ScreenWorld}.

(** A call changes the log and nothing else. *)
Lemma calls_spec (cs : list Call) :
  forall s : CreateServerScreen,
    calls cs s =
    mkScreen (m_prev_mode s) (m_prev_value s) (m_supports_ai s)
      (config_max_players s) (m_calls s ++ cs).
Proof.
  unfold calls. induction cs as [|c cs IH]; intros s; cbn [fold_left].
  - rewrite app_nil_r. now destruct s.
  - rewrite IH. unfold call. cbn. now rewrite <- app_assoc.
Qed.

Lemma calls_since_app (s s' : CreateServerScreen) (new : list Call) :
  m_calls s' = m_calls s ++ new -> calls_since s s' = new.
Proof.
  intros E. unfold calls_since. rewrite E.
  rewrite skipn_app, skipn_all, Nat.sub_diag. reflexivity.
Qed.

Lemma from_to_length (first last : Z) :
  List.length (from_to first last) = Z.to_nat (last - first + 1).
Proof. unfold from_to. now rewrite length_map, length_seq. Qed.

(** What [updateMoreOption] does to the screen besides calling widgets:
    nothing. *)
Lemma updateMoreOption_frame (g : Gui) (game_mode : Z)
    (s : CreateServerScreen) :
  exists new,
    updateMoreOption g game_mode s =
    mkScreen (m_prev_mode s) (m_prev_value s) (m_supports_ai s)
      (config_max_players s) (m_calls s ++ new).
Proof.
  unfold updateMoreOption.
  destruct ((game_mode =? 0) || (game_mode =? 1))%bool;
    [|destruct (game_mode =? 2); [|destruct (game_mode =? 3)]];
    repeat (progress (rewrite ?calls_spec; unfold call;
                      cbn [m_supports_ai m_prev_mode m_prev_value
                           config_max_players m_calls]));
    try destruct (m_supports_ai s);
    repeat (progress (rewrite ?calls_spec; unfold call;
                      cbn [m_supports_ai m_prev_mode m_prev_value
                           config_max_players m_calls]));
    try destruct (_ <? _);
    repeat (progress (rewrite ?calls_spec; unfold call;
                      cbn [m_supports_ai m_prev_mode m_prev_value
                           config_max_players m_calls]));
    rewrite <- ?app_assoc; eexists; reflexivity.
Qed.

(** X28. On a LAN, in the two race modes, the spinner for the number of
    AI karts gets the labels 0 to [max_players - 2] and a value that is
    the remembered one, cut down to [max_players - 2]: with at least two
    players allowed and a remembered value that is not negative, the value
    set is the index of one of the labels. *)
Theorem updateMoreOption_ai_count_in_range
    (g : Gui) (game_mode : Z) (s : CreateServerScreen) :
  m_supports_ai s = true ->
  game_mode = 0 \/ game_mode = 1 ->
  let top := max_players_value g - 2 in
  let labels := map (fun i => MoreOptionsSpinner_addLabel (toWString i))
                    (from_to 0 top) in
  let value := Z.min (m_prev_value s) top in
  calls_since s (updateMoreOption g game_mode s) =
    [MoreOptionsText_setVisible true; MoreOptionsSpinner_setVisible true;
     MoreOptionsSpinner_clearLabels;
     MoreOptionsText_setText (translate "Number of AI karts")]
    ++ labels ++ [MoreOptionsSpinner_setValue value] /\
  (0 <= m_prev_value s -> 2 <= max_players_value g ->
   0 <= value < Z.of_nat (List.length labels)).
Proof.
  intros Hai Hmode top labels value. split.
  - apply calls_since_app. unfold updateMoreOption.
    assert (Hm : ((game_mode =? 0) || (game_mode =? 1))%bool = true)
      by (destruct Hmode as [-> | ->]; reflexivity).
    rewrite Hm.
    repeat (progress (rewrite ?calls_spec; unfold call;
                      cbn [m_supports_ai m_prev_mode m_prev_value
                           config_max_players m_calls])).
    rewrite Hai.
    repeat (progress (rewrite ?calls_spec; unfold call;
                      cbn [m_supports_ai m_prev_mode m_prev_value
                           config_max_players m_calls])).
    fold top labels. unfold value.
    destruct (Z.ltb_spec top (m_prev_value s));
      cbn [m_calls]; rewrite <- !app_assoc; cbn [app];
      [rewrite Z.min_r by lia|rewrite Z.min_l by lia]; reflexivity.
  - intros Hprev Hmax. unfold labels, value, top.
    rewrite length_map, from_to_length. lia.
Qed.

(** A string that has no first character outside [chars] consists of
    characters of [chars]. *)
Lemma find_first_not_of_none (s chars : string) :
  find_first_not_of s chars = None ->
  forall c, In c (list_ascii_of_string s) -> is_one_of c chars = true.
Proof.
  induction s as [|d s IH]; cbn [find_first_not_of list_ascii_of_string];
    intros Hnone c Hin; [destruct Hin|].
  destruct (is_one_of d chars) eqn:Ed; [|discriminate].
  destruct Hin as [<-|Hin]; [exact Ed|].
  apply IH; [|exact Hin].
  now destruct (find_first_not_of s chars).
Qed.

Lemma password_accepted (password : string) :
  password_rejected password = false ->
  (forall c, In c (list_ascii_of_string password) ->
             is_one_of c password_characters = true) /\
  (String.length password <= 255)%nat.
Proof.
  unfold password_rejected. intros H.
  apply orb_false_iff in H. destruct H as [Hchars Hlen].
  apply Nat.ltb_ge in Hlen. split; [|exact Hlen].
  destruct password as [|c0 rest]; [intros c []|].
  cbn [String.eqb negb andb] in Hchars.
  destruct (find_first_not_of (String c0 rest) password_characters) eqn:E;
    [discriminate|].
  now apply find_first_not_of_none.
Qed.

(** Running the calls of a piece of code on a screen given by its fields. *)
Ltac run_calls :=
  repeat (progress (cbv [call set_config_max_players set_prev_mode
                         set_prev_value m_supports_ai m_prev_mode
                         m_prev_value config_max_players m_calls];
                    rewrite ?calls_spec)).

(** The ways [createServer] can end. *)
Lemma createServer_cases (g : Gui) (s : CreateServerScreen) :
  let name := trim (name_text g) in
  let max_players := max_players_value g in
  let password := wideToUtf8 (password_text g) in
  let name_ok := negb ((stringw_size name <? 4) || (30 <? stringw_size name))%N in
  let range_ok := (1 <? max_players) && (max_players <=? default_max_players g) in
  match createServer g s with
  | Crash AssertionFailed => name_ok = true /\ range_ok = false
  | Crash _ => name_ok = true /\ range_ok = true
  | Done s' =>
      (name_ok = false /\
       s' = mkScreen (m_prev_mode s) (m_prev_value s) (m_supports_ai s)
              (config_max_players s)
              (m_calls s ++
               [Info_setErrorColor;
                Info_setText
                  (translate
                     "Name has to be between 4 and 30 characters long!");
                SFXManager_quickSound "anvil"])) \/
      (name_ok = true /\ range_ok = true /\
       password_rejected password = true /\
       s' = mkScreen (m_prev_mode s) (m_prev_value s) (m_supports_ai s)
              max_players
              (m_calls s ++
               [Info_setErrorColor;
                Info_setText (translate "Incorrect characters in password!");
                SFXManager_quickSound "anvil"])) \/
      (name_ok = true /\ range_ok = true /\
       password_rejected password = false /\
       config_max_players s' = max_players /\
       m_supports_ai s' = m_supports_ai s /\
       (m_prev_mode s', m_prev_value s') =
         (if more_options_visible g
          then (game_mode_selection g, more_options_value g) else (0, 0)) /\
       exists cfg server,
         server_password_protected server = negb (password =? "")%string /\
         server_max_players server = max_players /\
         m_calls s' =
           m_calls s ++
           [Info_setErrorColor;
            ServerConfig_set_private_server_password password;
            NetworkConfig_setIsServer false] ++
           map (fun f => FileManager_removeFile
                           (user_config_dir g ++ "/" ++ f)%string)
               (filter (fun f => contains f "stk-server-id-file_")
                       (config_dir_files g)) ++
           [NetworkConfig_setServerIdFile
              (user_config_file g "stk-server-id-file_");
            STKHost_create_SeparateProcess (executable_location g)
              (cfg ++ " --server-password=" ++ password)%string;
            NetworkingLobby_setJoinedServer server])
  end.
Proof.
  destruct s as [pm pv ai cfg0 cs].
  intros name max_players password name_ok range_ok.
  unfold createServer. fold name max_players password.
  unfold name_ok.
  cbn [m_supports_ai m_prev_mode m_prev_value config_max_players m_calls].
  destruct ((stringw_size name <? 4) || (30 <? stringw_size name))%N.
  - left. split; [reflexivity|].
    run_calls. rewrite <- ?app_assoc. reflexivity.
  - unfold range_ok.
    destruct ((1 <? max_players) && (max_players <=? default_max_players g));
      cbn [assert bind negb]; [|now split].
    unfold require_widget.
    destruct (has_widget g "password"); cbn [bind]; [|now split].
    destruct (password_rejected password) eqn:Epw.
    + right. left. repeat (split; [reflexivity|]).
      run_calls. rewrite <- ?app_assoc. reflexivity.
    + destruct (has_widget g "difficulty"); cbn [bind]; [|now split].
      destruct (has_widget g "gamemode"); cbn [bind]; [|now split].
      destruct (more_options_visible g);
        right; right; run_calls;
        repeat (split; [reflexivity|]);
        eexists; eexists;
        (split; [|split; [|rewrite <- ?app_assoc; cbn [app]; reflexivity]]);
        reflexivity.
Qed.

(** X29. [createServer] starts a server process only for input it has
    checked: the trimmed name has 4 to 30 characters, the number of players
    is above 1 and at most the default, the password consists of the
    allowed characters and has at most 255 of them. The number of players
    is then the configured one, the process is the current executable, and
    its arguments end with the password option. *)
Theorem createServer_starts_only_valid_servers
    (g : Gui) (s s' : CreateServerScreen) (exe args : string) :
  createServer g s = Done s' ->
  In (STKHost_create_SeparateProcess exe args) (calls_since s s') ->
  let name := trim (name_text g) in
  let password := wideToUtf8 (password_text g) in
  (4 <= stringw_size name <= 30)%N /\
  1 < max_players_value g <= default_max_players g /\
  (forall c, In c (list_ascii_of_string password) ->
             is_one_of c password_characters = true) /\
  (String.length password <= 255)%nat /\
  config_max_players s' = max_players_value g /\
  exe = executable_location g /\
  exists cfg, args = (cfg ++ " --server-password=" ++ password)%string.
Proof.
  intros Hc Hin name password.
  pose proof (createServer_cases g s) as H. cbv zeta in H. rewrite Hc in H.
  fold name password in H.
  destruct H as [[_ ->] | [(_ & _ & _ & ->) | H]].
  - erewrite calls_since_app in Hin by (cbn [m_calls]; reflexivity).
    destruct Hin as [E|[E|[E|[]]]]; discriminate E.
  - erewrite calls_since_app in Hin by (cbn [m_calls]; reflexivity).
    destruct Hin as [E|[E|[E|[]]]]; discriminate E.
  - destruct H as (Hname & Hrange & Hpw & Hmax & _ & _ & cfg & server & _ & _
                   & Hcalls).
    rewrite (calls_since_app _ _ _ Hcalls) in Hin.
    apply negb_true_iff, orb_false_iff in Hname. destruct Hname as [Hlo Hhi].
    apply N.ltb_ge in Hlo, Hhi.
    apply andb_true_iff in Hrange. destruct Hrange as [H1 Hdef].
    apply Z.ltb_lt in H1. apply Z.leb_le in Hdef.
    destruct (password_accepted _ Hpw) as [Hchars Hlen].
    repeat (split; [assumption || lia|]).
    cbn [app] in Hin.
    destruct Hin as [E|[E|[E|Hin]]]; try discriminate E.
    apply in_app_or in Hin. destruct Hin as [Hin|[E|[E|[E|[]]]]];
      try discriminate E.
    + apply in_map_iff in Hin. destruct Hin as (f & E & _). discriminate E.
    + injection E as <- <-. split; [reflexivity|]. now exists cfg.
Qed.

(** [loadedFromFile] cuts the configured number of players down to the
    default. *)
Lemma loadedFromFile_caps_max_players (g : Gui) (s s' : CreateServerScreen) :
  loadedFromFile g s = Done s' ->
  config_max_players s' =
    Z.min (config_max_players s) (default_max_players g) /\
  m_prev_mode s' = 0 /\ m_prev_value s' = 0.
Proof.
  unfold loadedFromFile, assert_widget.
  repeat (destruct (has_widget g _); cbn [assert bind]; [|discriminate]).
  intros [= <-].
  unfold call, set_prev_mode, set_prev_value.
  cbn [m_supports_ai m_prev_mode m_prev_value config_max_players m_calls].
  destruct (Z.ltb_spec (default_max_players g) (config_max_players s));
    cbn [set_config_max_players m_supports_ai m_prev_mode m_prev_value
         config_max_players m_calls];
    repeat split; lia.
Qed.

(** X30. Once the configured number of players is at most the default, as
    [loadedFromFile] leaves it, no event of the screen takes it above the
    default again: creating a server changes it only to a value that was
    checked against the default, and the other events do not change it. *)
Theorem eventCallback_keeps_max_players_capped
    (g : Gui) (name : string) (s s' : CreateServerScreen) :
  eventCallback g name s = Done s' ->
  config_max_players s <= default_max_players g ->
  config_max_players s' <= default_max_players g.
Proof.
  unfold eventCallback. intros He Hcap.
  destruct (name =? options_id g)%string.
  - destruct (options_selection g =? cancel_id g)%string.
    + injection He as <-. exact Hcap.
    + destruct (options_selection g =? create_id g)%string;
        [|now injection He as <-].
      pose proof (createServer_cases g s) as H. cbv zeta in H.
      rewrite He in H.
      destruct H as [[_ ->] | [(_ & Hrange & _ & ->)
                               | (_ & Hrange & _ & -> & _)]];
        cbn [config_max_players]; [exact Hcap| |];
        apply andb_true_iff in Hrange; destruct Hrange as [_ Hdef];
        now apply Z.leb_le in Hdef.
  - destruct (name =? game_mode_id g)%string.
    + injection He as <-.
      destruct (updateMoreOption_frame g (game_mode_selection g)
                  (set_prev_value 0 s)) as [new ->].
      exact Hcap.
    + destruct ((name =? max_players_id g)%string && m_supports_ai s);
        injection He as <-; [|exact Hcap].
      destruct (updateMoreOption_frame g (game_mode_selection g)
                  (set_prev_value (more_options_value g) s)) as [new ->].
      exact Hcap.
Qed.

End Props.

Import ToyScreen.

(** X28: with four players allowed and five AI karts remembered, the
    spinner offers 0, 1 and 2 and is set to 2. *)
Lemma updateMoreOption_ai_count_in_range_witness :
  calls_since lan_screen
    (updateMoreOption (lan_gui "tux's server" "secret" 4) 0 lan_screen) =
    [MoreOptionsText_setVisible true; MoreOptionsSpinner_setVisible true;
     MoreOptionsSpinner_clearLabels;
     MoreOptionsText_setText "Number of AI karts";
     MoreOptionsSpinner_addLabel "0"; MoreOptionsSpinner_addLabel "1";
     MoreOptionsSpinner_addLabel "2"; MoreOptionsSpinner_setValue 2] /\
  0 <= 2 < 3.
Proof.
  destruct (updateMoreOption_ai_count_in_range (W := toy_world)
              (lan_gui "tux's server" "secret" 4) 0 lan_screen)
    as [Hcalls Hrange].
  - reflexivity.
  - left. reflexivity.
  - split; [exact Hcalls|]. apply Hrange; cbn; lia.
Defined.

(** X29: a LAN server for four players and three AI karts, with the
    password [secret]. *)
Lemma createServer_starts_only_valid_servers_witness :
  exists s',
    createServer (lan_gui "tux's server" "secret" 4) lan_screen = Done s' /\
    config_max_players s' = 4 /\
    In (STKHost_create_SeparateProcess "/usr/bin/supertuxkart"
          ("--lan-server=tux's server --stdout=server.log"
           ++ " --mode=0 --difficulty=1 --max-players=4"
           ++ " --server-id-file=stk-server-id-file_"
           ++ " --log=1 --no-console-log --server-ai=3"
           ++ " --server-password=secret"))
       (m_calls s').
Proof.
  destruct (createServer (W := toy_world)
              (lan_gui "tux's server" "secret" 4) lan_screen)
    as [s'|f] eqn:E; [|vm_compute in E; discriminate E].
  assert (Hin : In (STKHost_create_SeparateProcess "/usr/bin/supertuxkart"
                      ("--lan-server=tux's server --stdout=server.log"
                       ++ " --mode=0 --difficulty=1 --max-players=4"
                       ++ " --server-id-file=stk-server-id-file_"
                       ++ " --log=1 --no-console-log --server-ai=3"
                       ++ " --server-password=secret"))
                   (calls_since lan_screen s')).
  { vm_compute in E. injection E as <-. vm_compute. tauto. }
  destruct (createServer_starts_only_valid_servers (W := toy_world)
              _ _ _ _ _ E Hin)
    as (_ & _ & _ & _ & Hmax & _ & _).
  exists s'. split; [reflexivity|]. split; [exact Hmax|exact Hin].
Defined.

(** X30: creating a LAN server for four players from a configuration of
    eight leaves the configuration at four. *)
Lemma eventCallback_keeps_max_players_capped_witness :
  exists s',
    eventCallback (lan_gui "tux's server" "secret" 4) "options"
      (mkScreen 0 5 true 8 []) = Done s' /\
    config_max_players s' <= 8.
Proof.
  destruct (eventCallback (W := toy_world)
              (lan_gui "tux's server" "secret" 4) "options"
              (mkScreen 0 5 true 8 []))
    as [s'|f] eqn:E; [|vm_compute in E; discriminate E].
  exists s'. split; [reflexivity|].
  apply (eventCallback_keeps_max_players_capped (W := toy_world) _ _ _ _ E).
  cbn. lia.
Defined.

End CreateServerScreenProps.
